(** * usb_descrip_gen: the USB 3.0 / USB 2.0 descriptor generator

    A shallow embedding of [usb3_core/daisho_mod/usb_descrip_gen.c] and the
    properties of its two output streams, of the descriptor encoders and of
    the exported parameter table.

    Conventions of the embedding.
    - A [u8], [u16] or [u32] value is a [Z]; the wrap-around of every store
      and of every counter update is written out ([u8], [u32]).  Arguments
      are given in the range of their C type.
    - [buf_2] and [buf_3] are lists of 1024 bytes.  The pointers [a] and [z]
      only ever point into [buf_2] and [buf_3] respectively, so each is the
      offset into its buffer.
    - A pointer argument ([u8 *buf], [char *str]) is the list of the bytes of
      the object starting at that address.  An access outside the object is
      undefined behaviour and yields [Undef].  The one access of that kind
      [main] itself makes, the read of four bytes from the two-byte
      literals of [add_set], is given the bytes the platform has there.
    - The program is compiled for a little-endian host: [*(u32 * )p] reads the
      byte at [p] as the least significant one, and copying the first two
      bytes of a [u32] copies its low 16 bits.
    - A text file is the list of its lines; a line of [usb_descrip.vh] is the
      record of what [fprintf] is given.
    - The five files are taken to be open: [fail], the progress messages
      and [fclose] are left out.
    - The two padding loops of [main] take fuel; [OutOfFuel] is a loop that
      has not ended yet. *)

From Stdlib Require Import ZArith List String Ascii Bool Lia DecimalString.
Import ListNotations.
Local Open Scope string_scope.
Local Open Scope list_scope.
Local Open Scope Z_scope.

(** ** Machine integers *)

Definition u8 (x : Z) : Z := x mod 256.
Definition u16 (x : Z) : Z := x mod 65536.
Definition u32 (x : Z) : Z := x mod 4294967296.

(** What [printf("%d", x)] shows for a [u32] argument [x]. *)
Definition as_int (x : Z) : Z :=
  if u32 x <? 2147483648 then u32 x else u32 x - 4294967296.

(** The little-endian load [*(u32 * )p] of four bytes. *)
Definition le32 (b0 b1 b2 b3 : Z) : Z :=
  Z.lor (Z.lor (Z.lor b0 (Z.shiftl b1 8)) (Z.shiftl b2 16)) (Z.shiftl b3 24).

(** The four bytes of a [u32] in memory order. *)
Definition le_bytes32 (w : Z) : list Z :=
  [Z.land w 255; Z.land (Z.shiftr w 8) 255;
   Z.land (Z.shiftr w 16) 255; Z.land (Z.shiftr w 24) 255].

(** [w = (w & 0xff) << 24 | (w & 0xff00) << 8 | (w & 0xff0000) >> 8
        | (w & 0xff000000) >> 24] of [write_buf32]. *)
Definition bswap32 (w : Z) : Z :=
  Z.lor (Z.lor (Z.lor (Z.shiftl (Z.land w 0xff) 24)
                      (Z.shiftl (Z.land w 0xff00) 8))
               (Z.shiftr (Z.land w 0xff0000) 8))
        (Z.shiftr (Z.land w 0xff000000) 24).

(** ** Formatted output *)

Definition hex_digit (d : Z) : ascii :=
  match d with
  | 0 => "0" | 1 => "1" | 2 => "2" | 3 => "3" | 4 => "4" | 5 => "5"
  | 6 => "6" | 7 => "7" | 8 => "8" | 9 => "9" | 10 => "A" | 11 => "B"
  | 12 => "C" | 13 => "D" | 14 => "E" | _ => "F"
  end%char.

(** [n] upper-case hexadecimal digits of [x], most significant first, put in
    front of [acc]: the conversions [%02X] and [%08X] of a value that fits. *)
Fixpoint hex_digits (n : nat) (x : Z) (acc : string) : string :=
  match n with
  | O => acc
  | S n' => hex_digits n' (x / 16) (String (hex_digit (x mod 16)) acc)
  end.

Definition hex2 (x : Z) : string := hex_digits 2 x "".
Definition hex8 (x : Z) : string := hex_digits 8 x "".

Definition hex_value (c : ascii) : Z :=
  let n := Z.of_nat (nat_of_ascii c) in
  if (48 <=? n) && (n <=? 57) then n - 48
  else if (65 <=? n) && (n <=? 70) then n - 55
  else 0.

(** Reading a hexadecimal numeral back. *)
Fixpoint unhex_from (acc : Z) (s : string) : Z :=
  match s with
  | EmptyString => acc
  | String c s' => unhex_from (16 * acc + hex_value c) s'
  end.

Definition unhex (s : string) : Z := unhex_from 0 s.

(** [%d] of a small non-negative number. *)
Definition decimal (n : Z) : string :=
  NilEmpty.string_of_uint (N.to_uint (Z.to_N n)).

(** ** The generator's state: its global variables and its five files *)

Inductive target := USB2 | USB3.

(** One line of [usb_descrip.vh]:
    [parameter [vh_msb:0] DESCR_<vh_target>_<vh_name> = 'd<vh_value>;] *)
Record vh_line := {
  vh_target : target;
  vh_msb : Z;
  vh_name : string;
  vh_value : Z
}.

Record state := {
  i_2 : Z; i_3 : Z;
  c_2 : Z; c_3 : Z;
  a : Z;                       (* offset of the pointer [a] in [buf_2] *)
  z : Z;                       (* offset of the pointer [z] in [buf_3] *)
  buf_2 : list Z;
  buf_3 : list Z;
  bytes_pending_2 : Z;
  bytes_pending_3 : Z;
  bitwidth_2 : Z;
  bitwidth_3 : Z;
  bytes_written_2 : Z;
  bytes_written_3 : Z;
  init_2 : list string;        (* usb2_descrip_rom.init, one line per byte *)
  bin_2 : list Z;              (* usb2_descrip.bin *)
  init_3 : list string;        (* usb3_descrip_rom.init, one line per word *)
  bin_3 : list Z;              (* usb3_descrip.bin *)
  descrip_vh : list vh_line    (* usb_descrip.vh *)
}.

(** Assignment to one global variable or file. *)

Definition set_i_2 (v : _) (s : state) : state :=
  {| i_2 := v; i_3 := i_3 s; c_2 := c_2 s; c_3 := c_3 s; a := a s; z := z s;
     buf_2 := buf_2 s; buf_3 := buf_3 s;
     bytes_pending_2 := bytes_pending_2 s;
     bytes_pending_3 := bytes_pending_3 s; bitwidth_2 := bitwidth_2 s;
     bitwidth_3 := bitwidth_3 s; bytes_written_2 := bytes_written_2 s;
     bytes_written_3 := bytes_written_3 s; init_2 := init_2 s;
     bin_2 := bin_2 s; init_3 := init_3 s; bin_3 := bin_3 s;
     descrip_vh := descrip_vh s |}.

Definition set_i_3 (v : _) (s : state) : state :=
  {| i_2 := i_2 s; i_3 := v; c_2 := c_2 s; c_3 := c_3 s; a := a s; z := z s;
     buf_2 := buf_2 s; buf_3 := buf_3 s;
     bytes_pending_2 := bytes_pending_2 s;
     bytes_pending_3 := bytes_pending_3 s; bitwidth_2 := bitwidth_2 s;
     bitwidth_3 := bitwidth_3 s; bytes_written_2 := bytes_written_2 s;
     bytes_written_3 := bytes_written_3 s; init_2 := init_2 s;
     bin_2 := bin_2 s; init_3 := init_3 s; bin_3 := bin_3 s;
     descrip_vh := descrip_vh s |}.

Definition set_c_2 (v : _) (s : state) : state :=
  {| i_2 := i_2 s; i_3 := i_3 s; c_2 := v; c_3 := c_3 s; a := a s; z := z s;
     buf_2 := buf_2 s; buf_3 := buf_3 s;
     bytes_pending_2 := bytes_pending_2 s;
     bytes_pending_3 := bytes_pending_3 s; bitwidth_2 := bitwidth_2 s;
     bitwidth_3 := bitwidth_3 s; bytes_written_2 := bytes_written_2 s;
     bytes_written_3 := bytes_written_3 s; init_2 := init_2 s;
     bin_2 := bin_2 s; init_3 := init_3 s; bin_3 := bin_3 s;
     descrip_vh := descrip_vh s |}.

Definition set_c_3 (v : _) (s : state) : state :=
  {| i_2 := i_2 s; i_3 := i_3 s; c_2 := c_2 s; c_3 := v; a := a s; z := z s;
     buf_2 := buf_2 s; buf_3 := buf_3 s;
     bytes_pending_2 := bytes_pending_2 s;
     bytes_pending_3 := bytes_pending_3 s; bitwidth_2 := bitwidth_2 s;
     bitwidth_3 := bitwidth_3 s; bytes_written_2 := bytes_written_2 s;
     bytes_written_3 := bytes_written_3 s; init_2 := init_2 s;
     bin_2 := bin_2 s; init_3 := init_3 s; bin_3 := bin_3 s;
     descrip_vh := descrip_vh s |}.

Definition set_a (v : _) (s : state) : state :=
  {| i_2 := i_2 s; i_3 := i_3 s; c_2 := c_2 s; c_3 := c_3 s; a := v;
     z := z s; buf_2 := buf_2 s; buf_3 := buf_3 s;
     bytes_pending_2 := bytes_pending_2 s;
     bytes_pending_3 := bytes_pending_3 s; bitwidth_2 := bitwidth_2 s;
     bitwidth_3 := bitwidth_3 s; bytes_written_2 := bytes_written_2 s;
     bytes_written_3 := bytes_written_3 s; init_2 := init_2 s;
     bin_2 := bin_2 s; init_3 := init_3 s; bin_3 := bin_3 s;
     descrip_vh := descrip_vh s |}.

Definition set_z (v : _) (s : state) : state :=
  {| i_2 := i_2 s; i_3 := i_3 s; c_2 := c_2 s; c_3 := c_3 s; a := a s;
     z := v; buf_2 := buf_2 s; buf_3 := buf_3 s;
     bytes_pending_2 := bytes_pending_2 s;
     bytes_pending_3 := bytes_pending_3 s; bitwidth_2 := bitwidth_2 s;
     bitwidth_3 := bitwidth_3 s; bytes_written_2 := bytes_written_2 s;
     bytes_written_3 := bytes_written_3 s; init_2 := init_2 s;
     bin_2 := bin_2 s; init_3 := init_3 s; bin_3 := bin_3 s;
     descrip_vh := descrip_vh s |}.

Definition set_buf_2 (v : _) (s : state) : state :=
  {| i_2 := i_2 s; i_3 := i_3 s; c_2 := c_2 s; c_3 := c_3 s; a := a s;
     z := z s; buf_2 := v; buf_3 := buf_3 s;
     bytes_pending_2 := bytes_pending_2 s;
     bytes_pending_3 := bytes_pending_3 s; bitwidth_2 := bitwidth_2 s;
     bitwidth_3 := bitwidth_3 s; bytes_written_2 := bytes_written_2 s;
     bytes_written_3 := bytes_written_3 s; init_2 := init_2 s;
     bin_2 := bin_2 s; init_3 := init_3 s; bin_3 := bin_3 s;
     descrip_vh := descrip_vh s |}.

Definition set_buf_3 (v : _) (s : state) : state :=
  {| i_2 := i_2 s; i_3 := i_3 s; c_2 := c_2 s; c_3 := c_3 s; a := a s;
     z := z s; buf_2 := buf_2 s; buf_3 := v;
     bytes_pending_2 := bytes_pending_2 s;
     bytes_pending_3 := bytes_pending_3 s; bitwidth_2 := bitwidth_2 s;
     bitwidth_3 := bitwidth_3 s; bytes_written_2 := bytes_written_2 s;
     bytes_written_3 := bytes_written_3 s; init_2 := init_2 s;
     bin_2 := bin_2 s; init_3 := init_3 s; bin_3 := bin_3 s;
     descrip_vh := descrip_vh s |}.

Definition set_bytes_pending_2 (v : _) (s : state) : state :=
  {| i_2 := i_2 s; i_3 := i_3 s; c_2 := c_2 s; c_3 := c_3 s; a := a s;
     z := z s; buf_2 := buf_2 s; buf_3 := buf_3 s; bytes_pending_2 := v;
     bytes_pending_3 := bytes_pending_3 s; bitwidth_2 := bitwidth_2 s;
     bitwidth_3 := bitwidth_3 s; bytes_written_2 := bytes_written_2 s;
     bytes_written_3 := bytes_written_3 s; init_2 := init_2 s;
     bin_2 := bin_2 s; init_3 := init_3 s; bin_3 := bin_3 s;
     descrip_vh := descrip_vh s |}.

Definition set_bytes_pending_3 (v : _) (s : state) : state :=
  {| i_2 := i_2 s; i_3 := i_3 s; c_2 := c_2 s; c_3 := c_3 s; a := a s;
     z := z s; buf_2 := buf_2 s; buf_3 := buf_3 s;
     bytes_pending_2 := bytes_pending_2 s; bytes_pending_3 := v;
     bitwidth_2 := bitwidth_2 s; bitwidth_3 := bitwidth_3 s;
     bytes_written_2 := bytes_written_2 s;
     bytes_written_3 := bytes_written_3 s; init_2 := init_2 s;
     bin_2 := bin_2 s; init_3 := init_3 s; bin_3 := bin_3 s;
     descrip_vh := descrip_vh s |}.

Definition set_bitwidth_2 (v : _) (s : state) : state :=
  {| i_2 := i_2 s; i_3 := i_3 s; c_2 := c_2 s; c_3 := c_3 s; a := a s;
     z := z s; buf_2 := buf_2 s; buf_3 := buf_3 s;
     bytes_pending_2 := bytes_pending_2 s;
     bytes_pending_3 := bytes_pending_3 s; bitwidth_2 := v;
     bitwidth_3 := bitwidth_3 s; bytes_written_2 := bytes_written_2 s;
     bytes_written_3 := bytes_written_3 s; init_2 := init_2 s;
     bin_2 := bin_2 s; init_3 := init_3 s; bin_3 := bin_3 s;
     descrip_vh := descrip_vh s |}.

Definition set_bitwidth_3 (v : _) (s : state) : state :=
  {| i_2 := i_2 s; i_3 := i_3 s; c_2 := c_2 s; c_3 := c_3 s; a := a s;
     z := z s; buf_2 := buf_2 s; buf_3 := buf_3 s;
     bytes_pending_2 := bytes_pending_2 s;
     bytes_pending_3 := bytes_pending_3 s; bitwidth_2 := bitwidth_2 s;
     bitwidth_3 := v; bytes_written_2 := bytes_written_2 s;
     bytes_written_3 := bytes_written_3 s; init_2 := init_2 s;
     bin_2 := bin_2 s; init_3 := init_3 s; bin_3 := bin_3 s;
     descrip_vh := descrip_vh s |}.

Definition set_bytes_written_2 (v : _) (s : state) : state :=
  {| i_2 := i_2 s; i_3 := i_3 s; c_2 := c_2 s; c_3 := c_3 s; a := a s;
     z := z s; buf_2 := buf_2 s; buf_3 := buf_3 s;
     bytes_pending_2 := bytes_pending_2 s;
     bytes_pending_3 := bytes_pending_3 s; bitwidth_2 := bitwidth_2 s;
     bitwidth_3 := bitwidth_3 s; bytes_written_2 := v;
     bytes_written_3 := bytes_written_3 s; init_2 := init_2 s;
     bin_2 := bin_2 s; init_3 := init_3 s; bin_3 := bin_3 s;
     descrip_vh := descrip_vh s |}.

Definition set_bytes_written_3 (v : _) (s : state) : state :=
  {| i_2 := i_2 s; i_3 := i_3 s; c_2 := c_2 s; c_3 := c_3 s; a := a s;
     z := z s; buf_2 := buf_2 s; buf_3 := buf_3 s;
     bytes_pending_2 := bytes_pending_2 s;
     bytes_pending_3 := bytes_pending_3 s; bitwidth_2 := bitwidth_2 s;
     bitwidth_3 := bitwidth_3 s; bytes_written_2 := bytes_written_2 s;
     bytes_written_3 := v; init_2 := init_2 s; bin_2 := bin_2 s;
     init_3 := init_3 s; bin_3 := bin_3 s; descrip_vh := descrip_vh s |}.

Definition set_init_2 (v : _) (s : state) : state :=
  {| i_2 := i_2 s; i_3 := i_3 s; c_2 := c_2 s; c_3 := c_3 s; a := a s;
     z := z s; buf_2 := buf_2 s; buf_3 := buf_3 s;
     bytes_pending_2 := bytes_pending_2 s;
     bytes_pending_3 := bytes_pending_3 s; bitwidth_2 := bitwidth_2 s;
     bitwidth_3 := bitwidth_3 s; bytes_written_2 := bytes_written_2 s;
     bytes_written_3 := bytes_written_3 s; init_2 := v; bin_2 := bin_2 s;
     init_3 := init_3 s; bin_3 := bin_3 s; descrip_vh := descrip_vh s |}.

Definition set_bin_2 (v : _) (s : state) : state :=
  {| i_2 := i_2 s; i_3 := i_3 s; c_2 := c_2 s; c_3 := c_3 s; a := a s;
     z := z s; buf_2 := buf_2 s; buf_3 := buf_3 s;
     bytes_pending_2 := bytes_pending_2 s;
     bytes_pending_3 := bytes_pending_3 s; bitwidth_2 := bitwidth_2 s;
     bitwidth_3 := bitwidth_3 s; bytes_written_2 := bytes_written_2 s;
     bytes_written_3 := bytes_written_3 s; init_2 := init_2 s; bin_2 := v;
     init_3 := init_3 s; bin_3 := bin_3 s; descrip_vh := descrip_vh s |}.

Definition set_init_3 (v : _) (s : state) : state :=
  {| i_2 := i_2 s; i_3 := i_3 s; c_2 := c_2 s; c_3 := c_3 s; a := a s;
     z := z s; buf_2 := buf_2 s; buf_3 := buf_3 s;
     bytes_pending_2 := bytes_pending_2 s;
     bytes_pending_3 := bytes_pending_3 s; bitwidth_2 := bitwidth_2 s;
     bitwidth_3 := bitwidth_3 s; bytes_written_2 := bytes_written_2 s;
     bytes_written_3 := bytes_written_3 s; init_2 := init_2 s;
     bin_2 := bin_2 s; init_3 := v; bin_3 := bin_3 s;
     descrip_vh := descrip_vh s |}.

Definition set_bin_3 (v : _) (s : state) : state :=
  {| i_2 := i_2 s; i_3 := i_3 s; c_2 := c_2 s; c_3 := c_3 s; a := a s;
     z := z s; buf_2 := buf_2 s; buf_3 := buf_3 s;
     bytes_pending_2 := bytes_pending_2 s;
     bytes_pending_3 := bytes_pending_3 s; bitwidth_2 := bitwidth_2 s;
     bitwidth_3 := bitwidth_3 s; bytes_written_2 := bytes_written_2 s;
     bytes_written_3 := bytes_written_3 s; init_2 := init_2 s;
     bin_2 := bin_2 s; init_3 := init_3 s; bin_3 := v;
     descrip_vh := descrip_vh s |}.

Definition set_descrip_vh (v : _) (s : state) : state :=
  {| i_2 := i_2 s; i_3 := i_3 s; c_2 := c_2 s; c_3 := c_3 s; a := a s;
     z := z s; buf_2 := buf_2 s; buf_3 := buf_3 s;
     bytes_pending_2 := bytes_pending_2 s;
     bytes_pending_3 := bytes_pending_3 s; bitwidth_2 := bitwidth_2 s;
     bitwidth_3 := bitwidth_3 s; bytes_written_2 := bytes_written_2 s;
     bytes_written_3 := bytes_written_3 s; init_2 := init_2 s;
     bin_2 := bin_2 s; init_3 := init_3 s; bin_3 := bin_3 s;
     descrip_vh := v |}.

(** ** Outcomes and sequencing *)

Inductive outcome :=
| Done (s : state)
| Undef          (* an access outside an object: undefined behaviour *)
| OutOfFuel.     (* a padding loop did not finish within the given fuel *)

Definition op := state -> outcome.

Definition bind (r : outcome) (f : op) : outcome :=
  match r with
  | Done s => f s
  | Undef => Undef
  | OutOfFuel => OutOfFuel
  end.

(** [f ;; g] runs [f], then [g] on the state [f] leaves. *)
Definition seq (f g : op) : op := fun s => bind (f s) g.
Notation "f ;; g" := (seq f g) (at level 61, right associativity).

(** A statement that cannot go wrong. *)
Definition pure (f : state -> state) : op := fun s => Done (f s).

(** ** Memory *)

(** [off .. off+len) lies inside the object [buf]. *)
Definition in_bounds (buf : list Z) (off len : Z) : bool :=
  (0 <=? off) && (0 <=? len) && (off + len <=? Z.of_nat (List.length buf)).

(** [buf] with the bytes [vs] written from position [off] on; the object
    keeps its size. *)
Fixpoint splice_at (buf : list Z) (off : nat) (vs : list Z) : list Z :=
  match buf with
  | [] => []
  | b :: buf' =>
      match off with
      | S off' => b :: splice_at buf' off' vs
      | O => match vs with
             | [] => buf
             | v :: vs' => v :: splice_at buf' O vs'
             end
      end
  end.

Definition splice (buf : list Z) (off : Z) (vs : list Z) : list Z :=
  splice_at buf (Z.to_nat off) vs.

(** The [len] bytes of [buf] at offset [off]. *)
Definition load (buf : list Z) (off len : Z) : list Z :=
  firstn (Z.to_nat len) (skipn (Z.to_nat off) buf).

(** A store of the bytes [vs] at [buf_2 + off]. *)
Definition poke_2 (off : Z) (vs : list Z) : op := fun s =>
  if in_bounds (buf_2 s) off (Z.of_nat (List.length vs))
  then Done (set_buf_2 (splice (buf_2 s) off vs) s)
  else Undef.

(** A store of the bytes [vs] at [buf_3 + off]. *)
Definition poke_3 (off : Z) (vs : list Z) : op := fun s =>
  if in_bounds (buf_3 s) off (Z.of_nat (List.length vs))
  then Done (set_buf_3 (splice (buf_3 s) off vs) s)
  else Undef.

(** [*a++ = v] *)
Definition put_a (v : Z) : op := fun s =>
  (poke_2 (a s) [u8 v] ;; pure (set_a (a s + 1))) s.

(** [*z++ = v] *)
Definition put_z (v : Z) : op := fun s =>
  (poke_3 (z s) [u8 v] ;; pure (set_z (z s + 1))) s.

(** A run of [*a++ = v;] statements, one element per statement. *)
Fixpoint puts_a (vs : list Z) : op :=
  match vs with
  | [] => pure (fun s => s)
  | v :: vs' => put_a v ;; puts_a vs'
  end.

(** A run of [*z++ = v;] statements, one element per statement. *)
Fixpoint puts_z (vs : list Z) : op :=
  match vs with
  | [] => pure (fun s => s)
  | v :: vs' => put_z v ;; puts_z vs'
  end.

(** [memcpy(buf_3 + dst, buf_2 + src, n)] *)
Definition memcpy_2_to_3 (dst src n : Z) : op := fun s =>
  if in_bounds (buf_2 s) src n
  then poke_3 dst (load (buf_2 s) src n) s
  else Undef.

(** ** The two streams *)

(** One iteration of the loop of [write_buf8]. *)
Definition emit8 (b : Z) (s : state) : state :=
  set_bytes_written_2 (u32 (bytes_written_2 s + 1))
    (set_bin_2 (bin_2 s ++ [b])
       (set_init_2 (init_2 s ++ [hex2 b]) s)).

(** [for(i = 0; i < size; i++)] of [write_buf8], reading from [buf]. *)
Fixpoint write_buf8_loop (buf : list Z) (i size : Z) (s : state) : outcome :=
  if i <? size then
    match buf with
    | b :: buf' => write_buf8_loop buf' (u32 (i + 1)) size (emit8 b s)
    | [] => Undef
    end
  else Done s.

Definition write_buf8 (buf : list Z) (size : Z) : op :=
  write_buf8_loop buf 0 size.

(** One iteration of the loop of [write_buf32]: the word is read from the
    four bytes, swapped for the text file, and the four bytes go to the
    binary file as they are. *)
Definition emit32 (b0 b1 b2 b3 : Z) (s : state) : state :=
  let w := le32 b0 b1 b2 b3 in
  let w := bswap32 w in
  set_bytes_written_3 (u32 (bytes_written_3 s + 4))
    (set_bin_3 (bin_3 s ++ [b0; b1; b2; b3])
       (set_init_3 (init_3 s ++ [hex8 w]) s)).

(** [for(i = 0; i < size; i+=4)] of [write_buf32], reading from [buf]. *)
Fixpoint write_buf32_loop (buf : list Z) (i size : Z) (s : state) : outcome :=
  if i <? size then
    match buf with
    | b0 :: b1 :: b2 :: b3 :: buf' =>
        write_buf32_loop buf' (u32 (i + 4)) size (emit32 b0 b1 b2 b3 s)
    | _ => Undef
    end
  else Done s.

Definition write_buf32 (buf : list Z) (size : Z) : op :=
  write_buf32_loop buf 0 size.

Definition write_buf (buf : list Z) (size : Z) : op :=
  write_buf8 buf size ;; write_buf32 buf size.

(** ** The parameter table *)

Definition print_offsets (name : string) (for_usb2 for_usb3 : Z) : op :=
  pure (fun s =>
    let l2 := if for_usb2 =? 0 then []
              else [{| vh_target := USB2; vh_msb := bitwidth_2 s - 1;
                       vh_name := name; vh_value := as_int (i_2 s) |}] in
    let l3 := if for_usb3 =? 0 then []
              else [{| vh_target := USB3; vh_msb := bitwidth_3 s - 1;
                       vh_name := name; vh_value := as_int (i_3 s) |}] in
    set_descrip_vh (descrip_vh s ++ l2 ++ l3) s).

(** ** The descriptor encoders *)

Definition add_device_qual
    (usb_spec class_code subclass protocol_code max_size_ep0
     num_possible_config : Z) : op :=
  pure (set_a 0) ;;
  print_offsets "DEVICE_QUAL" 1 0 ;;
  puts_a [ 0x0A;
           0x06;
           if usb_spec =? 0x300 then Z.land 0x210 0xff else Z.land 0x200 0xff;
           if usb_spec =? 0x300 then Z.shiftr 0x210 8 else Z.shiftr 0x200 8;
           class_code;
           subclass;
           protocol_code;
           max_size_ep0;
           num_possible_config;
           0 ] ;;
  (fun s => write_buf8 (buf_2 s) 0xA s).

Definition add_device_descr
    (usb_spec class_code subclass protocol_code max_size_ep0
     vid pid dev_num idx_mfg idx_prod idx_serial num_possible_config : Z)
    : op :=
  pure (set_a 0) ;;
  print_offsets "DEVICE" 1 1 ;;
  (* usb spec 2.10 *)
  puts_a [ 0x12;
           0x01;
           if usb_spec =? 0x300 then Z.land 0x210 0xff else Z.land 0x200 0xff;
           if usb_spec =? 0x300 then Z.shiftr 0x210 8 else Z.shiftr 0x200 8 ] ;;
  (fun s => write_buf8 (buf_2 s) 4 s) ;; pure (set_a 2) ;;
  (* usb spec 3.00 *)
  puts_a [ Z.land 0x300 0xff;
           Z.shiftr 0x300 8 ] ;;
  (fun s => write_buf32 (buf_2 s) 4 s) ;; pure (set_a 0) ;;
  puts_a [ class_code;
           subclass;
           protocol_code;
           max_size_ep0 ] ;;
  (fun s => write_buf8 (buf_2 s) 4 s) ;; (fun s => pure (set_a (a s - 1)) s) ;;
  puts_a [ 0x09 ] ;;
  (fun s => write_buf32 (buf_2 s) 4 s) ;; pure (set_a 0) ;;
  puts_a [ Z.land vid 0xff;
           Z.shiftr vid 8;
           Z.land pid 0xff;
           Z.shiftr pid 8;
           Z.land dev_num 0xff;
           Z.shiftr dev_num 8;
           idx_mfg;
           idx_prod;
           idx_serial;
           num_possible_config ] ;;
  (fun s => write_buf (buf_2 s) 10 s) ;;
  add_device_qual usb_spec class_code subclass protocol_code max_size_ep0
    num_possible_config.

Definition add_config_start (usb_spec attrib power_ma num_endpoints : Z)
    : op :=
  pure (set_a 0) ;;
  pure (set_z 0) ;;
  (fun s => pure (set_c_2 (i_2 s)) s) ;;
  (fun s => pure (set_c_3 (i_3 s)) s) ;;
  print_offsets "CONFIG" 1 1 ;;
  pure (set_bytes_pending_2 0) ;;
  pure (set_bytes_pending_3 0) ;;
  (* write Config descriptor *)
  puts_a [ 0x09;
           0x02;
           Z.land 0xffff 0xff;
           Z.shiftr 0xffff 8;
           0x01;
           0x01;
           0x00;
           attrib;
           if usb_spec =? 0x300 then power_ma / 8 else power_ma / 2 ] ;;
  (fun s => pure (set_bytes_pending_2 (u32 (bytes_pending_2 s + 0x9))) s) ;;
  (fun s => pure (set_bytes_pending_3 (u32 (bytes_pending_3 s + 0x9))) s) ;;
  (* write Interface descriptor *)
  puts_a [ 0x09;
           0x04;
           0x00;
           0x00;
           num_endpoints;
           0xFF;
           0xFF;
           0xFF;
           0x02 ] ;;
  (fun s => pure (set_bytes_pending_2 (u32 (bytes_pending_2 s + 0x9))) s) ;;
  (fun s => pure (set_bytes_pending_3 (u32 (bytes_pending_3 s + 0x9))) s) ;;
  (* a second buffer just for usb3 *)
  (fun s => memcpy_2_to_3 0 0 (bytes_pending_2 s) s) ;;
  (fun s => pure (set_z (z s + bytes_pending_3 s)) s).

Definition add_endpoint
    (idx dir attrib max_pkt interval max_burst attrib_3 bytes_per_interval : Z)
    : op :=
  fun s0 =>
  let c := a s0 in
  ((* write Endpoint descriptor *)
   puts_a [ 0x07;
            0x05;
            Z.lor idx (if dir =? 0 then 0x0 else 0x80);
            attrib;
            Z.land max_pkt 0xff;
            Z.shiftr max_pkt 8;
            interval ] ;;
   (fun s => pure (set_bytes_pending_2 (u32 (bytes_pending_2 s + 0x7))) s) ;;
   (fun s => pure (set_bytes_pending_3 (u32 (bytes_pending_3 s + 0x7))) s) ;;
   (* copy this endpoint over to USB3 *)
   (fun s => memcpy_2_to_3 (z s) c 0x7 s) ;;
   (fun s => pure (set_z (z s + 0x7)) s) ;;
   (* patch max packet size to 1024 *)
   (fun s => poke_3 (z s - 2) [0x04] s) ;;
   (fun s => poke_3 (z s - 3) [0x00] s) ;;
   (* add companion descriptor only to USB3 buffer *)
   puts_z [ 0x06;
            0x30;
            max_burst - 1;
            attrib_3;
            Z.land bytes_per_interval 0xff;
            Z.shiftr bytes_per_interval 8 ] ;;
   (fun s => pure (set_bytes_pending_3 (u32 (bytes_pending_3 s + 0x6))) s)) s0.

Definition add_config_end : op :=
  fun s0 =>
  let c := a s0 in
  ((* add alternate interface *)
   puts_a [ 0x09;
            0x04;
            0x00;
            0x01;
            0x0;
            0xFF;
            0xFF;
            0xFF;
            0x02 ] ;;
   (fun s => pure (set_bytes_pending_2 (u32 (bytes_pending_2 s + 0x9))) s) ;;
   (fun s => pure (set_bytes_pending_3 (u32 (bytes_pending_3 s + 0x9))) s) ;;
   (* copy this interface over to USB3 *)
   (fun s => memcpy_2_to_3 (z s) c 0x9 s) ;;
   (fun s => pure (set_z (z s + 0x9)) s) ;;
   (* patch total descriptor lengths: the first two bytes of each counter *)
   (fun s => poke_2 2 (firstn 2 (le_bytes32 (bytes_pending_2 s))) s) ;;
   (fun s => poke_3 2 (firstn 2 (le_bytes32 (bytes_pending_3 s))) s) ;;
   (fun s => write_buf8 (buf_2 s) (bytes_pending_2 s) s) ;;
   (fun s => write_buf32 (buf_3 s) (bytes_pending_3 s) s)) s0.

Definition add_bos : op :=
  pure (set_z 0) ;;
  print_offsets "BOS    " 0 1 ;;
  puts_z [ 0x05; 0x0F; 0x16; 0x00;
           0x02;
           0x07; 0x10; 0x02;
           0x02; 0x00; 0x00; 0x00;
           0x0A; 0x10; 0x03; 0x00; 0x0E; 0x00; 0x02; 0x08; 0x64; 0x00 ] ;;
  (fun s => write_buf32 (buf_3 s) (u32 (z s)) s).

(** ** Strings *)

(** What the C source leaves to the platform. *)
Record platform := {
  (** [sizeof(wchar_t)] *)
  wchar_size : Z;
  (** the two bytes that follow the literal ["\x00"] of [add_set] in memory *)
  after_unset : Z * Z;
  (** the two bytes that follow the literal ["\x01"] of [add_set] in memory *)
  after_set : Z * Z
}.

(** A string literal as an object: its characters and the terminator. *)
Definition literal (cs : list Z) : list Z := cs ++ [0].

Definition chars (s : string) : list Z :=
  map (fun c => Z.of_nat (nat_of_ascii c)) (list_ascii_of_string s).

(** [strlen(str)]; undefined when the object holds no terminator. *)
Fixpoint strlen (str : list Z) : option Z :=
  match str with
  | [] => None
  | c :: str' => if c =? 0 then Some 0 else option_map Z.succ (strlen str')
  end.

(** The characters of [str] up to and including its terminator. *)
Fixpoint c_string (str : list Z) : list Z :=
  match str with
  | [] => []
  | c :: str' => if c =? 0 then [0] else c :: c_string str'
  end.

(** The wide characters [mbstowcs(w_str, str, n)] stores in [w_str].  The
    program never sets a locale, so every byte is one character and keeps
    its value; at most [n] wide characters are stored, the terminator
    included when it is reached. *)
Definition mbstowcs (str : list Z) (n : Z) : list Z :=
  firstn (Z.to_nat n) (c_string str).

(** The bytes of one [wchar_t] holding a character [c < 256]. *)
Definition wchar_bytes (pf : platform) (c : Z) : list Z :=
  c :: repeat 0 (Z.to_nat (wchar_size pf) - 1).

(** [w_str] is a local array without an initialiser: only the bytes a call
    has stored in it may be read, and [w_str] below is those bytes. *)
Definition add_string (pf : platform) (idx : Z) (str : list Z) : op :=
  fun s0 =>
  match (if idx =? 0 then Some 4
         else option_map (fun n => u32 (n * 2 + 2)) (strlen str)) with
  | None => Undef
  | Some len =>
    (pure (set_buf_2 (repeat 0 1024%nat)) ;;
     pure (set_a 0) ;;
     print_offsets ("STRING" ++ decimal idx)%string 1 1 ;;
     (fun s1 =>
        match (if 0 <? idx
               then Some (flat_map (wchar_bytes pf) (mbstowcs str 128))
               else if in_bounds str 0 2 then Some (load str 0 2)
               else None) with
        | None => Undef
        | Some w_str =>
          (puts_a [ len;
                    0x03 ] ;;
           (fun s => if in_bounds w_str 0 (len - 2)
                     then poke_2 (a s) (load w_str 0 (len - 2)) s
                     else Undef) ;;
           (fun s => write_buf (buf_2 s) len s)) s1
        end)) s0
  end.

Definition add_set (pf : platform) : op :=
  print_offsets "CONFUNSET" 1 1 ;;
  write_buf (literal [0x00] ++ [fst (after_unset pf); snd (after_unset pf)]) 1 ;;
  print_offsets "CONFSET" 1 1 ;;
  write_buf (literal [0x01] ++ [fst (after_set pf); snd (after_set pf)]) 1.

(** ** Padding and the driver *)

(** [while(bytes_written_2 < pow(2, bitwidth_2)) write_buf8("\0", 1);]
    The power of two and the counter are exact as doubles. *)
Fixpoint pad_2 (fuel : nat) : op := fun s =>
  if bytes_written_2 s <? 2 ^ bitwidth_2 s then
    match fuel with
    | O => OutOfFuel
    | S fuel' => (write_buf8 (literal [0]) 1 ;; pad_2 fuel') s
    end
  else Done s.

(** [while(bytes_written_3 < pow(2, bitwidth_3)*4)
      write_buf32((u32 * )"\0\0\0\0", 1);] *)
Fixpoint pad_3 (fuel : nat) : op := fun s =>
  if bytes_written_3 s <? 2 ^ bitwidth_3 s * 4 then
    match fuel with
    | O => OutOfFuel
    | S fuel' => (write_buf32 (literal [0; 0; 0; 0]) 1 ;; pad_3 fuel') s
    end
  else Done s.

(** The state at program start: zeroed globals, empty files. *)
Definition initial_state : state :=
  {| i_2 := 0; i_3 := 0; c_2 := 0; c_3 := 0; a := 0; z := 0;
     buf_2 := repeat 0 1024%nat; buf_3 := repeat 0 1024%nat;
     bytes_pending_2 := 0; bytes_pending_3 := 0;
     bitwidth_2 := 0; bitwidth_3 := 0;
     bytes_written_2 := 0; bytes_written_3 := 0;
     init_2 := []; bin_2 := []; init_3 := []; bin_3 := [];
     descrip_vh := [] |}.

(** The descriptors [main] emits, up to and including the [EOF] entry. *)
Definition emit_descriptors (pf : platform) : op :=
  add_device_descr 0x300 0xFF 0xFF 0xFF 64 0x1D50 0x605A 0x1 1 2 3 1 ;;
  add_config_start 0x300 0x80 500 2 ;;
  add_endpoint 1 1 2 512 0x1 16 0x00 0 ;;
  add_endpoint 2 0 2 512 0x1 16 0x00 0 ;;
  add_config_end ;;
  (* hack to print out CONFIG length *)
  (fun s =>
     let temp1 := i_2 s in
     let temp2 := i_3 s in
     (pure (set_i_2 (bytes_pending_2 s)) ;;
      pure (set_i_3 (bytes_pending_3 s)) ;;
      print_offsets "CONFIG_LEN" 1 1 ;;
      pure (set_i_2 temp1) ;;
      pure (set_i_3 temp2)) s) ;;
  add_bos ;;
  (* hack to print out BOS length *)
  (fun s =>
     let temp2 := i_3 s in
     (pure (set_i_3 (u32 (z s))) ;;
      print_offsets "BOS_LEN" 0 1 ;;
      pure (set_i_3 temp2)) s) ;;
  add_string pf 0 (literal [0x09; 0x04; 0])  ;;
  add_string pf 1 (literal (chars "Great Scott Gadgets")) ;;
  add_string pf 2 (literal (chars "Daisho USB test")) ;;
  add_string pf 3 (literal (chars "DAISHOUSB000")) ;;
  add_set pf ;;
  print_offsets "EOF     " 1 1.

(** [main], with the two BRAM address bit widths it assigns as parameters. *)
Definition generate (bw_2 bw_3 : Z) (pf : platform) (fuel : nat) : outcome :=
  (pure (set_i_2 0) ;;
   pure (set_i_3 0) ;;
   pure (set_bitwidth_2 (u8 bw_2)) ;;
   pure (set_bitwidth_3 (u8 bw_3)) ;;
   emit_descriptors pf ;;
   (* pad out files to their max address space *)
   pad_2 fuel ;;
   pad_3 fuel) initial_state.

Definition main (pf : platform) (fuel : nat) : outcome :=
  generate 8 7 pf fuel.

(** ** Vocabulary of the statements *)

(** A byte. *)
Definition byte (b : Z) : Prop := 0 <= b < 256.

(** Both scratch buffers have their declared size. *)
Definition wf (s : state) : Prop :=
  List.length (buf_2 s) = 1024%nat /\ List.length (buf_3 s) = 1024%nat.

(** [size] rounded up to a multiple of four: [4 * ceil(size / 4)]. *)
Definition round4 (size : Z) : Z := 4 * ((size + 3) / 4).

(** The 32-bit words a run of bytes holds, in address order. *)
Fixpoint words (bs : list Z) : list Z :=
  match bs with
  | b0 :: b1 :: b2 :: b3 :: bs' => le32 b0 b1 b2 b3 :: words bs'
  | _ => []
  end.

(** A [u32] counter [c] after [n] bytes were counted, one unit at a time. *)
Definition bump (c n : Z) : Z := if n =? 0 then c else u32 (c + n).

(** The state after the bytes [bs] went to the USB2 stream. *)
Definition push_2 (bs : list Z) (s : state) : state :=
  set_bytes_written_2 (bump (bytes_written_2 s) (Z.of_nat (List.length bs)))
    (set_bin_2 (bin_2 s ++ bs)
       (set_init_2 (init_2 s ++ map hex2 bs) s)).

(** The state after the bytes [bs], whole words, went to the USB3 stream. *)
Definition push_3 (bs : list Z) (s : state) : state :=
  set_bytes_written_3 (bump (bytes_written_3 s) (Z.of_nat (List.length bs)))
    (set_bin_3 (bin_3 s ++ bs)
       (set_init_3 (init_3 s ++ map (fun w => hex8 (bswap32 w)) (words bs))
          s)).

(** The bcdUSB bytes the encoders store in the USB2 copies. *)
Definition bcd_lo (usb_spec : Z) : Z :=
  u8 (if usb_spec =? 0x300 then Z.land 0x210 0xff else Z.land 0x200 0xff).
Definition bcd_hi (usb_spec : Z) : Z :=
  u8 (if usb_spec =? 0x300 then Z.shiftr 0x210 8 else Z.shiftr 0x200 8).

(** The 16-bit little-endian field at offset [off] of [bs]. *)
Definition field16 (bs : list Z) (off : nat) : Z :=
  nth off bs 0 + 256 * nth (S off) bs 0.

(** The bytes a stream received between two states. *)
Definition added_2 (s s' : state) : list Z :=
  skipn (List.length (bin_2 s)) (bin_2 s').
Definition added_3 (s s' : state) : list Z :=
  skipn (List.length (bin_3 s)) (bin_3 s').

(** The identifier a name argument of [print_offsets] contributes to the
    parameter's name: the name up to the blanks that pad it. *)
Fixpoint identifier (name : string) : string :=
  match name with
  | EmptyString => EmptyString
  | String c rest => if Ascii.eqb c " " then EmptyString
                     else String c (identifier rest)
  end.

(** The entries of the table in the order of the file: one entry per run of
    lines of the same name. *)
Fixpoint entries (ls : list vh_line) : list string :=
  match ls with
  | [] => []
  | l :: ls' =>
      match ls' with
      | l' :: _ => if String.eqb (vh_name l) (vh_name l')
                   then entries ls'
                   else identifier (vh_name l) :: entries ls'
      | [] => [identifier (vh_name l)]
      end
  end.

(** A configuration group: open, one [add_endpoint] per element, close. *)
Record endpoint := {
  ep_idx : Z; ep_dir : Z; ep_attrib : Z; ep_max_pkt : Z; ep_interval : Z;
  ep_max_burst : Z; ep_attrib_3 : Z; ep_bytes_per_interval : Z
}.

Definition add_endpoint_of (e : endpoint) : op :=
  add_endpoint (ep_idx e) (ep_dir e) (ep_attrib e) (ep_max_pkt e)
    (ep_interval e) (ep_max_burst e) (ep_attrib_3 e)
    (ep_bytes_per_interval e).

Fixpoint add_endpoints (es : list endpoint) : op :=
  match es with
  | [] => pure (fun s => s)
  | e :: es' => add_endpoint_of e ;; add_endpoints es'
  end.

Definition config_group (usb_spec attrib power_ma num_endpoints : Z)
    (es : list endpoint) : op :=
  add_config_start usb_spec attrib power_ma num_endpoints ;;
  add_endpoints es ;;
  add_config_end.

(** The calls of the program. *)
Inductive call :=
| Print_offsets (name : string) (for_usb2 for_usb3 : Z)
| Write_buf8 (buf : list Z) (size : Z)
| Write_buf32 (buf : list Z) (size : Z)
| Write_buf (buf : list Z) (size : Z)
| Add_device_qual (usb_spec class_code subclass protocol_code max_size_ep0
                   num_possible_config : Z)
| Add_device_descr (usb_spec class_code subclass protocol_code max_size_ep0
                    vid pid dev_num idx_mfg idx_prod idx_serial
                    num_possible_config : Z)
| Add_config_start (usb_spec attrib power_ma num_endpoints : Z)
| Add_endpoint (e : endpoint)
| Add_config_end
| Add_bos
| Add_string (idx : Z) (str : list Z)
| Add_set
| Pad_2 (fuel : nat)
| Pad_3 (fuel : nat).

Definition run_call (pf : platform) (c : call) : op :=
  match c with
  | Print_offsets name for_usb2 for_usb3 => print_offsets name for_usb2 for_usb3
  | Write_buf8 buf size => write_buf8 buf size
  | Write_buf32 buf size => write_buf32 buf size
  | Write_buf buf size => write_buf buf size
  | Add_device_qual usb_spec class_code subclass protocol_code max_size_ep0
      num_possible_config =>
      add_device_qual usb_spec class_code subclass protocol_code max_size_ep0
        num_possible_config
  | Add_device_descr usb_spec class_code subclass protocol_code max_size_ep0
      vid pid dev_num idx_mfg idx_prod idx_serial num_possible_config =>
      add_device_descr usb_spec class_code subclass protocol_code
        max_size_ep0 vid pid dev_num idx_mfg idx_prod idx_serial
        num_possible_config
  | Add_config_start usb_spec attrib power_ma num_endpoints =>
      add_config_start usb_spec attrib power_ma num_endpoints
  | Add_endpoint e => add_endpoint_of e
  | Add_config_end => add_config_end
  | Add_bos => add_bos
  | Add_string idx str => add_string pf idx str
  | Add_set => add_set pf
  | Pad_2 fuel => pad_2 fuel
  | Pad_3 fuel => pad_3 fuel
  end.

(** Two states that differ in the scratch variables only. *)
Definition same_files (s s' : state) : Prop :=
  i_2 s' = i_2 s /\ i_3 s' = i_3 s
  /\ bitwidth_2 s' = bitwidth_2 s /\ bitwidth_3 s' = bitwidth_3 s
  /\ bytes_written_2 s' = bytes_written_2 s
  /\ bytes_written_3 s' = bytes_written_3 s
  /\ init_2 s' = init_2 s /\ bin_2 s' = bin_2 s
  /\ init_3 s' = init_3 s /\ bin_3 s' = bin_3 s
  /\ descrip_vh s' = descrip_vh s.

(** [f] relates every state it returns from to the state it started in. *)
Definition preserves (R : state -> state -> Prop) (f : op) : Prop :=
  forall s s', f s = Done s' -> R s s'.

(** The table is only ever appended to. *)
Definition vh_extends (s s' : state) : Prop :=
  exists lines, descrip_vh s' = descrip_vh s ++ lines.

(** The USB3 counter stays a multiple of four. *)
Definition keeps_words (s s' : state) : Prop :=
  bytes_written_3 s mod 4 = 0 -> bytes_written_3 s' mod 4 = 0.

(** The offsets [print_offsets] exports stay what they are. *)
Definition keeps_offsets (s s' : state) : Prop :=
  i_2 s' = i_2 s /\ i_3 s' = i_3 s.

(** Line by line, the text file shows the words of the binary file with
    their bytes reversed: a line is the eight-digit number whose most
    significant byte is the first byte in the binary file, and swapping the
    bytes of the number a line shows gives back the word that is stored. *)
Fixpoint mirrors (lines : list string) (bs : list Z) : Prop :=
  match lines, bs with
  | [], [] => True
  | l :: lines', b0 :: b1 :: b2 :: b3 :: bs' =>
      l = hex8 (le32 b3 b2 b1 b0)
      /\ String.length l = 8%nat
      /\ bswap32 (unhex l) = le32 b0 b1 b2 b3
      /\ mirrors lines' bs'
  | _, _ => False
  end.

(** The two endpoints of [main]. *)
Definition ep1_in : endpoint :=
  {| ep_idx := 1; ep_dir := 1; ep_attrib := 2; ep_max_pkt := 512;
     ep_interval := 0x1; ep_max_burst := 16; ep_attrib_3 := 0x00;
     ep_bytes_per_interval := 0 |}.
Definition ep2_out : endpoint :=
  {| ep_idx := 2; ep_dir := 0; ep_attrib := 2; ep_max_pkt := 512;
     ep_interval := 0x1; ep_max_burst := 16; ep_attrib_3 := 0x00;
     ep_bytes_per_interval := 0 |}.

(** The lines of the table after [main], for the default bit widths. *)
Definition vh (t : target) (name : string) (value : Z) : vh_line :=
  {| vh_target := t; vh_msb := match t with USB2 => 7 | USB3 => 6 end;
     vh_name := name; vh_value := value |}.

(** The state a run returned, and whether it returned. *)
Definition returned (r : outcome) : bool :=
  match r with Done _ => true | _ => false end.
Definition state_of (r : outcome) : state :=
  match r with Done s => s | _ => initial_state end.

(** The state in which [main] starts to emit descriptors. *)
Definition start_state : state :=
  set_bitwidth_3 (u8 7) (set_bitwidth_2 (u8 8) initial_state).

(** The state in which [main] opens its configuration group. *)
Definition group_start_state : state :=
  state_of
    (add_device_descr 0x300 0xFF 0xFF 0xFF 64 0x1D50 0x605A 0x1 1 2 3 1
       start_state).

(** Two platforms to run the generator on. *)
Definition win32 : platform :=
  {| wchar_size := 2; after_unset := (0, 0); after_set := (0, 0) |}.
Definition lp64 : platform :=
  {| wchar_size := 4; after_unset := (0x25, 0x73); after_set := (0x0A, 0x2A) |}.

(** ** Vocabulary of the further properties *)

(** The counters count what the binary files hold, the USB2 text file has
    one line per byte and the USB3 text file one line per word. *)
Definition counted (s : state) : Prop :=
  bytes_written_2 s = u32 (Z.of_nat (List.length (bin_2 s)))
  /\ bytes_written_3 s = u32 (Z.of_nat (List.length (bin_3 s)))
  /\ List.length (init_2 s) = List.length (bin_2 s)
  /\ List.length (bin_3 s) = (4 * List.length (init_3 s))%nat.

Definition keeps_counted (s s' : state) : Prop := counted s -> counted s'.

(** Each of the four stream files of [s'] begins with the file of [s]. *)
Definition files_extend (s s' : state) : Prop :=
  (exists lines, init_2 s' = init_2 s ++ lines)
  /\ (exists bs, bin_2 s' = bin_2 s ++ bs)
  /\ (exists lines, init_3 s' = init_3 s ++ lines)
  /\ (exists bs, bin_3 s' = bin_3 s ++ bs).

(** Nothing went to a stream between [s] and [s']. *)
Definition same_streams (s s' : state) : Prop :=
  bytes_written_2 s' = bytes_written_2 s
  /\ bytes_written_3 s' = bytes_written_3 s
  /\ init_2 s' = init_2 s /\ bin_2 s' = bin_2 s
  /\ init_3 s' = init_3 s /\ bin_3 s' = bin_3 s.


(** The descriptors of a configuration group as they lie in a stream: the
    configuration descriptor with its total length [total], an interface
    descriptor with alternate setting [alt] and [n] endpoints, and an
    endpoint descriptor, in USB3 with its maximum packet size replaced and
    its companion behind it. *)
Definition config_bytes (total attrib power : Z) : list Z :=
  [0x09; 0x02; Z.land total 255; Z.land (Z.shiftr total 8) 255;
   0x01; 0x01; 0x00; u8 attrib; u8 power].
Definition interface_bytes (alt n : Z) : list Z :=
  [0x09; 0x04; 0x00; alt; u8 n; 0xFF; 0xFF; 0xFF; 0x02].
Definition endpoint_bytes_2 (e : endpoint) : list Z :=
  [0x07; 0x05;
   u8 (Z.lor (ep_idx e) (if ep_dir e =? 0 then 0x0 else 0x80));
   u8 (ep_attrib e);
   u8 (Z.land (ep_max_pkt e) 0xff); u8 (Z.shiftr (ep_max_pkt e) 8);
   u8 (ep_interval e)].
Definition endpoint_bytes_3 (e : endpoint) : list Z :=
  [0x07; 0x05;
   u8 (Z.lor (ep_idx e) (if ep_dir e =? 0 then 0x0 else 0x80));
   u8 (ep_attrib e);
   0x00; 0x04;
   u8 (ep_interval e);
   0x06; 0x30; u8 (ep_max_burst e - 1); u8 (ep_attrib_3 e);
   u8 (Z.land (ep_bytes_per_interval e) 0xff);
   u8 (Z.shiftr (ep_bytes_per_interval e) 8)].

(** * Properties *)

(** ** Bits and bytes *)

Ltac split_cmp :=
  repeat match goal with
  | |- context [?x <? ?y] => destruct (Z.ltb_spec x y)
  | |- context [?x <=? ?y] => destruct (Z.leb_spec x y)
  end.

Lemma testbit_high (x k n : Z) :
  0 <= x < 2 ^ k -> 0 <= k <= n -> Z.testbit x n = false.
Proof.
  intros Hx Hn. destruct (Z.eq_dec x 0) as [->|Hx0]; [apply Z.bits_0|].
  apply Z.bits_above_log2; [lia|]. apply Z.log2_lt_pow2; [lia|].
  apply Z.lt_le_trans with (2 ^ k); [lia|]. apply Z.pow_le_mono_r; lia.
Qed.

Lemma testbit_shiftl a k m :
  0 <= k -> Z.testbit (Z.shiftl a k) m = Z.testbit a (m - k).
Proof.
  intros Hk. destruct (Z.ltb_spec m 0).
  - now rewrite !Z.testbit_neg_r by lia.
  - now apply Z.shiftl_spec.
Qed.

(** Bit [n] of the swapped word is the bit of the mirrored byte. *)
Lemma testbit_bswap32 w n : 0 <= n ->
  Z.testbit (bswap32 w) n =
    if n <? 8 then Z.testbit w (n + 24)
    else if n <? 16 then Z.testbit w (n + 8)
    else if n <? 24 then Z.testbit w (n - 8)
    else if n <? 32 then Z.testbit w (n - 24)
    else false.
Proof.
  intros Hn. unfold bswap32.
  change 0xff with (Z.ones 8).
  change 0xff00 with (Z.shiftl (Z.ones 8) 8).
  change 0xff0000 with (Z.shiftl (Z.ones 8) 16).
  change 0xff000000 with (Z.shiftl (Z.ones 8) 24).
  rewrite !Z.lor_spec, !Z.shiftr_spec, !testbit_shiftl, !Z.land_spec by lia.
  rewrite !testbit_shiftl by lia.
  rewrite !Z.testbit_ones by lia.
  replace (n + 8 - 16) with (n - 8) by lia.
  replace (n + 24 - 24) with n by lia.
  replace (n - 8 - 8) with (n - 16) by lia.
  split_cmp; try lia; rewrite ?Z.testbit_neg_r by lia; simpl;
    rewrite ?andb_false_r, ?andb_true_r, ?orb_false_r; try reflexivity.
Qed.

Lemma testbit_le32 b0 b1 b2 b3 n :
  byte b0 -> byte b1 -> byte b2 -> byte b3 -> 0 <= n ->
  Z.testbit (le32 b0 b1 b2 b3) n =
    if n <? 8 then Z.testbit b0 n
    else if n <? 16 then Z.testbit b1 (n - 8)
    else if n <? 24 then Z.testbit b2 (n - 16)
    else Z.testbit b3 (n - 24).
Proof.
  unfold byte, le32. intros H0 H1 H2 H3 Hn.
  rewrite !Z.lor_spec, !testbit_shiftl by lia.
  split_cmp; try lia;
    rewrite ?(Z.testbit_neg_r b1), ?(Z.testbit_neg_r b2),
      ?(Z.testbit_neg_r b3) by lia;
    rewrite ?(testbit_high b0 8 n), ?(testbit_high b1 8 (n - 8)),
      ?(testbit_high b2 8 (n - 16)) by lia;
    rewrite ?orb_false_r, ?orb_false_l; reflexivity.
Qed.

Lemma bswap32_le32 b0 b1 b2 b3 :
  byte b0 -> byte b1 -> byte b2 -> byte b3 ->
  bswap32 (le32 b0 b1 b2 b3) = le32 b3 b2 b1 b0.
Proof.
  intros H0 H1 H2 H3. apply Z.bits_inj'. intros n Hn.
  rewrite testbit_bswap32, (testbit_le32 b3 b2 b1 b0) by assumption.
  split_cmp; try lia; rewrite ?testbit_le32 by (assumption || lia).
  all: split_cmp; try lia; try (f_equal; lia).
  symmetry. apply (testbit_high b0 8); unfold byte in *; lia.
Qed.

Lemma bswap32_involutive w : 0 <= w < 2 ^ 32 -> bswap32 (bswap32 w) = w.
Proof.
  intros Hw. apply Z.bits_inj'. intros n Hn.
  rewrite testbit_bswap32 by assumption.
  split_cmp; try lia; rewrite ?testbit_bswap32 by lia.
  all: split_cmp; try lia; try (f_equal; lia).
  symmetry. apply (testbit_high w 32); lia.
Qed.

Lemma bswap32_range w : 0 <= bswap32 w < 2 ^ 32.
Proof.
  assert (H : Z.land (bswap32 w) (Z.ones 32) = bswap32 w).
  { apply Z.bits_inj'. intros n Hn.
    rewrite Z.land_spec, Z.testbit_ones by lia.
    rewrite testbit_bswap32 by lia.
    split_cmp; try lia; simpl; rewrite ?andb_true_r, ?andb_false_r;
      reflexivity. }
  rewrite Z.land_ones in H by lia. rewrite <- H. apply Z.mod_pos_bound. lia.
Qed.

Lemma le32_range b0 b1 b2 b3 :
  byte b0 -> byte b1 -> byte b2 -> byte b3 -> 0 <= le32 b0 b1 b2 b3 < 2 ^ 32.
Proof.
  intros H0 H1 H2 H3.
  assert (H : Z.land (le32 b0 b1 b2 b3) (Z.ones 32) = le32 b0 b1 b2 b3).
  { apply Z.bits_inj'. intros n Hn.
    rewrite Z.land_spec, Z.testbit_ones by lia.
    rewrite testbit_le32 by (assumption || lia).
    split_cmp; try lia; simpl; rewrite ?andb_true_r, ?andb_false_r;
      try reflexivity.
    symmetry. apply (testbit_high b3 8); unfold byte in *; lia. }
  rewrite Z.land_ones in H by lia. rewrite <- H. apply Z.mod_pos_bound. lia.
Qed.

(** ** Hexadecimal text *)

Lemma hex_value_digit d : 0 <= d < 16 -> hex_value (hex_digit d) = d.
Proof.
  intros H.
  assert (C : d = 0 \/ d = 1 \/ d = 2 \/ d = 3 \/ d = 4 \/ d = 5 \/ d = 6
              \/ d = 7 \/ d = 8 \/ d = 9 \/ d = 10 \/ d = 11 \/ d = 12
              \/ d = 13 \/ d = 14 \/ d = 15) by lia.
  repeat (destruct C as [-> | C]; [reflexivity|]). subst d. reflexivity.
Qed.

Lemma unhex_hex_digits n : forall x acc0 acc,
  0 <= x < 16 ^ Z.of_nat n ->
  unhex_from acc0 (hex_digits n x acc)
  = unhex_from (acc0 * 16 ^ Z.of_nat n + x) acc.
Proof.
  induction n as [|n IH]; intros x acc0 acc Hx.
  - simpl in *. f_equal. lia.
  - rewrite Nat2Z.inj_succ, Z.pow_succ_r in * by lia.
    cbn [hex_digits]. rewrite IH by (Z.div_mod_to_equations; lia).
    cbn [unhex_from]. rewrite hex_value_digit by (apply Z.mod_pos_bound; lia).
    f_equal. Z.div_mod_to_equations. lia.
Qed.

(** Reading a [%08X] line back gives the value that was printed. *)
Lemma unhex_hex8 w : 0 <= w < 2 ^ 32 -> unhex (hex8 w) = w.
Proof.
  intros Hw. unfold unhex, hex8.
  rewrite unhex_hex_digits by (change (16 ^ Z.of_nat 8) with (2 ^ 32); lia).
  reflexivity.
Qed.

Lemma unhex_hex2 b : byte b -> unhex (hex2 b) = b.
Proof.
  intros Hb. unfold unhex, hex2.
  rewrite unhex_hex_digits by (change (16 ^ Z.of_nat 2) with 256; exact Hb).
  reflexivity.
Qed.

Lemma length_hex_digits n : forall x acc,
  String.length (hex_digits n x acc) = (n + String.length acc)%nat.
Proof.
  induction n as [|n IH]; intros x acc; cbn [hex_digits]; [reflexivity|].
  rewrite IH. cbn [String.length]. lia.
Qed.

(** ** The loops of [write_buf8] and [write_buf32] *)

Lemma u32_idem_l x y : u32 (u32 x + y) = u32 (x + y).
Proof. unfold u32. apply Zplus_mod_idemp_l. Qed.

Lemma u32_small x : 0 <= x < 4294967296 -> u32 x = x.
Proof. apply Z.mod_small. Qed.

Lemma u8_small x : byte x -> u8 x = x.
Proof. apply Z.mod_small. Qed.

Lemma bump_step c k n :
  0 < k -> 0 <= n -> bump (u32 (c + k)) n = bump c (k + n).
Proof.
  intros Hk Hn. unfold bump.
  destruct (Z.eqb_spec n 0) as [->|Hn0].
  - rewrite Z.add_0_r. destruct (Z.eqb_spec k 0); [lia|reflexivity].
  - destruct (Z.eqb_spec (k + n) 0); [lia|].
    rewrite u32_idem_l. f_equal. lia.
Qed.

Lemma push_2_nil s : push_2 [] s = s.
Proof. destruct s. unfold push_2. cbn. now rewrite !app_nil_r. Qed.

Lemma push_3_nil s : push_3 [] s = s.
Proof. destruct s. unfold push_3. cbn. now rewrite !app_nil_r. Qed.

Lemma push_2_emit8 b bs s : push_2 bs (emit8 b s) = push_2 (b :: bs) s.
Proof.
  destruct s. unfold push_2, emit8. cbn -[bump u32 hex2 Z.of_nat].
  rewrite <- !app_assoc. cbn [app].
  rewrite bump_step by lia. rewrite Nat2Z.inj_succ.
  replace (1 + Z.of_nat (List.length bs)) with (Z.succ (Z.of_nat (List.length bs)))
    by lia.
  reflexivity.
Qed.

Lemma push_3_emit32 b0 b1 b2 b3 bs s :
  push_3 bs (emit32 b0 b1 b2 b3 s) = push_3 (b0 :: b1 :: b2 :: b3 :: bs) s.
Proof.
  destruct s. unfold push_3, emit32. cbn -[bump u32 hex8 bswap32 le32 Z.of_nat].
  rewrite <- !app_assoc. cbn [app].
  rewrite bump_step by lia.
  replace (4 + Z.of_nat (List.length bs))
    with (Z.of_nat (S (S (S (S (List.length bs)))))) by lia.
  reflexivity.
Qed.

Lemma write_buf8_loop_spec buf : forall i size s,
  0 <= i <= size -> size < 4294967296 ->
  size - i <= Z.of_nat (List.length buf) ->
  write_buf8_loop buf i size s
  = Done (push_2 (firstn (Z.to_nat (size - i)) buf) s).
Proof.
  induction buf as [|b buf IH]; intros i size s Hi Hsz Hlen; cbn [write_buf8_loop].
  - cbn [List.length] in Hlen. destruct (Z.ltb_spec i size); [lia|].
    rewrite firstn_nil, push_2_nil. reflexivity.
  - destruct (Z.ltb_spec i size) as [Hlt|Hge].
    + rewrite u32_small by lia.
      rewrite IH by (cbn [List.length] in Hlen; lia).
      replace (Z.to_nat (size - i)) with (S (Z.to_nat (size - (i + 1)))) by lia.
      cbn [firstn]. now rewrite push_2_emit8.
    + replace (size - i) with 0 by lia. cbn [Z.to_nat firstn].
      now rewrite push_2_nil.
Qed.

(** [write_buf8] sends exactly the first [size] bytes of its source. *)
Lemma write_buf8_spec buf size s :
  0 <= size < 4294967296 -> size <= Z.of_nat (List.length buf) ->
  write_buf8 buf size s = Done (push_2 (firstn (Z.to_nat size) buf) s).
Proof.
  intros Hsz Hlen. unfold write_buf8.
  rewrite write_buf8_loop_spec by lia. now rewrite Z.sub_0_r.
Qed.

Lemma round4_bounds size : 0 <= size -> size <= round4 size < size + 4.
Proof. intros H. unfold round4. Z.div_mod_to_equations. lia. Qed.

Lemma round4_step size : 0 < size -> round4 size = 4 + round4 (size - 4).
Proof.
  intros H. unfold round4.
  replace (size + 3) with ((size - 4 + 3) + 1 * 4) by lia.
  rewrite Z.div_add by lia. lia.
Qed.

Lemma round4_nonpos size : size <= 0 -> Z.to_nat (round4 size) = O.
Proof. intros H. unfold round4. Z.div_mod_to_equations. lia. Qed.

Lemma write_buf32_loop_spec (k : nat) : forall buf i size s,
  0 <= i -> size + 3 < 4294967296 ->
  size - i <= 4 * Z.of_nat k ->
  round4 (size - i) <= Z.of_nat (List.length buf) ->
  write_buf32_loop buf i size s
  = Done (push_3 (firstn (Z.to_nat (round4 (size - i))) buf) s).
Proof.
  induction k as [|k IH]; intros buf i size s Hi Hsz Hk Hlen.
  - assert (Hge : size <= i) by lia.
    rewrite round4_nonpos by lia. cbn [firstn]. rewrite push_3_nil.
    destruct buf; cbn [write_buf32_loop]; destruct (Z.ltb_spec i size);
      try lia; reflexivity.
  - destruct (Z.ltb_spec i size) as [Hlt|Hge].
    + rewrite (round4_step (size - i)) in * by lia.
      pose proof (round4_bounds (size - i - 4)) as Hb.
      destruct buf as [|b0 [|b1 [|b2 [|b3 buf]]]];
        cbn [List.length] in Hlen; try (exfalso; unfold round4 in *;
          Z.div_mod_to_equations; lia).
      cbn [write_buf32_loop]. destruct (Z.ltb_spec i size); [|lia].
      rewrite u32_small by lia.
      rewrite IH by (try replace (size - (i + 4)) with (size - i - 4) by lia;
                     lia).
      replace (size - (i + 4)) with (size - i - 4) by lia.
      replace (Z.to_nat (4 + round4 (size - i - 4)))
        with (S (S (S (S (Z.to_nat (round4 (size - i - 4))))))).
      2:{ unfold round4. Z.div_mod_to_equations. lia. }
      cbn [firstn]. now rewrite push_3_emit32.
    + rewrite round4_nonpos by lia. cbn [firstn]. rewrite push_3_nil.
      destruct buf; cbn [write_buf32_loop]; destruct (Z.ltb_spec i size);
        try lia; reflexivity.
Qed.

(** [write_buf32] sends the first [4 * ceil(size / 4)] bytes of its source. *)
Lemma write_buf32_spec buf size s :
  0 <= size -> size + 3 < 4294967296 ->
  round4 size <= Z.of_nat (List.length buf) ->
  write_buf32 buf size s
  = Done (push_3 (firstn (Z.to_nat (round4 size)) buf) s).
Proof.
  intros H0 Hsz Hlen. unfold write_buf32.
  rewrite (write_buf32_loop_spec (Z.to_nat size)) by (rewrite ?Z.sub_0_r; lia).
  now rewrite Z.sub_0_r.
Qed.

(** Whatever the source and the size, a run of [write_buf32] that returns
    has sent whole words taken from the front of the source. *)
Lemma write_buf32_loop_inv buf : forall (k : nat) i size s s',
  (List.length buf <= 4 * k)%nat ->
  write_buf32_loop buf i size s = Done s' ->
  exists bs rest, buf = bs ++ rest /\ s' = push_3 bs s
                  /\ exists n, List.length bs = (4 * n)%nat.
Proof.
  intros k. revert buf. induction k as [|k IH]; intros buf i size s s' Hk H.
  - destruct buf; [|cbn [List.length] in Hk; lia].
    cbn [write_buf32_loop] in H. destruct (i <? size); [discriminate|].
    injection H as <-. exists [], []. rewrite push_3_nil.
    repeat split. now exists O.
  - destruct buf as [|b0 [|b1 [|b2 [|b3 buf]]]]; cbn [write_buf32_loop] in H;
      destruct (i <? size); try discriminate;
      try (injection H as <-; eexists [], _; rewrite push_3_nil;
           repeat split; now exists O).
    apply IH in H; [|cbn [List.length] in Hk; lia].
    destruct H as (bs & rest & -> & -> & n & Hn).
    exists (b0 :: b1 :: b2 :: b3 :: bs), rest. rewrite push_3_emit32.
    repeat split. exists (S n). cbn [List.length]. lia.
Qed.

(** ** Stores into the scratch buffers *)

(** Reading a variable of a state given by assignments to another one. *)
Ltac sim :=
  cbn [i_2 i_3 c_2 c_3 a z buf_2 buf_3 bytes_pending_2 bytes_pending_3
       bitwidth_2 bitwidth_3 bytes_written_2 bytes_written_3 init_2 bin_2
       init_3 bin_3 descrip_vh
       set_i_2 set_i_3 set_c_2 set_c_3 set_a set_z set_buf_2 set_buf_3
       set_bytes_pending_2 set_bytes_pending_3 set_bitwidth_2 set_bitwidth_3
       set_bytes_written_2 set_bytes_written_3 set_init_2 set_bin_2
       set_init_3 set_bin_3 set_descrip_vh push_2 push_3].
Ltac sim_in H :=
  cbn [i_2 i_3 c_2 c_3 a z buf_2 buf_3 bytes_pending_2 bytes_pending_3
       bitwidth_2 bitwidth_3 bytes_written_2 bytes_written_3 init_2 bin_2
       init_3 bin_3 descrip_vh
       set_i_2 set_i_3 set_c_2 set_c_3 set_a set_z set_buf_2 set_buf_3
       set_bytes_pending_2 set_bytes_pending_3 set_bitwidth_2 set_bitwidth_3
       set_bytes_written_2 set_bytes_written_3 set_init_2 set_bin_2
       set_init_3 set_bin_3 set_descrip_vh push_2 push_3] in H.


Lemma length_splice_at buf : forall off vs,
  List.length (splice_at buf off vs) = List.length buf.
Proof.
  induction buf as [|b buf IH]; intros off vs; cbn [splice_at]; [reflexivity|].
  destruct off; [destruct vs|]; cbn [List.length]; now rewrite ?IH.
Qed.

Lemma length_splice buf off vs :
  List.length (splice buf off vs) = List.length buf.
Proof. apply length_splice_at. Qed.

Lemma splice_at_nil buf off : splice_at buf off [] = buf.
Proof.
  revert off. induction buf as [|b buf IH]; intros [|off]; cbn [splice_at];
    try reflexivity. now rewrite IH.
Qed.

Lemma splice_at_cons buf : forall off v vs,
  splice_at (splice_at buf off [v]) (S off) vs = splice_at buf off (v :: vs).
Proof.
  induction buf as [|b buf IH]; intros off v vs; cbn [splice_at];
    [reflexivity|].
  destruct off as [|off]; cbn [splice_at].
  - now rewrite splice_at_nil.
  - now rewrite IH.
Qed.

(** Inside the object, a store replaces exactly the bytes it covers. *)
Lemma splice_at_eq buf : forall off vs,
  (off + List.length vs <= List.length buf)%nat ->
  splice_at buf off vs
  = firstn off buf ++ vs ++ skipn (off + List.length vs) buf.
Proof.
  induction buf as [|b buf IH]; intros off vs H; cbn [List.length] in H.
  - assert (off = O) by lia. subst off. destruct vs; [reflexivity|].
    cbn [List.length] in H. lia.
  - destruct off as [|off]; cbn [splice_at].
    + destruct vs as [|v vs]; [reflexivity|].
      cbn [List.length] in H. rewrite IH by lia. reflexivity.
    + rewrite IH by lia. reflexivity.
Qed.

Lemma nth_splice_at_in buf off vs k d :
  (off + List.length vs <= List.length buf)%nat ->
  (k < List.length vs)%nat ->
  nth (off + k) (splice_at buf off vs) d = nth k vs d.
Proof.
  intros H Hk. rewrite splice_at_eq by exact H.
  rewrite app_nth2; rewrite length_firstn; [|lia].
  replace (off + k - Nat.min off (List.length buf))%nat with k by lia.
  now rewrite app_nth1.
Qed.

Lemma nth_splice_at_out buf off vs k d :
  (k < off \/ off + List.length vs <= k)%nat ->
  nth k (splice_at buf off vs) d = nth k buf d.
Proof.
  revert off vs k. induction buf as [|b buf IH]; intros off vs k H;
    cbn [splice_at]; [reflexivity|].
  destruct off as [|off].
  - destruct vs as [|v vs]; [reflexivity|]. cbn [List.length] in H.
    destruct k as [|k]; [lia|]. cbn [nth]. apply IH. lia.
  - destruct k as [|k]; [reflexivity|]. cbn [nth]. apply IH. lia.
Qed.

Lemma in_bounds_true buf off len :
  0 <= off -> 0 <= len -> off + len <= Z.of_nat (List.length buf) ->
  in_bounds buf off len = true.
Proof.
  intros H0 H1 H2. unfold in_bounds.
  destruct (Z.leb_spec 0 off); [|lia]. destruct (Z.leb_spec 0 len); [|lia].
  destruct (Z.leb_spec (off + len) (Z.of_nat (List.length buf))); [|lia].
  reflexivity.
Qed.

Lemma poke_2_spec off vs s :
  0 <= off -> off + Z.of_nat (List.length vs) <= Z.of_nat (List.length (buf_2 s)) ->
  poke_2 off vs s = Done (set_buf_2 (splice (buf_2 s) off vs) s).
Proof. intros. unfold poke_2. now rewrite in_bounds_true by lia. Qed.

Lemma poke_3_spec off vs s :
  0 <= off -> off + Z.of_nat (List.length vs) <= Z.of_nat (List.length (buf_3 s)) ->
  poke_3 off vs s = Done (set_buf_3 (splice (buf_3 s) off vs) s).
Proof. intros. unfold poke_3. now rewrite in_bounds_true by lia. Qed.

Lemma puts_a_spec vs : forall s,
  0 <= a s ->
  a s + Z.of_nat (List.length vs) <= Z.of_nat (List.length (buf_2 s)) ->
  puts_a vs s
  = Done (set_a (a s + Z.of_nat (List.length vs))
            (set_buf_2 (splice (buf_2 s) (a s) (map u8 vs)) s)).
Proof.
  induction vs as [|v vs IH]; intros s H0 H1; cbn [puts_a].
  - unfold pure, splice. cbn [map List.length Z.of_nat].
    rewrite splice_at_nil, Z.add_0_r. now destruct s.
  - cbn [List.length] in H1. rewrite Nat2Z.inj_succ in H1.
    unfold seq at 1, put_a, seq, pure.
    rewrite poke_2_spec by (cbn [List.length]; lia). cbn [bind].
    rewrite IH by (sim; rewrite ?length_splice; lia).
    destruct s. sim. sim_in H0. unfold splice. cbn [map List.length].
    replace (Z.to_nat (a0 + 1)) with (S (Z.to_nat a0)) by lia.
    rewrite splice_at_cons, Nat2Z.inj_succ.
    replace (a0 + 1 + Z.of_nat (List.length vs))
      with (a0 + Z.succ (Z.of_nat (List.length vs))) by lia.
    reflexivity.
Qed.

Lemma puts_z_spec vs : forall s,
  0 <= z s ->
  z s + Z.of_nat (List.length vs) <= Z.of_nat (List.length (buf_3 s)) ->
  puts_z vs s
  = Done (set_z (z s + Z.of_nat (List.length vs))
            (set_buf_3 (splice (buf_3 s) (z s) (map u8 vs)) s)).
Proof.
  induction vs as [|v vs IH]; intros s H0 H1; cbn [puts_z].
  - unfold pure, splice. cbn [map List.length Z.of_nat].
    rewrite splice_at_nil, Z.add_0_r. now destruct s.
  - cbn [List.length] in H1. rewrite Nat2Z.inj_succ in H1.
    unfold seq at 1, put_z, seq, pure.
    rewrite poke_3_spec by (cbn [List.length]; lia). cbn [bind].
    rewrite IH by (sim; rewrite ?length_splice; lia).
    destruct s. sim. sim_in H0. unfold splice. cbn [map List.length].
    replace (Z.to_nat (z0 + 1)) with (S (Z.to_nat z0)) by lia.
    rewrite splice_at_cons, Nat2Z.inj_succ.
    replace (z0 + 1 + Z.of_nat (List.length vs))
      with (z0 + Z.succ (Z.of_nat (List.length vs))) by lia.
    reflexivity.
Qed.

Lemma length_load buf off len :
  0 <= off -> 0 <= len -> off + len <= Z.of_nat (List.length buf) ->
  List.length (load buf off len) = Z.to_nat len.
Proof.
  intros. unfold load. rewrite length_firstn, length_skipn. lia.
Qed.

Lemma memcpy_2_to_3_spec dst src n s :
  0 <= src -> 0 <= n -> src + n <= Z.of_nat (List.length (buf_2 s)) ->
  0 <= dst -> dst + n <= Z.of_nat (List.length (buf_3 s)) ->
  memcpy_2_to_3 dst src n s
  = Done (set_buf_3 (splice (buf_3 s) dst (load (buf_2 s) src n)) s).
Proof.
  intros. unfold memcpy_2_to_3. rewrite in_bounds_true by lia.
  apply poke_3_spec; rewrite ?length_load; lia.
Qed.

(** ** The encoders, step by step *)

(** Side conditions of the stores and of the stream writes. *)
Ltac side :=
  sim; cbn [List.length map firstn le_bytes32];
  rewrite ?length_splice, ?repeat_length;
  cbn [List.length map]; unfold wf, round4, u32 in *;
  Z.div_mod_to_equations; lia.

(** Runs an operation up to its next store or stream write and takes it. *)
Ltac run :=
  unfold seq; cbv beta zeta;
  repeat (cbn [bind pure print_offsets]; sim;
          first [ rewrite puts_a_spec by side
                | rewrite puts_z_spec by side
                | rewrite poke_2_spec by side
                | rewrite poke_3_spec by side
                | rewrite memcpy_2_to_3_spec by side
                | rewrite write_buf8_spec by side
                | rewrite write_buf32_spec by side ]);
  cbn [bind pure print_offsets]; sim.

(** The scratch variables after one [add_endpoint]. *)
Lemma add_endpoint_spec
    idx dir attrib max_pkt interval max_burst attrib_3 bytes_per_interval s :
  0 <= a s -> a s + 7 <= Z.of_nat (List.length (buf_2 s)) ->
  0 <= z s -> z s + 13 <= Z.of_nat (List.length (buf_3 s)) ->
  let b2 := splice (buf_2 s) (a s)
              (map u8 [0x07; 0x05; Z.lor idx (if dir =? 0 then 0x0 else 0x80);
                       attrib; Z.land max_pkt 0xff; Z.shiftr max_pkt 8;
                       interval]) in
  let b3 := splice
              (splice
                 (splice (splice (buf_3 s) (z s) (load b2 (a s) 7))
                    (z s + 7 - 2) [0x04])
                 (z s + 7 - 3) [0x00])
              (z s + 7)
              (map u8 [0x06; 0x30; max_burst - 1; attrib_3;
                       Z.land bytes_per_interval 0xff;
                       Z.shiftr bytes_per_interval 8]) in
  add_endpoint idx dir attrib max_pkt interval max_burst attrib_3
    bytes_per_interval s
  = Done (set_bytes_pending_3 (u32 (u32 (bytes_pending_3 s + 7) + 6))
            (set_z (z s + 7 + 6)
               (set_buf_3 b3
                  (set_bytes_pending_2 (u32 (bytes_pending_2 s + 7))
                     (set_a (a s + 7) (set_buf_2 b2 s)))))).
Proof.
  intros Ha0 Ha1 Hz0 Hz1 b2 b3. unfold add_endpoint. run.
  subst b2 b3. destruct s. reflexivity.
Qed.

(** ** Reading the scratch buffers back *)

Lemma firstn_nths (n : nat) : forall (l : list Z),
  (n <= List.length l)%nat ->
  firstn n l = map (fun i => nth i l 0) (List.seq 0 n).
Proof.
  induction n as [|n IH]; intros l H; [reflexivity|].
  destruct l as [|x l]; cbn [List.length] in H; [lia|].
  cbn [firstn List.seq map nth]. f_equal.
  rewrite IH by lia. rewrite <- seq_shift, map_map. reflexivity.
Qed.

(** The byte at position [k] after a store. *)
Lemma nth_splice buf off vs (k : nat) d :
  0 <= off -> off + Z.of_nat (List.length vs) <= Z.of_nat (List.length buf) ->
  nth k (splice buf off vs) d
  = if (off <=? Z.of_nat k) && (Z.of_nat k <? off + Z.of_nat (List.length vs))
    then nth (k - Z.to_nat off) vs d
    else nth k buf d.
Proof.
  intros H0 H1. unfold splice.
  destruct (Z.leb_spec off (Z.of_nat k));
    destruct (Z.ltb_spec (Z.of_nat k) (off + Z.of_nat (List.length vs)));
    cbn [andb].
  - replace k with (Z.to_nat off + (k - Z.to_nat off))%nat at 1 by lia.
    apply nth_splice_at_in; lia.
  - apply nth_splice_at_out. lia.
  - apply nth_splice_at_out. lia.
  - apply nth_splice_at_out. lia.
Qed.

Lemma nth_load buf off len (k : nat) d :
  0 <= off -> (k < Z.to_nat len)%nat ->
  nth k (load buf off len) d = nth (Z.to_nat off + k) buf d.
Proof.
  intros H0 Hk. unfold load.
  rewrite nth_firstn. destruct (Nat.ltb_spec k (Z.to_nat len)); [|lia].
  apply nth_skipn.
Qed.

(** Conditions and indices that are closed terms are evaluated. *)
Ltac eval_ifs :=
  repeat match goal with
  | |- context [if ?b then _ else _] =>
      let v := eval vm_compute in b in
      first [constr_eq v true | constr_eq v false];
      change b with v; cbv iota
  end.

(** Reads bytes at known positions of a buffer given by stores. *)
Ltac rd :=
  repeat (rewrite nth_splice by side; eval_ifs);
  cbn [nth Nat.sub Z.to_nat Pos.to_nat Pos.iter_op Nat.add].

(** What [add_device_descr] sends to the two streams: the 18 bytes of the
    device descriptor and the 10 bytes of the qualifier to USB2; to USB3 the
    18 bytes of its copy, followed by the two bytes that lie behind the
    10-byte tail in [buf_2]. *)
Lemma add_device_descr_effect
    usb_spec class_code subclass protocol_code max_size_ep0
    vid pid dev_num idx_mfg idx_prod idx_serial num_possible_config s :
  wf s ->
  exists s',
    add_device_descr usb_spec class_code subclass protocol_code max_size_ep0
      vid pid dev_num idx_mfg idx_prod idx_serial num_possible_config s
    = Done s'
    /\ bin_2 s'
       = bin_2 s
         ++ [0x12; 0x01; bcd_lo usb_spec; bcd_hi usb_spec;
             u8 class_code; u8 subclass; u8 protocol_code; u8 max_size_ep0;
             u8 (Z.land vid 0xff); u8 (Z.shiftr vid 8);
             u8 (Z.land pid 0xff); u8 (Z.shiftr pid 8);
             u8 (Z.land dev_num 0xff); u8 (Z.shiftr dev_num 8);
             u8 idx_mfg; u8 idx_prod; u8 idx_serial; u8 num_possible_config]
         ++ [0x0A; 0x06; bcd_lo usb_spec; bcd_hi usb_spec;
             u8 class_code; u8 subclass; u8 protocol_code; u8 max_size_ep0;
             u8 num_possible_config; 0]
    /\ bin_3 s'
       = bin_3 s
         ++ [0x12; 0x01; 0x00; 0x03;
             u8 class_code; u8 subclass; u8 protocol_code; 0x09;
             u8 (Z.land vid 0xff); u8 (Z.shiftr vid 8);
             u8 (Z.land pid 0xff); u8 (Z.shiftr pid 8);
             u8 (Z.land dev_num 0xff); u8 (Z.shiftr dev_num 8);
             u8 idx_mfg; u8 idx_prod; u8 idx_serial; u8 num_possible_config]
         ++ [nth 10 (buf_2 s) 0; nth 11 (buf_2 s) 0].
Proof.
  intros Hwf. unfold add_device_descr, add_device_qual, write_buf. run.
  eexists. split; [reflexivity|].
  unfold push_2, push_3. sim.
  rewrite !firstn_nths by side.
  change (Z.to_nat 4) with 4%nat. change (Z.to_nat 10) with 10%nat.
  change (Z.to_nat (round4 4)) with 4%nat.
  change (Z.to_nat (round4 10)) with 12%nat.
  cbn [List.seq map]. rd.
  rewrite <- !app_assoc. split; reflexivity.
Qed.

(** ** The configuration group *)

Lemma add_config_start_spec usb_spec attrib power_ma num_endpoints s :
  wf s ->
  let b2 := splice
              (splice (buf_2 s) 0
                 (map u8 [0x09; 0x02; Z.land 0xffff 0xff; Z.shiftr 0xffff 8;
                          0x01; 0x01; 0x00; attrib;
                          if usb_spec =? 0x300 then power_ma / 8
                          else power_ma / 2]))
              9
              (map u8 [0x09; 0x04; 0x00; 0x00; num_endpoints;
                       0xFF; 0xFF; 0xFF; 0x02]) in
  add_config_start usb_spec attrib power_ma num_endpoints s
  = Done (set_z 18
            (set_buf_3 (splice (buf_3 s) 0 (load b2 0 18))
               (set_bytes_pending_3 18
                  (set_bytes_pending_2 18
                     (set_a 18
                        (set_buf_2 b2
                           (set_descrip_vh
                              (descrip_vh s
                               ++ [{| vh_target := USB2;
                                      vh_msb := bitwidth_2 s - 1;
                                      vh_name := "CONFIG";
                                      vh_value := as_int (i_2 s) |};
                                   {| vh_target := USB3;
                                      vh_msb := bitwidth_3 s - 1;
                                      vh_name := "CONFIG";
                                      vh_value := as_int (i_3 s) |}])
                              (set_c_3 (i_3 s) (set_c_2 (i_2 s) s))))))))).
Proof.
  intros Hwf b2. unfold add_config_start.
  unfold seq; cbv beta zeta.
  cbn [bind pure print_offsets]; sim.
  rewrite puts_a_spec by side. cbn [bind pure]; sim.
  rewrite puts_a_spec by side. cbn [bind pure]; sim.
  change (u32 (u32 (0 + 9) + 9)) with 18.
  rewrite memcpy_2_to_3_spec by side. cbn [bind pure]; sim.
  subst b2. destruct s. reflexivity.
Qed.

Lemma u32_add_add x y k : u32 (u32 (x + y) + k) = u32 (x + (y + k)).
Proof. rewrite u32_idem_l. f_equal. lia. Qed.

(** After [n] endpoints the two pointers and the two pending counts have
    advanced by [7 n] and [13 n]; nothing has gone to the streams. *)
Lemma add_endpoints_spec es : forall s,
  let n := Z.of_nat (List.length es) in
  0 <= a s -> a s + 7 * n <= Z.of_nat (List.length (buf_2 s)) ->
  0 <= z s -> z s + 13 * n <= Z.of_nat (List.length (buf_3 s)) ->
  exists s',
    add_endpoints es s = Done s'
    /\ a s' = a s + 7 * n /\ z s' = z s + 13 * n
    /\ bytes_pending_2 s' = bump (bytes_pending_2 s) (7 * n)
    /\ bytes_pending_3 s' = bump (bytes_pending_3 s) (13 * n)
    /\ List.length (buf_2 s') = List.length (buf_2 s)
    /\ List.length (buf_3 s') = List.length (buf_3 s)
    /\ bin_2 s' = bin_2 s /\ bin_3 s' = bin_3 s.
Proof.
  induction es as [|e es IH]; intros s n Ha0 Ha1 Hz0 Hz1; subst n;
    cbn [add_endpoints List.length] in *.
  - exists s. unfold pure, bump. cbn [Z.of_nat]. rewrite !Z.mul_0_r, !Z.add_0_r.
    repeat split; reflexivity.
  - rewrite Nat2Z.inj_succ in *. unfold seq, add_endpoint_of.
    rewrite add_endpoint_spec by lia. cbn [bind].
    match goal with |- context [add_endpoints es ?t] => set (s1 := t) end.
    destruct (IH s1) as (s' & Hrun & Ha & Hz & Hp2 & Hp3 & Hl2 & Hl3 & Hb2 & Hb3);
      subst s1; sim; rewrite ?length_splice; try lia.
    exists s'. split; [exact Hrun|].
    revert Ha Hz Hp2 Hp3 Hl2 Hl3 Hb2 Hb3. sim. rewrite !length_splice.
    intros -> -> -> -> -> -> -> ->.
    rewrite u32_add_add, !bump_step by lia.
    replace (7 + 6 + 13 * Z.of_nat (List.length es))
      with (13 * Z.succ (Z.of_nat (List.length es))) by lia.
    replace (7 + 7 * Z.of_nat (List.length es))
      with (7 * Z.succ (Z.of_nat (List.length es))) by lia.
    repeat split; try reflexivity; lia.
Qed.

Lemma le16_field p :
  0 <= p < 65536 -> Z.land p 255 + 256 * Z.land (Z.shiftr p 8) 255 = p.
Proof.
  intros H. change 255 with (Z.ones 8).
  rewrite !Z.land_ones, Z.shiftr_div_pow2 by lia.
  change (2 ^ 8) with 256. Z.div_mod_to_equations. lia.
Qed.

(** [add_config_end] sends the group: to USB2 as many bytes as its pending
    count says, to USB3 the pending count rounded up to whole words; the
    length field of either copy holds that stream's pending count. *)
Lemma add_config_end_effect s :
  0 <= a s -> a s + 9 <= Z.of_nat (List.length (buf_2 s)) ->
  0 <= z s -> z s + 9 <= Z.of_nat (List.length (buf_3 s)) ->
  4 <= u32 (bytes_pending_2 s + 9) <= Z.of_nat (List.length (buf_2 s)) ->
  4 <= u32 (bytes_pending_3 s + 9) ->
  round4 (u32 (bytes_pending_3 s + 9)) <= Z.of_nat (List.length (buf_3 s)) ->
  Z.of_nat (List.length (buf_2 s)) < 65536 ->
  Z.of_nat (List.length (buf_3 s)) < 65536 ->
  exists s' g2 g3,
    add_config_end s = Done s'
    /\ bytes_pending_2 s' = u32 (bytes_pending_2 s + 9)
    /\ bytes_pending_3 s' = u32 (bytes_pending_3 s + 9)
    /\ bin_2 s' = bin_2 s ++ g2
    /\ Z.of_nat (List.length g2) = bytes_pending_2 s'
    /\ field16 g2 2 = bytes_pending_2 s'
    /\ bin_3 s' = bin_3 s ++ g3
    /\ Z.of_nat (List.length g3) = round4 (bytes_pending_3 s')
    /\ field16 g3 2 = bytes_pending_3 s'.
Proof.
  intros Ha0 Ha1 Hz0 Hz1 Hp2 Hp3 Hr3 Hl2 Hl3.
  pose proof (round4_bounds (u32 (bytes_pending_3 s + 9))) as Hrb.
  unfold add_config_end. run.
  do 3 eexists. split; [reflexivity|]. sim.
  split; [reflexivity|]. split; [reflexivity|].
  split; [reflexivity|]. split; [|split; [|split; [reflexivity|split]]].
  - rewrite length_firstn, !length_splice. lia.
  - unfold field16. rewrite !nth_firstn.
    destruct (Nat.ltb_spec 2 (Z.to_nat (u32 (bytes_pending_2 s + 9)))); [|lia].
    destruct (Nat.ltb_spec 3 (Z.to_nat (u32 (bytes_pending_2 s + 9)))); [|lia].
    cbn [firstn le_bytes32]. rewrite !(nth_splice _ 2) by side. eval_ifs.
    cbn [nth Nat.sub Z.to_nat Pos.to_nat Pos.iter_op Nat.add].
    apply le16_field. lia.
  - rewrite length_firstn, !length_splice. lia.
  - unfold field16. rewrite !nth_firstn.
    destruct (Nat.ltb_spec 2 (Z.to_nat (round4 (u32 (bytes_pending_3 s + 9)))));
      [|lia].
    destruct (Nat.ltb_spec 3 (Z.to_nat (round4 (u32 (bytes_pending_3 s + 9)))));
      [|lia].
    cbn [firstn le_bytes32]. rewrite !(nth_splice _ 2) by side. eval_ifs.
    cbn [nth Nat.sub Z.to_nat Pos.to_nat Pos.iter_op Nat.add].
    apply le16_field. lia.
Qed.

Lemma bump_small c k :
  0 <= c -> 0 <= k -> c + k < 4294967296 -> bump c k = c + k.
Proof.
  intros Hc Hk H. unfold bump. destruct (Z.eqb_spec k 0) as [->|]; [lia|].
  apply u32_small. lia.
Qed.

Lemma skipn_length_app (l g : list Z) : skipn (List.length l) (l ++ g) = g.
Proof. induction l as [|x l IH]; [reflexivity|exact IH]. Qed.

(** A whole group of [n] endpoints: what reaches the two streams. *)
Lemma config_group_effect usb_spec attrib power_ma num_endpoints es s :
  wf s ->
  let n := Z.of_nat (List.length es) in
  27 + 13 * n <= 1024 ->
  exists s',
    config_group usb_spec attrib power_ma num_endpoints es s = Done s'
    /\ bytes_pending_2 s' = 27 + 7 * n
    /\ bytes_pending_3 s' = 27 + 13 * n
    /\ Z.of_nat (List.length (added_2 s s')) = 27 + 7 * n
    /\ field16 (added_2 s s') 2 = 27 + 7 * n
    /\ Z.of_nat (List.length (added_3 s s')) = round4 (27 + 13 * n)
    /\ field16 (added_3 s s') 2 = 27 + 13 * n.
Proof.
  intros Hwf n Hn. unfold config_group, seq.
  rewrite add_config_start_spec by exact Hwf. cbn [bind].
  match goal with |- context [add_endpoints es ?t] => set (s1 := t) end.
  assert (Hn0 : 0 <= n) by (subst n; lia).
  destruct Hwf as [Hl2 Hl3].
  destruct (add_endpoints_spec es s1)
    as (s2 & Hrun & Ha & Hz & Hp2 & Hp3 & Hb2 & Hb3 & Hf2 & Hf3);
    try (subst s1; sim; rewrite ?length_splice; fold n; lia).
  rewrite Hrun. cbn [bind].
  revert Ha Hz Hp2 Hp3 Hb2 Hb3 Hf2 Hf3. subst s1. sim.
  rewrite !length_splice. fold n. intros Ha Hz Hp2 Hp3 Hb2 Hb3 Hf2 Hf3.
  rewrite bump_small in Hp2, Hp3 by lia.
  assert (Hq2 : u32 (bytes_pending_2 s2 + 9) = 27 + 7 * n)
    by (rewrite Hp2, u32_small; lia).
  assert (Hq3 : u32 (bytes_pending_3 s2 + 9) = 27 + 13 * n)
    by (rewrite Hp3, u32_small; lia).
  pose proof (round4_bounds (27 + 13 * n)) as Hrb.
  assert (Hr : round4 (27 + 13 * n) <= 1024)
    by (unfold round4 in *; Z.div_mod_to_equations; lia).
  destruct (add_config_end_effect s2)
    as (s' & g2 & g3 & Hend & Hs2 & Hs3 & Hg2 & Hlg2 & Hfg2 & Hg3 & Hlg3 & Hfg3);
    rewrite ?Hq2, ?Hq3; try lia.
  exists s'. split; [exact Hend|].
  unfold added_2, added_3.
  rewrite Hg2, Hg3, Hf2, Hf3, !skipn_length_app.
  rewrite Hs2, Hq2 in *. rewrite Hs3, Hq3 in *.
  repeat split; assumption.
Qed.

(** ** String descriptors *)

Lemma strlen_app cs rest :
  Forall (fun c => c <> 0) cs ->
  strlen (cs ++ 0 :: rest) = Some (Z.of_nat (List.length cs)).
Proof.
  induction 1 as [|c cs Hc _ IH]; [reflexivity|].
  cbn [app strlen List.length]. destruct (Z.eqb_spec c 0); [contradiction|].
  rewrite IH. cbn [option_map]. f_equal. lia.
Qed.

Lemma c_string_app cs rest :
  Forall (fun c => c <> 0) cs -> c_string (cs ++ 0 :: rest) = cs ++ [0].
Proof.
  induction 1 as [|c cs Hc _ IH]; [reflexivity|].
  cbn [app c_string]. destruct (Z.eqb_spec c 0); [contradiction|].
  now rewrite IH.
Qed.

Lemma length_widen (cs : list Z) :
  List.length (flat_map (fun c => [c; 0]) cs) = (2 * List.length cs)%nat.
Proof. induction cs as [|c cs IH]; cbn [flat_map List.length app]; lia. Qed.

Lemma firstn_repeat (x : Z) (k m : nat) :
  (k <= m)%nat -> firstn k (repeat x m) = repeat x k.
Proof.
  revert m. induction k as [|k IH]; intros [|m] H; try reflexivity; try lia.
  cbn [repeat firstn]. f_equal. apply IH. lia.
Qed.

Lemma skipn_repeat (x : Z) (k m : nat) :
  skipn k (repeat x m) = repeat x (m - k).
Proof.
  revert m. induction k as [|k IH]; intros [|m]; try reflexivity.
  cbn [repeat skipn Nat.sub]. apply IH.
Qed.

(** The scratch buffer of a string descriptor: header, text, zeros. *)
Lemma string_buffer x y (w : list Z) :
  (List.length w <= 1022)%nat ->
  splice (splice (repeat 0 1024%nat) 0 [x; y]) 2 w
  = x :: y :: w ++ repeat 0 (1022 - List.length w).
Proof.
  intros H. unfold splice. change (Z.to_nat 0) with O.
  change (Z.to_nat 2) with 2%nat.
  change (repeat 0 1024) with (0 :: 0 :: repeat 0 1022).
  cbn [splice_at]. rewrite splice_at_nil. cbn [splice_at]. do 2 f_equal.
  rewrite splice_at_eq by (rewrite repeat_length; lia).
  cbn [firstn app Nat.add]. now rewrite skipn_repeat.
Qed.

Lemma add_string_effect pf idx cs rest s :
  wchar_size pf = 2 -> 0 < idx ->
  Forall (fun c => c <> 0) cs ->
  let n := Z.of_nat (List.length cs) in
  n <= 127 ->
  let d := u8 (n * 2 + 2) :: 0x03 :: flat_map (fun c => [c; 0]) cs in
  exists s',
    add_string pf idx (cs ++ 0 :: rest) s = Done s'
    /\ bin_2 s' = bin_2 s ++ d
    /\ bin_3 s'
       = bin_3 s ++ d
         ++ repeat 0 (Z.to_nat (round4 (n * 2 + 2) - (n * 2 + 2))).
Proof.
  intros Hws Hidx Hcs n Hn d. subst d.
  remember n as m eqn:Hm. unfold n in Hm. clear n.
  assert (Hn0 : 0 <= m) by lia.
  assert (Hw : wchar_bytes pf = fun c => [c; 0])
    by (unfold wchar_bytes; rewrite Hws; reflexivity).
  unfold add_string. destruct (Z.eqb_spec idx 0); [lia|].
  rewrite strlen_app by assumption. cbn [option_map]. rewrite <- Hm.
  rewrite (u32_small (m * 2 + 2)) by lia.
  unfold seq; cbv beta zeta. cbn [bind pure print_offsets]; sim.
  destruct (Z.ltb_spec 0 idx); [|lia].
  unfold mbstowcs. rewrite c_string_app by assumption.
  rewrite firstn_all2 by (rewrite length_app; cbn [List.length]; lia).
  rewrite Hw, flat_map_app. cbn [flat_map app].
  rewrite puts_a_spec by side. cbn [bind pure]; sim.
  pose proof (length_widen cs) as Hlw.
  rewrite in_bounds_true
    by (rewrite ?length_app, ?Hlw; cbn [List.length]; lia).
  remember (flat_map (fun c => [c; 0]) cs) as W eqn:HW.
  assert (Hload : load (W ++ [0; 0]) 0 (m * 2 + 2 - 2) = W).
  { unfold load. cbn [Z.to_nat skipn].
    replace (Z.to_nat (m * 2 + 2 - 2)) with (List.length W + 0)%nat by lia.
    rewrite firstn_app_2. cbn [firstn]. apply app_nil_r. }
  rewrite Hload.
  rewrite poke_2_spec by side.
  cbn [bind pure]; sim. unfold write_buf, seq. cbn [map].
  change (u8 3) with 3.
  rewrite string_buffer by lia.
  set (x := u8 (m * 2 + 2)).
  pose proof (round4_bounds (m * 2 + 2)) as Hrb.
  assert (Hlen : List.length (x :: 3 :: W ++ repeat 0 (1022 - List.length W))
                 = 1024%nat)
    by (cbn [List.length]; rewrite length_app, repeat_length; lia).
  rewrite write_buf8_spec by (rewrite ?Hlen; lia). cbn [bind].
  rewrite write_buf32_spec
    by (rewrite ?Hlen; unfold round4 in *; Z.div_mod_to_equations; lia).
  eexists. split; [reflexivity|]. sim.
  replace (Z.to_nat (m * 2 + 2)) with (S (S (List.length W + 0))) by lia.
  replace (Z.to_nat (round4 (m * 2 + 2)))
    with (S (S (List.length W
                + Z.to_nat (round4 (m * 2 + 2) - (m * 2 + 2))))) by lia.
  cbn [firstn]. rewrite !firstn_app_2. cbn [firstn].
  rewrite firstn_repeat
    by (unfold round4 in *; Z.div_mod_to_equations; lia).
  rewrite app_nil_r. split; reflexivity.
Qed.

(** The language-code descriptor: four bytes, the two raw bytes last. *)
Lemma add_string_0_effect pf l0 l1 rest s :
  exists s',
    add_string pf 0 (l0 :: l1 :: rest) s = Done s'
    /\ bin_2 s' = bin_2 s ++ [4; 0x03; l0; l1]
    /\ bin_3 s' = bin_3 s ++ [4; 0x03; l0; l1].
Proof.
  unfold add_string. change (0 =? 0) with true. change (0 <? 0) with false.
  cbv iota. unfold seq; cbv beta zeta. cbn [bind pure print_offsets]; sim.
  rewrite in_bounds_true by (cbn [List.length]; lia).
  change (load (l0 :: l1 :: rest) 0 2) with [l0; l1].
  rewrite puts_a_spec by side. cbn [bind pure]; sim.
  change (4 - 2) with 2.
  rewrite in_bounds_true by (cbn [List.length]; lia).
  change (load [l0; l1] 0 2) with [l0; l1].
  rewrite poke_2_spec by side. cbn [bind pure]; sim.
  unfold write_buf, seq.
  rewrite write_buf8_spec by side. cbn [bind].
  rewrite write_buf32_spec by side.
  eexists. split; [reflexivity|]. sim.
  rewrite !firstn_nths by side.
  change (Z.to_nat 4) with 4%nat. change (Z.to_nat (round4 4)) with 4%nat.
  cbn [List.seq map]. rd. split; reflexivity.
Qed.

(** ** Padding *)

Lemma push_2_cons0 bs s : push_2 bs (push_2 [0] s) = push_2 (0 :: bs) s.
Proof. change (push_2 [0] s) with (emit8 0 s). apply push_2_emit8. Qed.

Lemma push_3_cons0 bs s :
  push_3 bs (push_3 [0; 0; 0; 0] s) = push_3 (0 :: 0 :: 0 :: 0 :: bs) s.
Proof.
  change (push_3 [0; 0; 0; 0] s) with (emit32 0 0 0 0 s).
  apply push_3_emit32.
Qed.

(** With enough fuel the USB2 padding loop ends, having sent as many zero
    bytes as the counter was short of [2 ^ bitwidth_2]. *)
Lemma pad_2_spec (k : nat) : forall fuel s,
  0 <= bytes_written_2 s -> 2 ^ bitwidth_2 s <= 2147483648 ->
  k = Z.to_nat (2 ^ bitwidth_2 s - bytes_written_2 s) ->
  (k <= fuel)%nat ->
  pad_2 fuel s = Done (push_2 (repeat 0 k) s).
Proof.
  induction k as [|k IH]; intros fuel s H0 Ht Hk Hf.
  - cbn [repeat]. rewrite push_2_nil.
    destruct fuel; cbn [pad_2];
      destruct (Z.ltb_spec (bytes_written_2 s) (2 ^ bitwidth_2 s)); try lia;
      reflexivity.
  - destruct fuel as [|fuel]; [lia|]. cbn [pad_2].
    destruct (Z.ltb_spec (bytes_written_2 s) (2 ^ bitwidth_2 s)); [|lia].
    unfold seq. rewrite write_buf8_spec by (cbn; lia).
    change (firstn (Z.to_nat 1) (literal [0])) with [0]. cbn [bind].
    rewrite IH; sim; unfold bump; cbn [List.length Z.of_nat Z.eqb];
      rewrite ?u32_small; try lia.
    cbn [repeat]. now rewrite push_2_cons0.
Qed.

(** With enough fuel the USB3 padding loop ends, having sent zero words
    until the counter was no longer below [2 ^ bitwidth_3 * 4]. *)
Lemma pad_3_spec (k : nat) : forall fuel s,
  0 <= bytes_written_3 s -> 2 ^ bitwidth_3 s * 4 <= 2147483648 ->
  2 ^ bitwidth_3 s * 4 - bytes_written_3 s <= 4 * Z.of_nat k ->
  (k <= fuel)%nat ->
  pad_3 fuel s
  = Done (push_3
            (repeat 0 (Z.to_nat (round4 (2 ^ bitwidth_3 s * 4
                                         - bytes_written_3 s)))) s).
Proof.
  induction k as [|k IH]; intros fuel s H0 Ht Hk Hf.
  - rewrite round4_nonpos by lia. cbn [repeat]. rewrite push_3_nil.
    destruct fuel; cbn [pad_3];
      destruct (Z.ltb_spec (bytes_written_3 s) (2 ^ bitwidth_3 s * 4));
      try lia; reflexivity.
  - destruct (Z.ltb_spec (bytes_written_3 s) (2 ^ bitwidth_3 s * 4))
      as [Hlt|Hge].
    + destruct fuel as [|fuel]; [lia|]. cbn [pad_3].
      destruct (Z.ltb_spec (bytes_written_3 s) (2 ^ bitwidth_3 s * 4)); [|lia].
      unfold seq. rewrite write_buf32_spec by (cbn; lia).
      change (firstn (Z.to_nat (round4 1)) (literal [0; 0; 0; 0]))
        with [0; 0; 0; 0].
      cbn [bind].
      rewrite IH; sim; unfold bump;
        change (Z.of_nat (List.length [0; 0; 0; 0])) with 4;
        change (4 =? 0) with false; cbv iota;
        rewrite ?u32_small; try lia.
      rewrite (round4_step (2 ^ bitwidth_3 s * 4 - bytes_written_3 s)) by lia.
      replace (2 ^ bitwidth_3 s * 4 - (bytes_written_3 s + 4))
        with (2 ^ bitwidth_3 s * 4 - bytes_written_3 s - 4) by lia.
      pose proof (round4_bounds (2 ^ bitwidth_3 s * 4 - bytes_written_3 s - 4)).
      replace (Z.to_nat
                 (4 + round4 (2 ^ bitwidth_3 s * 4 - bytes_written_3 s - 4)))
        with (S (S (S (S (Z.to_nat
               (round4 (2 ^ bitwidth_3 s * 4 - bytes_written_3 s - 4)))))))
        by (unfold round4 in *; Z.div_mod_to_equations; lia).
      cbn [repeat]. now rewrite push_3_cons0.
    + rewrite round4_nonpos by lia. cbn [repeat]. rewrite push_3_nil.
      destruct fuel; cbn [pad_3];
        destruct (Z.ltb_spec (bytes_written_3 s) (2 ^ bitwidth_3 s * 4));
        try lia; reflexivity.
Qed.

(** ** What every call leaves alone *)

Section Preservation.

Variable R : state -> state -> Prop.
Hypothesis R_trans : forall s1 s2 s3, R s1 s2 -> R s2 s3 -> R s1 s3.
Hypothesis R_scratch : forall s s', same_files s s' -> R s s'.
Hypothesis R_emit8 : forall b s, R s (emit8 b s).
Hypothesis R_emit32 : forall b0 b1 b2 b3 s, R s (emit32 b0 b1 b2 b3 s).
Hypothesis R_line : forall lines s,
  R s (set_descrip_vh (descrip_vh s ++ lines) s).

Lemma R_refl s : R s s.
Proof. apply R_scratch. repeat split. Qed.

Lemma preserves_seq f g :
  preserves R f -> preserves R g -> preserves R (f ;; g).
Proof.
  intros Hf Hg s s' H. unfold seq in H. destruct (f s) as [s1| |] eqn:E;
    cbn [bind] in H; try discriminate.
  eapply R_trans; [eapply Hf|eapply Hg]; eassumption.
Qed.

Lemma preserves_pure g :
  (forall s, same_files s (g s)) -> preserves R (pure g).
Proof. intros Hg s s' H. injection H as <-. apply R_scratch, Hg. Qed.

Lemma preserves_poke_2 off vs : preserves R (poke_2 off vs).
Proof.
  intros s s' H. unfold poke_2 in H. destruct in_bounds; [|discriminate].
  injection H as <-. apply R_scratch. repeat split.
Qed.

Lemma preserves_poke_3 off vs : preserves R (poke_3 off vs).
Proof.
  intros s s' H. unfold poke_3 in H. destruct in_bounds; [|discriminate].
  injection H as <-. apply R_scratch. repeat split.
Qed.

Lemma preserves_put_a v : preserves R (put_a v).
Proof.
  intros s s' H. unfold put_a in H. revert H.
  apply preserves_seq; [apply preserves_poke_2|].
  apply preserves_pure. repeat split.
Qed.

Lemma preserves_put_z v : preserves R (put_z v).
Proof.
  intros s s' H. unfold put_z in H. revert H.
  apply preserves_seq; [apply preserves_poke_3|].
  apply preserves_pure. repeat split.
Qed.

Lemma preserves_puts_a vs : preserves R (puts_a vs).
Proof.
  induction vs as [|v vs IH]; cbn [puts_a].
  - apply preserves_pure. repeat split.
  - apply preserves_seq; [apply preserves_put_a|exact IH].
Qed.

Lemma preserves_puts_z vs : preserves R (puts_z vs).
Proof.
  induction vs as [|v vs IH]; cbn [puts_z].
  - apply preserves_pure. repeat split.
  - apply preserves_seq; [apply preserves_put_z|exact IH].
Qed.

Lemma preserves_memcpy_2_to_3 dst src n :
  preserves R (memcpy_2_to_3 dst src n).
Proof.
  intros s s' H. unfold memcpy_2_to_3 in H.
  destruct in_bounds; [|discriminate]. revert H. apply preserves_poke_3.
Qed.

Lemma preserves_write_buf8_loop buf : forall i size,
  preserves R (write_buf8_loop buf i size).
Proof.
  induction buf as [|b buf IH]; intros i size s s' H;
    cbn [write_buf8_loop] in H; destruct (i <? size); try discriminate;
    try (injection H as <-; apply R_refl).
  eapply R_trans; [apply R_emit8|]. eapply IH, H.
Qed.

Lemma preserves_write_buf8 buf size : preserves R (write_buf8 buf size).
Proof. apply preserves_write_buf8_loop. Qed.

Lemma preserves_write_buf32 buf size : preserves R (write_buf32 buf size).
Proof.
  intros s s' H. unfold write_buf32 in H.
  apply (write_buf32_loop_inv buf (List.length buf)) in H; [|lia].
  destruct H as (bs & rest & _ & -> & n & Hn). clear rest buf size.
  revert bs s Hn. induction n as [|n IH]; intros bs s Hn.
  - destruct bs; [|cbn [List.length] in Hn; lia].
    rewrite push_3_nil. apply R_refl.
  - destruct bs as [|b0 [|b1 [|b2 [|b3 bs]]]]; cbn [List.length] in Hn;
      try lia.
    rewrite <- push_3_emit32.
    eapply R_trans; [apply R_emit32|]. apply IH. lia.
Qed.

Lemma preserves_write_buf buf size : preserves R (write_buf buf size).
Proof.
  apply preserves_seq; [apply preserves_write_buf8|apply preserves_write_buf32].
Qed.

Lemma preserves_print_offsets name for_usb2 for_usb3 :
  preserves R (print_offsets name for_usb2 for_usb3).
Proof. intros s s' H. injection H as <-. apply R_line. Qed.

(** Takes an operation apart along its sequencing. *)
Ltac pres :=
  lazymatch goal with
  | |- preserves _ (_ ;; _) => apply preserves_seq; pres
  | |- preserves _ (pure _) => apply preserves_pure; repeat split
  | |- preserves _ (puts_a _) => apply preserves_puts_a
  | |- preserves _ (puts_z _) => apply preserves_puts_z
  | |- preserves _ (poke_2 _ _) => apply preserves_poke_2
  | |- preserves _ (poke_3 _ _) => apply preserves_poke_3
  | |- preserves _ (memcpy_2_to_3 _ _ _) => apply preserves_memcpy_2_to_3
  | |- preserves _ (write_buf8 _ _) => apply preserves_write_buf8
  | |- preserves _ (write_buf32 _ _) => apply preserves_write_buf32
  | |- preserves _ (write_buf _ _) => apply preserves_write_buf
  | |- preserves _ (print_offsets _ _ _) => apply preserves_print_offsets
  | |- preserves _ (fun _ => _) =>
      let s := fresh "s" in
      let s' := fresh "s'" in
      let H := fresh "H" in
      intros s s' H; cbv beta zeta in H;
      lazymatch type of H with
      | ?f s = Done s' =>
          let P := fresh "P" in
          assert (P : preserves R f) by pres; exact (P s s' H)
      end
  end.

Lemma preserves_add_device_qual
    usb_spec class_code subclass protocol_code max_size_ep0
    num_possible_config :
  preserves R (add_device_qual usb_spec class_code subclass protocol_code
                 max_size_ep0 num_possible_config).
Proof. unfold add_device_qual. pres. Qed.

Lemma preserves_add_device_descr
    usb_spec class_code subclass protocol_code max_size_ep0
    vid pid dev_num idx_mfg idx_prod idx_serial num_possible_config :
  preserves R (add_device_descr usb_spec class_code subclass protocol_code
                 max_size_ep0 vid pid dev_num idx_mfg idx_prod idx_serial
                 num_possible_config).
Proof.
  unfold add_device_descr.
  do 16 (apply preserves_seq; [pres|]). apply preserves_add_device_qual.
Qed.

Lemma preserves_add_config_start usb_spec attrib power_ma num_endpoints :
  preserves R (add_config_start usb_spec attrib power_ma num_endpoints).
Proof. unfold add_config_start. pres. Qed.

Lemma preserves_add_endpoint
    idx dir attrib max_pkt interval max_burst attrib_3 bytes_per_interval :
  preserves R (add_endpoint idx dir attrib max_pkt interval max_burst
                 attrib_3 bytes_per_interval).
Proof. unfold add_endpoint. pres. Qed.

Lemma preserves_add_config_end : preserves R add_config_end.
Proof. unfold add_config_end. pres. Qed.

Lemma preserves_add_bos : preserves R add_bos.
Proof. unfold add_bos. pres. Qed.

Lemma preserves_add_string pf idx str : preserves R (add_string pf idx str).
Proof.
  intros s s' H. unfold add_string in H.
  destruct (if idx =? 0 then _ else _) as [len|]; [|discriminate].
  revert H. repeat (apply preserves_seq; [pres|]).
  clear s s'. intros s s' H.
  destruct (if 0 <? idx then _ else _) as [w_str|]; [|discriminate].
  revert H. repeat (apply preserves_seq; [pres|]).
  apply preserves_seq; [|pres].
  clear s s'. intros s s' H. cbv beta in H.
  destruct in_bounds; [|discriminate].
  revert H. apply preserves_poke_2.
Qed.

Lemma preserves_add_set pf : preserves R (add_set pf).
Proof. unfold add_set. pres. Qed.

Lemma preserves_pad_2 fuel : preserves R (pad_2 fuel).
Proof.
  induction fuel as [|fuel IH]; intros s s' H; cbn [pad_2] in H;
    destruct (_ <? _); try discriminate;
    try (injection H as <-; apply R_refl).
  revert H. apply preserves_seq; [pres|exact IH].
Qed.

Lemma preserves_pad_3 fuel : preserves R (pad_3 fuel).
Proof.
  induction fuel as [|fuel IH]; intros s s' H; cbn [pad_3] in H;
    destruct (_ <? _); try discriminate;
    try (injection H as <-; apply R_refl).
  revert H. apply preserves_seq; [pres|exact IH].
Qed.

(** A relation that is transitive, holds between states that differ in the
    scratch variables only, and holds across every single write to a file,
    holds across every call. *)
Lemma every_call_preserves pf c : preserves R (run_call pf c).
Proof.
  destruct c; cbn [run_call].
  - apply preserves_print_offsets.
  - apply preserves_write_buf8.
  - apply preserves_write_buf32.
  - apply preserves_write_buf.
  - apply preserves_add_device_qual.
  - apply preserves_add_device_descr.
  - apply preserves_add_config_start.
  - apply preserves_add_endpoint.
  - apply preserves_add_config_end.
  - apply preserves_add_bos.
  - apply preserves_add_string.
  - apply preserves_add_set.
  - apply preserves_pad_2.
  - apply preserves_pad_3.
Qed.

End Preservation.

Lemma calls_extend_table pf c : preserves vh_extends (run_call pf c).
Proof.
  apply every_call_preserves; unfold vh_extends.
  - intros s1 s2 s3 [l1 H1] [l2 H2]. exists (l1 ++ l2).
    now rewrite H2, H1, app_assoc.
  - intros s s' H. exists []. rewrite app_nil_r. apply H.
  - intros b s. exists []. now rewrite app_nil_r.
  - intros b0 b1 b2 b3 s. exists []. now rewrite app_nil_r.
  - intros lines s. now exists lines.
Qed.

Lemma calls_keep_words pf c : preserves keeps_words (run_call pf c).
Proof.
  apply every_call_preserves; unfold keeps_words.
  - auto.
  - intros s s' H. destruct H as (_ & _ & _ & _ & _ & -> & _). auto.
  - intros b s H. exact H.
  - intros b0 b1 b2 b3 s H. cbn. unfold u32. Z.div_mod_to_equations. lia.
  - intros lines s H. exact H.
Qed.

Lemma calls_keep_offsets pf c : preserves keeps_offsets (run_call pf c).
Proof.
  apply every_call_preserves; unfold keeps_offsets.
  - intros s1 s2 s3 [H1 H2] [H3 H4]. split; congruence.
  - intros s s' H. split; apply H.
  - intros b s. split; reflexivity.
  - intros b0 b1 b2 b3 s. split; reflexivity.
  - intros lines s. split; reflexivity.
Qed.


(** ** The run of [main] *)

Lemma generate_eq bw_2 bw_3 pf fuel :
  generate bw_2 bw_3 pf fuel
  = bind (bind (emit_descriptors pf
                  (set_bitwidth_3 (u8 bw_3)
                     (set_bitwidth_2 (u8 bw_2) initial_state)))
            (pad_2 fuel))
      (pad_3 fuel).
Proof.
  unfold generate, seq. cbn [pure bind].
  destruct (emit_descriptors pf _); reflexivity.
Qed.

Lemma returned_state_of r : returned r = true -> r = Done (state_of r).
Proof. destruct r; [reflexivity|discriminate|discriminate]. Qed.

(** What [main] has written when it starts to pad: 173 bytes to USB2, 212
    to USB3, and the 23 lines of the table, every address of which is 0. *)
Lemma emit_descriptors_summary pf :
  wchar_size pf = 2 \/ wchar_size pf = 4 ->
  exists s,
    emit_descriptors pf start_state = Done s
    /\ bitwidth_2 s = 8 /\ bitwidth_3 s = 7
    /\ bytes_written_2 s = 173 /\ bytes_written_3 s = 212
    /\ List.length (bin_2 s) = 173%nat /\ List.length (bin_3 s) = 212%nat
    /\ descrip_vh s
       = [vh USB2 "DEVICE" 0; vh USB3 "DEVICE" 0;
          vh USB2 "DEVICE_QUAL" 0;
          vh USB2 "CONFIG" 0; vh USB3 "CONFIG" 0;
          vh USB2 "CONFIG_LEN" 41; vh USB3 "CONFIG_LEN" 53;
          vh USB3 "BOS    " 0;
          vh USB3 "BOS_LEN" 22;
          vh USB2 "STRING0" 0; vh USB3 "STRING0" 0;
          vh USB2 "STRING1" 0; vh USB3 "STRING1" 0;
          vh USB2 "STRING2" 0; vh USB3 "STRING2" 0;
          vh USB2 "STRING3" 0; vh USB3 "STRING3" 0;
          vh USB2 "CONFUNSET" 0; vh USB3 "CONFUNSET" 0;
          vh USB2 "CONFSET" 0; vh USB3 "CONFSET" 0;
          vh USB2 "EOF     " 0; vh USB3 "EOF     " 0].
Proof.
  destruct pf as [w [u0 u1] [v0 v1]]. cbn [wchar_size].
  intros [-> | ->];
    (eexists (state_of _); split;
     [apply returned_state_of; vm_compute; reflexivity|]);
    repeat split; vm_compute; reflexivity.
Qed.

(** With 83 units of fuel or more, [main] returns: both padding loops end. *)
Lemma main_summary pf fuel :
  wchar_size pf = 2 \/ wchar_size pf = 4 -> (83 <= fuel)%nat ->
  exists s1,
    emit_descriptors pf start_state = Done s1
    /\ main pf fuel
       = Done (push_3 (repeat 0 300) (push_2 (repeat 0 83) s1)).
Proof.
  intros Hpf Hfuel.
  destruct (emit_descriptors_summary pf Hpf)
    as (s1 & Hrun & Hb2 & Hb3 & Hw2 & Hw3 & _).
  exists s1. split; [exact Hrun|].
  unfold main. rewrite generate_eq. fold start_state. rewrite Hrun.
  cbn [bind].
  rewrite (pad_2_spec 83) by (rewrite ?Hb2, ?Hw2; cbn; lia).
  cbn [bind].
  rewrite (pad_3_spec 75);
    sim; rewrite ?Hb3, ?Hw3; try (cbn; lia).
  reflexivity.
Qed.

(** After [main] the binary files have 256 and 512 bytes. *)
Lemma main_file_sizes pf fuel :
  wchar_size pf = 2 \/ wchar_size pf = 4 -> (83 <= fuel)%nat ->
  exists s,
    main pf fuel = Done s
    /\ bytes_written_2 s = 256 /\ bytes_written_3 s = 512
    /\ List.length (bin_2 s) = 256%nat /\ List.length (bin_3 s) = 512%nat.
Proof.
  intros Hpf Hfuel.
  destruct (main_summary pf fuel Hpf Hfuel) as (s1 & Hrun & Hmain).
  destruct (emit_descriptors_summary pf Hpf)
    as (s1' & Hrun' & _ & _ & Hw2 & Hw3 & Hl2 & Hl3 & _).
  rewrite Hrun in Hrun'. injection Hrun' as <-.
  eexists. split; [exact Hmain|]. sim.
  rewrite !length_app, !repeat_length, Hw2, Hw3, Hl2, Hl3.
  repeat split.
Qed.

(** Where [wchar_t] has four bytes, [add_string] copies the first half of
    the text, four bytes a character. *)
Example string_with_four_byte_wchar :
  exists s,
    add_string lp64 3 (literal (chars "DAISHOUSB000")) start_state = Done s
    /\ added_2 start_state s
       = [26; 0x03; 68; 0; 0; 0; 65; 0; 0; 0; 73; 0; 0; 0;
          83; 0; 0; 0; 72; 0; 0; 0; 79; 0; 0; 0].
Proof. eexists. split; [vm_compute; reflexivity|]. reflexivity. Qed.

(** * The claims *)

(** ** Offsets in the parameter table *)

(** C1, evaluated on the descriptors of [main]: every address the table
    exports is 0, the value [i_2] and [i_3] have from the start to the end,
    while the descriptors lie one behind the other in the streams.  In the
    USB2 stream the device qualifier begins at byte 18 and the configuration
    descriptor at byte 28; in the USB3 stream the configuration descriptor
    begins at word 5 and the BOS descriptor at word 19. *)
Theorem offsets_exported_as_zero :
  exists s,
    emit_descriptors win32 start_state = Done s
    /\ descrip_vh s
       = [vh USB2 "DEVICE" 0; vh USB3 "DEVICE" 0;
          vh USB2 "DEVICE_QUAL" 0;
          vh USB2 "CONFIG" 0; vh USB3 "CONFIG" 0;
          vh USB2 "CONFIG_LEN" 41; vh USB3 "CONFIG_LEN" 53;
          vh USB3 "BOS    " 0;
          vh USB3 "BOS_LEN" 22;
          vh USB2 "STRING0" 0; vh USB3 "STRING0" 0;
          vh USB2 "STRING1" 0; vh USB3 "STRING1" 0;
          vh USB2 "STRING2" 0; vh USB3 "STRING2" 0;
          vh USB2 "STRING3" 0; vh USB3 "STRING3" 0;
          vh USB2 "CONFUNSET" 0; vh USB3 "CONFUNSET" 0;
          vh USB2 "CONFSET" 0; vh USB3 "CONFSET" 0;
          vh USB2 "EOF     " 0; vh USB3 "EOF     " 0]
    /\ firstn 2 (bin_2 s) = [0x12; 0x01]
    /\ firstn 2 (skipn 18 (bin_2 s)) = [0x0A; 0x06]
    /\ firstn 2 (skipn 28 (bin_2 s)) = [0x09; 0x02]
    /\ firstn 2 (skipn (4 * 5) (bin_3 s)) = [0x09; 0x02]
    /\ firstn 2 (skipn (4 * 19) (bin_3 s)) = [0x05; 0x0F]
    /\ bytes_written_2 s = 173 /\ bytes_written_3 s = 212
    /\ i_2 s = 0 /\ i_3 s = 0.
Proof. eexists. split; [vm_compute; reflexivity|]. repeat split. Qed.

(** ** The total-length field of a configuration group *)

(** C2 fails on the group of [main]: the length field of the USB3 copy is
    53, and the USB3 stream received 56 bytes. *)
Lemma group_length_counterexample :
  exists s,
    config_group 0x300 0x80 500 2 [ep1_in; ep2_out] group_start_state
    = Done s
    /\ field16 (added_3 group_start_state s) 2 = 53
    /\ Z.of_nat (List.length (added_3 group_start_state s)) = 56
    /\ field16 (added_3 group_start_state s) 2
       <> Z.of_nat (List.length (added_3 group_start_state s)).
Proof.
  eexists. split; [vm_compute; reflexivity|].
  repeat split. vm_compute. discriminate.
Qed.

(** C2, amended: for a group of [n] endpoints that fits the scratch buffers,
    the length field of either copy is that stream's pending byte count,
    [27 + 7 n] for USB2 and [27 + 13 n] for USB3, six bytes more per
    endpoint; the USB2 stream receives exactly that many bytes and the USB3
    stream that many rounded up to whole words. *)
Theorem group_length_field usb_spec attrib power_ma num_endpoints es s :
  wf s ->
  27 + 13 * Z.of_nat (List.length es) <= 1024 ->
  exists s',
    config_group usb_spec attrib power_ma num_endpoints es s = Done s'
    /\ field16 (added_2 s s') 2 = bytes_pending_2 s'
    /\ field16 (added_3 s s') 2 = bytes_pending_3 s'
    /\ bytes_pending_2 s' = 27 + 7 * Z.of_nat (List.length es)
    /\ bytes_pending_3 s'
       = bytes_pending_2 s' + 6 * Z.of_nat (List.length es)
    /\ Z.of_nat (List.length (added_2 s s')) = bytes_pending_2 s'
    /\ Z.of_nat (List.length (added_3 s s')) = round4 (bytes_pending_3 s').
Proof.
  intros Hwf Hn.
  destruct (config_group_effect usb_spec attrib power_ma num_endpoints es s
              Hwf Hn) as (s' & Hrun & Hp2 & Hp3 & Hl2 & Hf2 & Hl3 & Hf3).
  exists s'. rewrite Hp2, Hp3. repeat split; try assumption. lia.
Qed.

Lemma group_length_field_witness :
  exists s',
    config_group 0x300 0x80 500 2 [ep1_in; ep2_out] group_start_state
    = Done s'
    /\ field16 (added_2 group_start_state s') 2 = bytes_pending_2 s'
    /\ field16 (added_3 group_start_state s') 2 = bytes_pending_3 s'
    /\ bytes_pending_2 s' = 27 + 7 * Z.of_nat (List.length [ep1_in; ep2_out])
    /\ bytes_pending_3 s'
       = bytes_pending_2 s' + 6 * Z.of_nat (List.length [ep1_in; ep2_out])
    /\ Z.of_nat (List.length (added_2 group_start_state s'))
       = bytes_pending_2 s'
    /\ Z.of_nat (List.length (added_3 group_start_state s'))
       = round4 (bytes_pending_3 s').
Proof.
  apply (group_length_field 0x300 0x80 500 2 [ep1_in; ep2_out]
           group_start_state).
  - split; reflexivity.
  - vm_compute. discriminate.
Defined.

(** ** The two files of the USB3 stream *)

Lemma mirrors_words bs : forall n,
  Forall byte bs -> List.length bs = (4 * n)%nat ->
  mirrors (map (fun w => hex8 (bswap32 w)) (words bs)) bs.
Proof.
  intros n. revert bs. induction n as [|n IH]; intros bs Hb Hn.
  - destruct bs; [exact I|cbn [List.length] in Hn; lia].
  - destruct bs as [|b0 [|b1 [|b2 [|b3 bs]]]]; cbn [List.length] in Hn;
      try lia.
    inversion Hb as [|? ? H0 Hb1]; subst.
    inversion Hb1 as [|? ? H1 Hb2]; subst.
    inversion Hb2 as [|? ? H2 Hb3]; subst.
    inversion Hb3 as [|? ? H3 Hb4]; subst.
    cbn [words map mirrors]. rewrite bswap32_le32 by assumption.
    split; [reflexivity|]. split; [apply length_hex_digits|]. split.
    + rewrite unhex_hex8 by (apply le32_range; assumption).
      apply bswap32_le32; assumption.
    + apply IH; [assumption|lia].
Qed.

(** C3: whatever [write_buf32] is given, the lines it adds to the USB3 text
    file mirror, word by word, the bytes it adds to the USB3 binary file:
    each line is the eight-digit number with the bytes of the stored word
    reversed, and reversing the bytes of that number gives the stored word
    back. *)
Theorem hex_text_mirrors_binary buf size s s' :
  Forall byte buf ->
  write_buf32 buf size s = Done s' ->
  exists bs lines,
    bin_3 s' = bin_3 s ++ bs
    /\ init_3 s' = init_3 s ++ lines
    /\ mirrors lines bs.
Proof.
  intros Hb H. unfold write_buf32 in H.
  apply (write_buf32_loop_inv buf (List.length buf)) in H; [|lia].
  destruct H as (bs & rest & -> & -> & n & Hn).
  exists bs, (map (fun w => hex8 (bswap32 w)) (words bs)).
  split; [reflexivity|]. split; [reflexivity|].
  apply (mirrors_words bs n); [|exact Hn].
  apply Forall_app in Hb. apply Hb.
Qed.

Lemma hex_text_mirrors_binary_witness :
  exists bs lines,
    bin_3 (emit32 0x12 0x01 0x00 0x03 initial_state)
    = bin_3 initial_state ++ bs
    /\ init_3 (emit32 0x12 0x01 0x00 0x03 initial_state)
       = init_3 initial_state ++ lines
    /\ mirrors lines bs.
Proof.
  apply (hex_text_mirrors_binary [0x12; 0x01; 0x00; 0x03; 0xFF] 4).
  - repeat constructor; unfold byte; lia.
  - reflexivity.
Defined.

(** On the whole run of [main] the two USB3 files mirror each other, word
    address by word address. *)
Example main_files_mirror :
  exists s, main win32 100 = Done s /\ mirrors (init_3 s) (bin_3 s).
Proof.
  eexists. split; [vm_compute; reflexivity|].
  vm_compute. repeat split.
Qed.


(** ** The device descriptor *)

(** C4 fails for a caller that asks for USB 2.0: with [usb_spec = 0x200] the
    bcdUSB field of both USB2 descriptors is 0x0200. *)
Lemma bcd_usb_counterexample :
  exists s,
    add_device_descr 0x200 0xFF 0xFF 0xFF 64 0x1D50 0x605A 0x1 1 2 3 1
      start_state = Done s
    /\ field16 (added_2 start_state s) 2 = 0x0200
    /\ field16 (skipn 18 (added_2 start_state s)) 2 = 0x0200
    /\ field16 (added_2 start_state s) 2 <> 0x0210.
Proof.
  eexists. split; [vm_compute; reflexivity|].
  repeat split. vm_compute. discriminate.
Qed.

(** C4, amended: the bcdUSB field sent to the USB2 stream, in the device
    descriptor (at byte 2) and in the device qualifier (at byte 2 of the
    descriptor that begins at byte 18), is 0x0210 when the caller asks for
    [usb_spec = 0x300] and 0x0200 for every other [usb_spec]. *)
Theorem bcd_usb_of_usb2_target
    usb_spec class_code subclass protocol_code max_size_ep0
    vid pid dev_num idx_mfg idx_prod idx_serial num_possible_config s :
  wf s ->
  exists s',
    add_device_descr usb_spec class_code subclass protocol_code max_size_ep0
      vid pid dev_num idx_mfg idx_prod idx_serial num_possible_config s
    = Done s'
    /\ field16 (added_2 s s') 2
       = (if usb_spec =? 0x300 then 0x0210 else 0x0200)
    /\ field16 (skipn 18 (added_2 s s')) 2
       = (if usb_spec =? 0x300 then 0x0210 else 0x0200).
Proof.
  intros Hwf.
  destruct (add_device_descr_effect usb_spec class_code subclass
              protocol_code max_size_ep0 vid pid dev_num idx_mfg idx_prod
              idx_serial num_possible_config s Hwf) as (s' & Hrun & H2 & _).
  exists s'. split; [exact Hrun|].
  unfold added_2. rewrite H2, skipn_length_app.
  unfold bcd_lo, bcd_hi. destruct (usb_spec =? 0x300); split; reflexivity.
Qed.

Lemma bcd_usb_of_usb2_target_witness :
  exists s',
    add_device_descr 0x300 0xFF 0xFF 0xFF 64 0x1D50 0x605A 0x1 1 2 3 1
      start_state = Done s'
    /\ field16 (added_2 start_state s') 2
       = (if 0x300 =? 0x300 then 0x0210 else 0x0200)
    /\ field16 (skipn 18 (added_2 start_state s')) 2
       = (if 0x300 =? 0x300 then 0x0210 else 0x0200).
Proof.
  apply (bcd_usb_of_usb2_target 0x300 0xFF 0xFF 0xFF 64 0x1D50 0x605A 0x1
           1 2 3 1 start_state).
  split; reflexivity.
Defined.

(** C5: the 18 bytes of the device descriptor sent to the USB2 stream and
    the 18 bytes sent to the USB3 stream agree at every position but those
    of bcdUSB (bytes 2 and 3) and of bMaxPacketSize0 (byte 7); the USB3
    copy has bcdUSB 0x0300 and bMaxPacketSize0 9, the USB2 copy has the
    caller's [max_size_ep0] and another bcdUSB. *)
Theorem device_descriptor_copies_agree
    usb_spec class_code subclass protocol_code max_size_ep0
    vid pid dev_num idx_mfg idx_prod idx_serial num_possible_config s :
  wf s -> byte max_size_ep0 ->
  exists s' d2 d3 qual over,
    add_device_descr usb_spec class_code subclass protocol_code max_size_ep0
      vid pid dev_num idx_mfg idx_prod idx_serial num_possible_config s
    = Done s'
    /\ added_2 s s' = d2 ++ qual /\ List.length d2 = 18%nat
    /\ added_3 s s' = d3 ++ over /\ List.length d3 = 18%nat
    /\ (forall k, k <> 2%nat -> k <> 3%nat -> k <> 7%nat ->
        nth k d2 0 = nth k d3 0)
    /\ nth 4 d2 0 = u8 class_code /\ nth 5 d2 0 = u8 subclass
    /\ nth 6 d2 0 = u8 protocol_code
    /\ field16 d3 2 = 0x0300 /\ field16 d2 2 <> field16 d3 2
    /\ nth 7 d3 0 = 9 /\ nth 7 d2 0 = max_size_ep0.
Proof.
  intros Hwf Hep0.
  destruct (add_device_descr_effect usb_spec class_code subclass
              protocol_code max_size_ep0 vid pid dev_num idx_mfg idx_prod
              idx_serial num_possible_config s Hwf) as (s' & Hrun & H2 & H3).
  exists s'. do 4 eexists. split; [exact Hrun|].
  unfold added_2, added_3. rewrite H2, H3, !skipn_length_app.
  split; [reflexivity|]. split; [reflexivity|].
  split; [reflexivity|]. split; [reflexivity|].
  split.
  { intros k Hk2 Hk3 Hk7.
    do 18 (destruct k as [|k]; [first [reflexivity | contradiction]|]).
    destruct k; reflexivity. }
  repeat split.
  - unfold field16, bcd_lo, bcd_hi. cbn [nth].
    destruct (usb_spec =? 0x300); vm_compute; discriminate.
  - cbn [nth]. apply Z.mod_small. exact Hep0.
Qed.

Lemma device_descriptor_copies_agree_witness :
  exists s' d2 d3 qual over,
    add_device_descr 0x300 0xFF 0xFF 0xFF 64 0x1D50 0x605A 0x1 1 2 3 1
      start_state = Done s'
    /\ added_2 start_state s' = d2 ++ qual /\ List.length d2 = 18%nat
    /\ added_3 start_state s' = d3 ++ over /\ List.length d3 = 18%nat
    /\ (forall k, k <> 2%nat -> k <> 3%nat -> k <> 7%nat ->
        nth k d2 0 = nth k d3 0)
    /\ nth 4 d2 0 = u8 0xFF /\ nth 5 d2 0 = u8 0xFF
    /\ nth 6 d2 0 = u8 0xFF
    /\ field16 d3 2 = 0x0300 /\ field16 d2 2 <> field16 d3 2
    /\ nth 7 d3 0 = 9 /\ nth 7 d2 0 = 64.
Proof.
  apply (device_descriptor_copies_agree 0x300 0xFF 0xFF 0xFF 64 0x1D50
           0x605A 0x1 1 2 3 1 start_state).
  - split; reflexivity.
  - unfold byte. lia.
Defined.

(** ** Padding *)

(** C6 fails when the descriptors do not fit the address space: with
    [bitwidth_2 = 1] the generator has sent 173 bytes to the USB2 stream
    before it pads, the padding loop does nothing, and the total is 173, not
    [2 ^ 1]. *)
Lemma padding_counterexample :
  exists s,
    generate 1 7 win32 100 = Done s
    /\ bitwidth_2 s = 1
    /\ bytes_written_2 s = 173
    /\ bytes_written_2 s <> 2 ^ bitwidth_2 s.
Proof.
  eexists. split; [vm_compute; reflexivity|].
  repeat split. vm_compute. discriminate.
Qed.

Lemma bump_pad c t :
  0 <= c -> t <= 2147483648 ->
  bump c (Z.of_nat (Z.to_nat (t - c))) = Z.max c t.
Proof.
  intros Hc Ht. unfold bump.
  destruct (Z.eqb_spec (Z.of_nat (Z.to_nat (t - c))) 0); [lia|].
  rewrite u32_small by lia. lia.
Qed.

Lemma round4_exact x : 0 <= x -> x mod 4 = 0 -> round4 x = x.
Proof. intros. unfold round4. Z.div_mod_to_equations. lia. Qed.

Lemma pad_2_total fuel s :
  0 <= bytes_written_2 s -> 2 ^ bitwidth_2 s <= 2147483648 ->
  (Z.to_nat (2 ^ bitwidth_2 s) <= fuel)%nat ->
  exists zeros,
    pad_2 fuel s = Done (push_2 zeros s)
    /\ bytes_written_2 (push_2 zeros s)
       = Z.max (bytes_written_2 s) (2 ^ bitwidth_2 s)
    /\ Z.of_nat (List.length zeros)
       = Z.max (bytes_written_2 s) (2 ^ bitwidth_2 s) - bytes_written_2 s.
Proof.
  intros H0 Ht Hf.
  exists (repeat 0 (Z.to_nat (2 ^ bitwidth_2 s - bytes_written_2 s))).
  split; [apply pad_2_spec; try assumption; try reflexivity; lia|].
  sim. rewrite repeat_length, bump_pad by assumption. split; lia.
Qed.

Lemma pad_3_total fuel s :
  0 <= bytes_written_3 s -> bytes_written_3 s mod 4 = 0 ->
  2 ^ bitwidth_3 s * 4 <= 2147483648 ->
  (Z.to_nat (2 ^ bitwidth_3 s) <= fuel)%nat ->
  exists zeros,
    pad_3 fuel s = Done (push_3 zeros s)
    /\ bytes_written_3 (push_3 zeros s)
       = Z.max (bytes_written_3 s) (2 ^ bitwidth_3 s * 4)
    /\ Z.of_nat (List.length zeros)
       = Z.max (bytes_written_3 s) (2 ^ bitwidth_3 s * 4) - bytes_written_3 s.
Proof.
  intros H0 Hm Ht Hf.
  exists (repeat 0 (Z.to_nat (round4 (2 ^ bitwidth_3 s * 4
                                      - bytes_written_3 s)))).
  split.
  { apply (pad_3_spec (Z.to_nat (2 ^ bitwidth_3 s))); try assumption.
    assert (0 <= 2 ^ bitwidth_3 s) by (apply Z.pow_nonneg; lia).
    lia. }
  sim. rewrite repeat_length.
  destruct (Z.le_gt_cases (2 ^ bitwidth_3 s * 4) (bytes_written_3 s)).
  - rewrite round4_nonpos by lia. unfold bump. cbn [Z.of_nat Z.eqb].
    split; lia.
  - rewrite round4_exact by (try lia; Z.div_mod_to_equations; lia).
    rewrite bump_pad by lia. split; lia.
Qed.

(** C6, amended: for bit widths from 1 to 31 (USB2) and from 1 to 29 (USB3)
    and with enough fuel, the two padding loops end; neither counter gets
    smaller; afterwards the USB2 counter is the larger of its old value and
    [2 ^ bitwidth_2], the USB3 counter, a multiple of four before, is the
    larger of its old value and [2 ^ bitwidth_3 * 4]: they are
    [2 ^ bitwidth_2] and [2 ^ bitwidth_3 * 4] whenever what was written
    before fits; and both binary files have grown by what the counters
    have. *)
Theorem padding_totals fuel s :
  1 <= bitwidth_2 s <= 31 -> 1 <= bitwidth_3 s <= 29 ->
  0 <= bytes_written_2 s < 4294967296 ->
  0 <= bytes_written_3 s < 4294967296 ->
  bytes_written_3 s mod 4 = 0 ->
  (Z.to_nat (2 ^ bitwidth_2 s) <= fuel)%nat ->
  (Z.to_nat (2 ^ bitwidth_3 s) <= fuel)%nat ->
  exists s',
    (pad_2 fuel ;; pad_3 fuel) s = Done s'
    /\ bytes_written_2 s <= bytes_written_2 s'
    /\ bytes_written_3 s <= bytes_written_3 s'
    /\ bytes_written_2 s' = Z.max (bytes_written_2 s) (2 ^ bitwidth_2 s)
    /\ bytes_written_3 s' = Z.max (bytes_written_3 s) (2 ^ bitwidth_3 s * 4)
    /\ Z.of_nat (List.length (added_2 s s'))
       = bytes_written_2 s' - bytes_written_2 s
    /\ Z.of_nat (List.length (added_3 s s'))
       = bytes_written_3 s' - bytes_written_3 s.
Proof.
  intros Hb2 Hb3 Hw2 Hw3 Hm Hf2 Hf3.
  assert (Hp2 : 2 ^ bitwidth_2 s <= 2147483648).
  { change 2147483648 with (2 ^ 31). apply Z.pow_le_mono_r; lia. }
  assert (Hp3 : 2 ^ bitwidth_3 s * 4 <= 2147483648).
  { change 2147483648 with (2 ^ 29 * 4).
    apply Z.mul_le_mono_nonneg_r; [lia|]. apply Z.pow_le_mono_r; lia. }
  destruct (pad_2_total fuel s) as (z2 & Hrun2 & Hc2 & Hl2); try lia.
  destruct (pad_3_total fuel (push_2 z2 s)) as (z3 & Hrun3 & Hc3 & Hl3);
    sim; try lia.
  exists (push_3 z3 (push_2 z2 s)).
  unfold seq. rewrite Hrun2. cbn [bind]. split; [exact Hrun3|].
  revert Hc2 Hl2 Hc3 Hl3. unfold added_2, added_3. sim.
  rewrite !skipn_length_app. intros -> -> -> ->.
  repeat split; lia.
Qed.

Lemma padding_totals_witness :
  exists s',
    (pad_2 256 ;; pad_3 256) start_state = Done s'
    /\ bytes_written_2 start_state <= bytes_written_2 s'
    /\ bytes_written_3 start_state <= bytes_written_3 s'
    /\ bytes_written_2 s'
       = Z.max (bytes_written_2 start_state) (2 ^ bitwidth_2 start_state)
    /\ bytes_written_3 s'
       = Z.max (bytes_written_3 start_state)
           (2 ^ bitwidth_3 start_state * 4)
    /\ Z.of_nat (List.length (added_2 start_state s'))
       = bytes_written_2 s' - bytes_written_2 start_state
    /\ Z.of_nat (List.length (added_3 start_state s'))
       = bytes_written_3 s' - bytes_written_3 start_state.
Proof.
  apply (padding_totals 256 start_state); vm_compute; repeat split;
    first [reflexivity | discriminate | lia].
Defined.

(** ** String descriptors *)

(** C7 fails for a text of 127 characters: the length byte is a [u8], and
    [2 + 2 * 127 = 256] is stored as 0. *)
Lemma string_length_counterexample :
  exists s,
    add_string win32 1 (literal (repeat 65 127)) start_state = Done s
    /\ nth 0 (added_2 start_state s) 0 = 0
    /\ nth 0 (added_2 start_state s) 0
       <> 2 + 2 * Z.of_nat (List.length (repeat 65 127)).
Proof.
  eexists. split; [vm_compute; reflexivity|].
  split; [reflexivity|]. vm_compute. discriminate.
Qed.

(** C7, amended: where [wchar_t] has two bytes, a string descriptor with an
    index of 1 or more and a text of at most 126 characters, each one byte,
    has the length byte [2 + 2 * character_count], the type byte 3 and then
    one two-byte unit per character, the character first and a zero byte
    after it; the descriptor of index 0 is the four bytes 4, 3 and the two
    raw bytes of the language code.  Both streams receive the descriptor. *)
Theorem string_descriptor_layout pf idx cs rest l0 l1 rest0 s :
  wchar_size pf = 2 -> 1 <= idx ->
  Forall (fun c => c <> 0) cs ->
  (List.length cs <= 126)%nat ->
  let n := Z.of_nat (List.length cs) in
  (exists s' d pad,
     add_string pf idx (cs ++ 0 :: rest) s = Done s'
     /\ added_2 s s' = d /\ added_3 s s' = d ++ pad
     /\ d = (2 + 2 * n) :: 0x03 :: flat_map (fun c => [c; 0]) cs
     /\ nth 0 d 0 = 2 + 2 * n
     /\ Z.of_nat (List.length d) = 2 + 2 * n)
  /\ (exists s',
        add_string pf 0 (l0 :: l1 :: rest0) s = Done s'
        /\ added_2 s s' = [4; 0x03; l0; l1]
        /\ added_3 s s' = [4; 0x03; l0; l1]).
Proof.
  intros Hws Hidx Hcs Hlen n. split.
  - destruct (add_string_effect pf idx cs rest s Hws) as (s' & Hrun & H2 & H3);
      try assumption; try lia.
    exists s'. do 2 eexists. split; [exact Hrun|].
    unfold added_2, added_3. rewrite H2, H3, !skipn_length_app. fold n.
    rewrite (u8_small (n * 2 + 2)) by (unfold byte; lia).
    replace (n * 2 + 2) with (2 + 2 * n) by lia.
    split; [reflexivity|]. split; [reflexivity|]. split; [reflexivity|].
    split; [reflexivity|].
    cbn [List.length]. rewrite length_widen. lia.
  - destruct (add_string_0_effect pf l0 l1 rest0 s) as (s' & Hrun & H2 & H3).
    exists s'. split; [exact Hrun|].
    unfold added_2, added_3. rewrite H2, H3, !skipn_length_app.
    split; reflexivity.
Qed.

Lemma string_descriptor_layout_witness :
  (exists s' d pad,
     add_string win32 3 (chars "DAISHOUSB000" ++ 0 :: []) start_state
     = Done s'
     /\ added_2 start_state s' = d /\ added_3 start_state s' = d ++ pad
     /\ d = (2 + 2 * Z.of_nat (List.length (chars "DAISHOUSB000")))
            :: 0x03
            :: flat_map (fun c => [c; 0]) (chars "DAISHOUSB000")
     /\ nth 0 d 0 = 2 + 2 * Z.of_nat (List.length (chars "DAISHOUSB000"))
     /\ Z.of_nat (List.length d)
        = 2 + 2 * Z.of_nat (List.length (chars "DAISHOUSB000")))
  /\ (exists s',
        add_string win32 0 (0x09 :: 0x04 :: [0; 0]) start_state = Done s'
        /\ added_2 start_state s' = [4; 0x03; 0x09; 0x04]
        /\ added_3 start_state s' = [4; 0x03; 0x09; 0x04]).
Proof.
  apply (string_descriptor_layout win32 3 (chars "DAISHOUSB000") []
           0x09 0x04 [0; 0] start_state).
  - reflexivity.
  - lia.
  - repeat constructor; discriminate.
  - vm_compute. lia.
Defined.

(** ** The parameter table *)

(** C8: a line is written to the table the moment [print_offsets] records
    it, at the end of the file, and no call of the program changes or
    removes a line that is there: every call leaves the table it found as a
    prefix of the table it returns.  For [main], on a platform whose
    [wchar_t] has two or four bytes and with fuel for the padding loops, the
    entries of the table are DEVICE, DEVICE_QUAL, CONFIG, CONFIG_LEN, BOS,
    BOS_LEN, STRING0 to STRING3, CONFUNSET, CONFSET and EOF, in that
    order. *)
Theorem table_in_emission_order :
  (forall name for_usb2 for_usb3 s,
     exists lines,
       print_offsets name for_usb2 for_usb3 s
       = Done (set_descrip_vh (descrip_vh s ++ lines) s)
       /\ Forall (fun l => vh_name l = name) lines)
  /\ (forall pf c s s',
        run_call pf c s = Done s' ->
        exists lines, descrip_vh s' = descrip_vh s ++ lines)
  /\ (forall pf fuel,
        wchar_size pf = 2 \/ wchar_size pf = 4 -> (83 <= fuel)%nat ->
        exists s,
          main pf fuel = Done s
          /\ entries (descrip_vh s)
             = ["DEVICE"; "DEVICE_QUAL"; "CONFIG"; "CONFIG_LEN"; "BOS";
                "BOS_LEN"; "STRING0"; "STRING1"; "STRING2"; "STRING3";
                "CONFUNSET"; "CONFSET"; "EOF"]%string).
Proof.
  split; [|split].
  - intros name for_usb2 for_usb3 s. eexists. split; [reflexivity|].
    destruct (for_usb2 =? 0), (for_usb3 =? 0); repeat constructor.
  - intros pf c s s' H. exact (calls_extend_table pf c s s' H).
  - intros pf fuel Hpf Hfuel.
    destruct (main_summary pf fuel Hpf Hfuel) as (s1 & Hrun & Hmain).
    destruct (emit_descriptors_summary pf Hpf)
      as (s1' & Hrun' & _ & _ & _ & _ & _ & _ & Hvh).
    rewrite Hrun in Hrun'. injection Hrun' as <-.
    eexists. split; [exact Hmain|]. sim. rewrite Hvh. reflexivity.
Qed.

Lemma table_in_emission_order_witness :
  exists s,
    main win32 100 = Done s
    /\ entries (descrip_vh s)
       = ["DEVICE"; "DEVICE_QUAL"; "CONFIG"; "CONFIG_LEN"; "BOS";
          "BOS_LEN"; "STRING0"; "STRING1"; "STRING2"; "STRING3";
          "CONFUNSET"; "CONFSET"; "EOF"]%string.
Proof.
  apply (proj2 (proj2 table_in_emission_order) win32 100%nat).
  - left. reflexivity.
  - lia.
Defined.

(** ** Whole words on the USB3 stream *)

(** C9: a call of [write_buf32] with a size that its source can serve
    sends [round4 size] bytes, the size rounded up to a multiple of four,
    to the USB3 stream: the [size] bytes asked for and then the zero to
    three bytes that follow them in the source: two for the 10-byte tail of
    the device descriptor, three for the 53-byte group, two for the 22-byte
    BOS and for the 26-byte STRING3, three for a one-byte marker.  For the
    markers of [add_set] these are the terminator of the literal and the two
    bytes behind the literal.  And no call makes the USB3 counter, 0 at the
    start, anything but a multiple of four. *)
Theorem usb3_stream_in_whole_words :
  (forall buf size s,
     0 <= size -> size + 3 < 4294967296 ->
     round4 size <= Z.of_nat (List.length buf) ->
     exists s',
       write_buf32 buf size s = Done s'
       /\ added_3 s s' = firstn (Z.to_nat (round4 size)) buf
       /\ Z.of_nat (List.length (added_3 s s')) = round4 size
       /\ round4 size = 4 * ((size + 3) / 4)
       /\ round4 size mod 4 = 0 /\ size <= round4 size < size + 4
       /\ firstn (Z.to_nat size) (added_3 s s') = firstn (Z.to_nat size) buf
       /\ skipn (Z.to_nat size) (added_3 s s')
          = firstn (Z.to_nat (round4 size - size)) (skipn (Z.to_nat size) buf))
  /\ (forall pf s,
        exists s',
          add_set pf s = Done s'
          /\ added_2 s s' = [0x00; 0x01]
          /\ added_3 s s'
             = [0x00; 0; fst (after_unset pf); snd (after_unset pf);
                0x01; 0; fst (after_set pf); snd (after_set pf)])
  /\ map round4 [10; 53; 22; 26; 1] = [12; 56; 24; 28; 4]
  /\ bytes_written_3 initial_state mod 4 = 0
  /\ (forall pf c s s',
        run_call pf c s = Done s' ->
        bytes_written_3 s mod 4 = 0 -> bytes_written_3 s' mod 4 = 0).
Proof.
  split; [|split; [|split; [|split]]].
  - intros buf size s H0 Hsz Hlen.
    pose proof (round4_bounds size H0) as Hb.
    exists (push_3 (firstn (Z.to_nat (round4 size)) buf) s).
    split; [apply write_buf32_spec; assumption|].
    unfold added_3. sim. rewrite skipn_length_app.
    split; [reflexivity|]. split; [rewrite length_firstn; lia|].
    split; [reflexivity|].
    split; [unfold round4; Z.div_mod_to_equations; lia|].
    split; [exact Hb|]. split.
    + rewrite firstn_firstn. f_equal. lia.
    + rewrite skipn_firstn_comm. f_equal. lia.
  - intros pf s. unfold add_set, write_buf. run.
    eexists. split; [reflexivity|].
    unfold added_2, added_3, emit8, emit32. sim.
    rewrite <- !app_assoc, !skipn_length_app. split; reflexivity.
  - reflexivity.
  - reflexivity.
  - intros pf c s s' H. exact (calls_keep_words pf c s s' H).
Qed.

Lemma usb3_stream_in_whole_words_witness :
  exists s',
    write_buf32 (literal [0x00] ++ [0x25; 0x73]) 1 initial_state = Done s'
    /\ added_3 initial_state s'
       = firstn (Z.to_nat (round4 1)) (literal [0x00] ++ [0x25; 0x73])
    /\ Z.of_nat (List.length (added_3 initial_state s')) = round4 1
    /\ round4 1 = 4 * ((1 + 3) / 4)
    /\ round4 1 mod 4 = 0 /\ 1 <= round4 1 < 1 + 4
    /\ firstn (Z.to_nat 1) (added_3 initial_state s')
       = firstn (Z.to_nat 1) (literal [0x00] ++ [0x25; 0x73])
    /\ skipn (Z.to_nat 1) (added_3 initial_state s')
       = firstn (Z.to_nat (round4 1 - 1))
           (skipn (Z.to_nat 1) (literal [0x00] ++ [0x25; 0x73])).
Proof.
  apply (proj1 usb3_stream_in_whole_words
           (literal [0x00] ++ [0x25; 0x73]) 1 initial_state).
  - lia.
  - lia.
  - vm_compute. discriminate.
Defined.

(** ** The burst count of the companion descriptor *)

(** C10: [add_endpoint] puts the SuperSpeed companion descriptor behind
    the seven bytes of the endpoint descriptor in [buf_3]; its third byte,
    bMaxBurst, is [(max_burst - 1) mod 256], which is 255 for a
    [max_burst] of 0. *)
Theorem companion_max_burst
    idx dir attrib max_pkt interval max_burst attrib_3 bytes_per_interval s :
  0 <= a s -> a s + 7 <= Z.of_nat (List.length (buf_2 s)) ->
  0 <= z s -> z s + 13 <= Z.of_nat (List.length (buf_3 s)) ->
  exists s',
    add_endpoint idx dir attrib max_pkt interval max_burst attrib_3
      bytes_per_interval s = Done s'
    /\ nth (Z.to_nat (z s) + 7) (buf_3 s') 0 = 0x06
    /\ nth (Z.to_nat (z s) + 8) (buf_3 s') 0 = 0x30
    /\ nth (Z.to_nat (z s) + 9) (buf_3 s') 0 = (max_burst - 1) mod 256
    /\ (max_burst = 0 -> nth (Z.to_nat (z s) + 9) (buf_3 s') 0 = 255).
Proof.
  intros Ha0 Ha1 Hz0 Hz1.
  eexists. split; [apply add_endpoint_spec; assumption|]. sim.
  assert (Hnth : forall k : nat, (k < 6)%nat ->
            nth (Z.to_nat (z s) + 7 + k)
              (splice
                 (splice
                    (splice
                       (splice (buf_3 s) (z s)
                          (load
                             (splice (buf_2 s) (a s)
                                (map u8
                                   [0x07; 0x05;
                                    Z.lor idx (if dir =? 0 then 0x0 else 0x80);
                                    attrib; Z.land max_pkt 0xff;
                                    Z.shiftr max_pkt 8; interval]))
                             (a s) 7))
                       (z s + 7 - 2) [0x04])
                    (z s + 7 - 3) [0x00])
                 (z s + 7)
                 (map u8 [0x06; 0x30; max_burst - 1; attrib_3;
                          Z.land bytes_per_interval 0xff;
                          Z.shiftr bytes_per_interval 8])) 0
            = nth k (map u8 [0x06; 0x30; max_burst - 1; attrib_3;
                             Z.land bytes_per_interval 0xff;
                             Z.shiftr bytes_per_interval 8]) 0).
  { intros k Hk. unfold splice at 1.
    replace (Z.to_nat (z s) + 7 + k)%nat with (Z.to_nat (z s + 7) + k)%nat
      by lia.
    apply nth_splice_at_in; cbn [List.length map];
      rewrite ?length_splice; lia. }
  pose proof (Hnth 0%nat) as H0. pose proof (Hnth 1%nat) as H1.
  pose proof (Hnth 2%nat) as H2.
  rewrite Nat.add_0_r in H0.
  replace (Z.to_nat (z s) + 7 + 1)%nat with (Z.to_nat (z s) + 8)%nat in H1
    by lia.
  replace (Z.to_nat (z s) + 7 + 2)%nat with (Z.to_nat (z s) + 9)%nat in H2
    by lia.
  rewrite H0, H1, H2 by lia. cbn [map nth].
  repeat split; try reflexivity. intros ->. reflexivity.
Qed.

Lemma companion_max_burst_witness :
  exists s',
    add_endpoint 1 1 2 512 0x1 0 0x00 0 start_state = Done s'
    /\ nth (Z.to_nat (z start_state) + 7) (buf_3 s') 0 = 0x06
    /\ nth (Z.to_nat (z start_state) + 8) (buf_3 s') 0 = 0x30
    /\ nth (Z.to_nat (z start_state) + 9) (buf_3 s') 0 = (0 - 1) mod 256
    /\ (0 = 0 -> nth (Z.to_nat (z start_state) + 9) (buf_3 s') 0 = 255).
Proof.
  apply (companion_max_burst 1 1 2 512 0x1 0 0x00 0 start_state);
    vm_compute; discriminate.
Defined.

(** * Further properties *)

(** ** The stream writers at their bounds *)

Lemma write_buf8_loop_inv buf : forall i size s s',
  write_buf8_loop buf i size s = Done s' ->
  exists bs rest, buf = bs ++ rest /\ s' = push_2 bs s.
Proof.
  induction buf as [|b buf IH]; intros i size s s' H;
    cbn [write_buf8_loop] in H; destruct (i <? size); try discriminate;
    try (injection H as <-; eexists [], _; rewrite push_2_nil;
         split; reflexivity).
  apply IH in H. destruct H as (bs & rest & -> & ->).
  exists (b :: bs), rest. rewrite push_2_emit8. split; reflexivity.
Qed.

Lemma write_buf8_loop_undef buf : forall i size s,
  0 <= i -> size < 4294967296 ->
  Z.of_nat (List.length buf) < size - i ->
  write_buf8_loop buf i size s = Undef.
Proof.
  induction buf as [|b buf IH]; intros i size s Hi Hsz Hlen;
    cbn [List.length] in Hlen; cbn [write_buf8_loop];
    destruct (Z.ltb_spec i size); try lia; [reflexivity|].
  rewrite u32_small by lia. apply IH; lia.
Qed.

Lemma write_buf32_loop_undef (k : nat) : forall buf i size s,
  0 <= i -> size + 3 < 4294967296 ->
  (List.length buf <= 4 * k)%nat ->
  Z.of_nat (List.length buf) < round4 (size - i) ->
  write_buf32_loop buf i size s = Undef.
Proof.
  induction k as [|k IH]; intros buf i size s Hi Hsz Hk Hlen.
  - destruct buf; [|cbn [List.length] in Hk; lia].
    cbn [List.length] in Hlen. cbn [write_buf32_loop].
    destruct (Z.ltb_spec i size); [reflexivity|].
    pose proof (round4_nonpos (size - i)). lia.
  - destruct (Z.ltb_spec i size) as [Hlt|Hge].
    2:{ pose proof (round4_nonpos (size - i)). lia. }
    rewrite (round4_step (size - i)) in Hlen by lia.
    destruct buf as [|b0 [|b1 [|b2 [|b3 buf]]]]; cbn [write_buf32_loop];
      destruct (Z.ltb_spec i size); try lia; try reflexivity.
    rewrite u32_small by lia. cbn [List.length] in Hlen, Hk.
    apply IH; try lia.
    replace (size - (i + 4)) with (size - i - 4) by lia. lia.
Qed.

Lemma write_buf8_short buf size s :
  0 <= size < 4294967296 -> Z.of_nat (List.length buf) < size ->
  write_buf8 buf size s = Undef.
Proof. intros Hsz Hlen. apply write_buf8_loop_undef; lia. Qed.

Lemma write_buf32_short buf size s :
  0 <= size -> size + 3 < 4294967296 ->
  Z.of_nat (List.length buf) < round4 size ->
  write_buf32 buf size s = Undef.
Proof.
  intros H0 Hsz Hlen. unfold write_buf32.
  apply (write_buf32_loop_undef (List.length buf)); rewrite ?Z.sub_0_r; lia.
Qed.

(** [write_buf8] sends exactly the first [size] bytes of its source, one
    text line and one binary byte each, and touches nothing of the USB3
    stream; it is undefined when the source has fewer than [size] bytes. *)
Theorem write_buf8_exact_or_undefined buf size s :
  0 <= size < 4294967296 ->
  write_buf8 buf size s
  = (if size <=? Z.of_nat (List.length buf)
     then Done (push_2 (firstn (Z.to_nat size) buf) s)
     else Undef).
Proof.
  intros Hsz. destruct (Z.leb_spec size (Z.of_nat (List.length buf))).
  - apply write_buf8_spec; assumption.
  - apply write_buf8_short; assumption.
Qed.

Lemma write_buf8_exact_or_undefined_witness :
  write_buf8 [0x12; 0x01; 0x10; 0x02; 0xFF] 4 initial_state
  = (if 4 <=? Z.of_nat (List.length [0x12; 0x01; 0x10; 0x02; 0xFF])
     then Done (push_2 (firstn (Z.to_nat 4) [0x12; 0x01; 0x10; 0x02; 0xFF])
                  initial_state)
     else Undef).
Proof.
  apply (write_buf8_exact_or_undefined [0x12; 0x01; 0x10; 0x02; 0xFF] 4
           initial_state).
  lia.
Defined.

(** [write_buf32] sends the first [round4 size] bytes of its source in
    words of four, and touches nothing of the USB2 stream; it is undefined
    when the source has fewer than [round4 size] bytes, even if it has
    [size]. *)
Theorem write_buf32_exact_or_undefined buf size s :
  0 <= size -> size + 3 < 4294967296 ->
  write_buf32 buf size s
  = (if round4 size <=? Z.of_nat (List.length buf)
     then Done (push_3 (firstn (Z.to_nat (round4 size)) buf) s)
     else Undef).
Proof.
  intros H0 Hsz.
  destruct (Z.leb_spec (round4 size) (Z.of_nat (List.length buf))).
  - apply write_buf32_spec; assumption.
  - apply write_buf32_short; assumption.
Qed.

Lemma write_buf32_exact_or_undefined_witness :
  write_buf32 [1; 2; 3; 4; 5; 6] 5 initial_state
  = (if round4 5 <=? Z.of_nat (List.length [1; 2; 3; 4; 5; 6])
     then Done (push_3 (firstn (Z.to_nat (round4 5)) [1; 2; 3; 4; 5; 6])
                  initial_state)
     else Undef).
Proof.
  apply (write_buf32_exact_or_undefined [1; 2; 3; 4; 5; 6] 5 initial_state);
    lia.
Defined.

(** [write_buf] sends the same source to both streams: the USB2 stream gets
    its first [size] bytes, the USB3 stream its first [round4 size] bytes,
    which begin with those [size] bytes; the call is undefined unless the
    source has [round4 size] bytes. *)
Theorem write_buf_both_streams buf size s :
  0 <= size -> size + 3 < 4294967296 ->
  write_buf buf size s
  = (if round4 size <=? Z.of_nat (List.length buf)
     then Done (push_3 (firstn (Z.to_nat (round4 size)) buf)
                  (push_2 (firstn (Z.to_nat size) buf) s))
     else Undef)
  /\ firstn (Z.to_nat size) (firstn (Z.to_nat (round4 size)) buf)
     = firstn (Z.to_nat size) buf.
Proof.
  intros H0 Hsz. pose proof (round4_bounds size H0) as Hb. split.
  - unfold write_buf, seq.
    destruct (Z.leb_spec (round4 size) (Z.of_nat (List.length buf)))
      as [Hfit|Hover].
    + rewrite write_buf8_spec by lia. cbn [bind].
      apply write_buf32_spec; assumption.
    + destruct (Z.le_gt_cases size (Z.of_nat (List.length buf))).
      * rewrite write_buf8_spec by lia. cbn [bind].
        apply write_buf32_short; assumption.
      * rewrite write_buf8_short by lia. reflexivity.
  - rewrite firstn_firstn. f_equal. lia.
Qed.

Lemma write_buf_both_streams_witness :
  write_buf [1; 2; 3; 4; 5; 6; 7; 8] 5 initial_state
  = (if round4 5 <=? Z.of_nat (List.length [1; 2; 3; 4; 5; 6; 7; 8])
     then Done (push_3 (firstn (Z.to_nat (round4 5)) [1; 2; 3; 4; 5; 6; 7; 8])
                  (push_2 (firstn (Z.to_nat 5) [1; 2; 3; 4; 5; 6; 7; 8])
                     initial_state))
     else Undef)
  /\ firstn (Z.to_nat 5) (firstn (Z.to_nat (round4 5)) [1; 2; 3; 4; 5; 6; 7; 8])
     = firstn (Z.to_nat 5) [1; 2; 3; 4; 5; 6; 7; 8].
Proof.
  apply (write_buf_both_streams [1; 2; 3; 4; 5; 6; 7; 8] 5 initial_state);
    lia.
Defined.

(** The USB2 text file shows the USB2 binary file byte by byte: every line
    [write_buf8] adds is the two-digit numeral of the byte it adds to the
    binary file, and reading the numeral gives the byte back. *)
Theorem usb2_text_matches_binary buf size s s' :
  Forall byte buf ->
  write_buf8 buf size s = Done s' ->
  exists bs,
    bin_2 s' = bin_2 s ++ bs
    /\ init_2 s' = init_2 s ++ map hex2 bs
    /\ Forall (fun b => String.length (hex2 b) = 2%nat
                        /\ unhex (hex2 b) = b) bs.
Proof.
  intros Hb H. unfold write_buf8 in H. apply write_buf8_loop_inv in H.
  destruct H as (bs & rest & -> & ->). exists bs.
  split; [reflexivity|]. split; [reflexivity|].
  apply Forall_app in Hb. destruct Hb as [Hb _].
  apply Forall_impl with (2 := Hb). intros b Hbyte. split.
  - apply length_hex_digits.
  - apply unhex_hex2, Hbyte.
Qed.

Lemma usb2_text_matches_binary_witness :
  exists bs,
    bin_2 (emit8 0xFF initial_state) = bin_2 initial_state ++ bs
    /\ init_2 (emit8 0xFF initial_state)
       = init_2 initial_state ++ map hex2 bs
    /\ Forall (fun b => String.length (hex2 b) = 2%nat
                        /\ unhex (hex2 b) = b) bs.
Proof.
  apply (usb2_text_matches_binary [0xFF; 0x00] 1).
  - repeat constructor; unfold byte; lia.
  - reflexivity.
Defined.

(** ** What holds across every call *)

Lemma u32_succ_len (n k : Z) : u32 (u32 n + k) = u32 (n + k).
Proof. apply u32_idem_l. Qed.

Lemma calls_keep_counted pf c : preserves keeps_counted (run_call pf c).
Proof.
  apply every_call_preserves; unfold keeps_counted, counted.
  - auto.
  - intros s s' (_ & _ & _ & _ & -> & -> & -> & -> & -> & -> & _). auto.
  - intros b s (H2 & H3 & Hl2 & Hl3). unfold emit8. sim.
    rewrite !length_app. cbn [List.length]. rewrite H2, u32_succ_len.
    repeat split; try assumption; try lia. f_equal. lia.
  - intros b0 b1 b2 b3 s (H2 & H3 & Hl2 & Hl3). unfold emit32. sim.
    rewrite !length_app. cbn [List.length]. rewrite H3, u32_succ_len.
    repeat split; try assumption; try lia. f_equal. lia.
  - intros lines s H. exact H.
Qed.

(** From the start of the program on and across every call that returns,
    [bytes_written_2] and [bytes_written_3] are the sizes of the two binary
    files (as [u32]), the USB2 text file has a line for each byte of its
    binary file and the USB3 binary file four bytes for each line of its
    text file. *)
Theorem counters_count_the_files :
  counted initial_state
  /\ (forall pf c s s',
        run_call pf c s = Done s' -> counted s -> counted s').
Proof.
  split.
  - repeat split.
  - intros pf c s s' H. exact (calls_keep_counted pf c s s' H).
Qed.

Lemma counters_count_the_files_witness :
  counted (state_of (run_call win32 (Add_string 1 (literal (chars "AB")))
                       initial_state)).
Proof.
  apply (proj2 counters_count_the_files win32
           (Add_string 1 (literal (chars "AB"))) initial_state).
  - apply returned_state_of. vm_compute. reflexivity.
  - exact (proj1 counters_count_the_files).
Defined.

Lemma calls_extend_files pf c : preserves files_extend (run_call pf c).
Proof.
  apply every_call_preserves; unfold files_extend.
  - intros s1 s2 s3 ([a1 A1] & [b1 B1] & [c1 C1] & [d1 D1])
      ([a2 A2] & [b2 B2] & [c2 C2] & [d2 D2]).
    rewrite A2, B2, C2, D2, A1, B1, C1, D1, <- !app_assoc.
    repeat split; eexists; reflexivity.
  - intros s s' (_ & _ & _ & _ & _ & _ & -> & -> & -> & -> & _).
    repeat split; exists []; now rewrite app_nil_r.
  - intros b s. unfold emit8. sim.
    repeat split; first [now eexists | exists []; now rewrite app_nil_r].
  - intros b0 b1 b2 b3 s. unfold emit32. sim.
    repeat split; first [now eexists | exists []; now rewrite app_nil_r].
  - intros lines s. sim.
    repeat split; exists []; now rewrite app_nil_r.
Qed.

(** No call rewrites what is in a stream file: each of the four files a
    call returns begins with the file the call found.  The length field of
    a group is patched in the scratch buffer, before the group is sent. *)
Theorem streams_are_append_only pf c s s' :
  run_call pf c s = Done s' ->
  (exists lines, init_2 s' = init_2 s ++ lines)
  /\ (exists bs, bin_2 s' = bin_2 s ++ bs)
  /\ (exists lines, init_3 s' = init_3 s ++ lines)
  /\ (exists bs, bin_3 s' = bin_3 s ++ bs).
Proof. intros H. exact (calls_extend_files pf c s s' H). Qed.

Lemma streams_are_append_only_witness :
  (exists lines,
     init_2 (state_of (run_call win32 Add_config_end group_start_state))
     = init_2 group_start_state ++ lines)
  /\ (exists bs,
        bin_2 (state_of (run_call win32 Add_config_end group_start_state))
        = bin_2 group_start_state ++ bs)
  /\ (exists lines,
        init_3 (state_of (run_call win32 Add_config_end group_start_state))
        = init_3 group_start_state ++ lines)
  /\ (exists bs,
        bin_3 (state_of (run_call win32 Add_config_end group_start_state))
        = bin_3 group_start_state ++ bs).
Proof.
  apply (streams_are_append_only win32 Add_config_end group_start_state).
  apply returned_state_of. vm_compute. reflexivity.
Defined.

(** No call assigns [i_2] or [i_3]: the two values [print_offsets] exports
    are the same before and after every call, whatever the call sends to
    the streams. *)
Theorem calls_never_move_the_offsets pf c s s' :
  run_call pf c s = Done s' -> i_2 s' = i_2 s /\ i_3 s' = i_3 s.
Proof. intros H. exact (calls_keep_offsets pf c s s' H). Qed.

Lemma calls_never_move_the_offsets_witness :
  i_2 (state_of (run_call win32 (Write_buf (repeat 0xFF 64) 64) start_state))
  = i_2 start_state
  /\ i_3 (state_of (run_call win32 (Write_buf (repeat 0xFF 64) 64)
                      start_state))
     = i_3 start_state.
Proof.
  apply (calls_never_move_the_offsets win32 (Write_buf (repeat 0xFF 64) 64)
           start_state).
  apply returned_state_of. vm_compute. reflexivity.
Defined.

(** ** What only the scratch buffers see *)

Lemma same_streams_trans s1 s2 s3 :
  same_streams s1 s2 -> same_streams s2 s3 -> same_streams s1 s3.
Proof.
  unfold same_streams.
  intros (-> & -> & -> & -> & -> & ->) (-> & -> & -> & -> & -> & ->).
  repeat split.
Qed.

Lemma same_files_streams s s' : same_files s s' -> same_streams s s'.
Proof.
  unfold same_files, same_streams.
  intros (_ & _ & _ & _ & -> & -> & -> & -> & -> & -> & _). repeat split.
Qed.

Lemma add_endpoints_same_streams es : preserves same_streams (add_endpoints es).
Proof.
  induction es as [|e es IH]; cbn [add_endpoints].
  - apply preserves_pure.
    + exact same_files_streams.
    + repeat split.
  - apply preserves_seq; [exact same_streams_trans| |exact IH].
    apply preserves_add_endpoint;
      [exact same_streams_trans|exact same_files_streams].
Qed.

(** A group is built in the scratch buffers: opening it and adding its
    endpoints sends nothing to either stream and moves neither counter;
    the one thing written is the CONFIG entry of the table. *)
Theorem group_is_buffered usb_spec attrib power_ma num_endpoints es s s' :
  (add_config_start usb_spec attrib power_ma num_endpoints ;;
   add_endpoints es) s = Done s' ->
  bytes_written_2 s' = bytes_written_2 s
  /\ bytes_written_3 s' = bytes_written_3 s
  /\ init_2 s' = init_2 s /\ bin_2 s' = bin_2 s
  /\ init_3 s' = init_3 s /\ bin_3 s' = bin_3 s.
Proof.
  revert s s'. apply (preserves_seq same_streams same_streams_trans).
  - apply preserves_add_config_start.
    + exact same_streams_trans.
    + exact same_files_streams.
    + intros lines s. repeat split.
  - apply add_endpoints_same_streams.
Qed.

Lemma group_is_buffered_witness :
  bytes_written_2
    (state_of ((add_config_start 0x300 0x80 500 2 ;;
                add_endpoints [ep1_in; ep2_out]) group_start_state))
  = bytes_written_2 group_start_state
  /\ bytes_written_3
       (state_of ((add_config_start 0x300 0x80 500 2 ;;
                   add_endpoints [ep1_in; ep2_out]) group_start_state))
     = bytes_written_3 group_start_state
  /\ init_2
       (state_of ((add_config_start 0x300 0x80 500 2 ;;
                   add_endpoints [ep1_in; ep2_out]) group_start_state))
     = init_2 group_start_state
  /\ bin_2
       (state_of ((add_config_start 0x300 0x80 500 2 ;;
                   add_endpoints [ep1_in; ep2_out]) group_start_state))
     = bin_2 group_start_state
  /\ init_3
       (state_of ((add_config_start 0x300 0x80 500 2 ;;
                   add_endpoints [ep1_in; ep2_out]) group_start_state))
     = init_3 group_start_state
  /\ bin_3
       (state_of ((add_config_start 0x300 0x80 500 2 ;;
                   add_endpoints [ep1_in; ep2_out]) group_start_state))
     = bin_3 group_start_state.
Proof.
  apply (group_is_buffered 0x300 0x80 500 2 [ep1_in; ep2_out]
           group_start_state).
  apply returned_state_of. vm_compute. reflexivity.
Defined.

(** ** Descriptors of one target *)

(** The device qualifier goes to the USB2 target alone: ten bytes whose
    length byte is 10, carrying the class, subclass, protocol and endpoint 0
    size of the caller, and one USB2 line in the table; the USB3 stream, its
    counter and the offsets are as before. *)
Theorem device_qualifier_is_usb2_only
    usb_spec class_code subclass protocol_code max_size_ep0
    num_possible_config s :
  wf s ->
  exists s',
    add_device_qual usb_spec class_code subclass protocol_code max_size_ep0
      num_possible_config s = Done s'
    /\ added_2 s s'
       = [0x0A; 0x06; bcd_lo usb_spec; bcd_hi usb_spec;
          u8 class_code; u8 subclass; u8 protocol_code; u8 max_size_ep0;
          u8 num_possible_config; 0]
    /\ nth 0 (added_2 s s') 0 = Z.of_nat (List.length (added_2 s s'))
    /\ bin_3 s' = bin_3 s /\ init_3 s' = init_3 s
    /\ bytes_written_3 s' = bytes_written_3 s
    /\ descrip_vh s'
       = descrip_vh s
         ++ [{| vh_target := USB2; vh_msb := bitwidth_2 s - 1;
                vh_name := "DEVICE_QUAL"; vh_value := as_int (i_2 s) |}].
Proof.
  intros Hwf. unfold add_device_qual. run.
  eexists. split; [reflexivity|]. unfold added_2. sim.
  rewrite skipn_length_app, firstn_nths by side.
  change (Z.to_nat 10) with 10%nat. cbn [List.seq map]. rd.
  repeat split.
Qed.

Lemma device_qualifier_is_usb2_only_witness :
  exists s',
    add_device_qual 0x300 0xFF 0xFF 0xFF 64 1 start_state = Done s'
    /\ added_2 start_state s'
       = [0x0A; 0x06; bcd_lo 0x300; bcd_hi 0x300;
          u8 0xFF; u8 0xFF; u8 0xFF; u8 64; u8 1; 0]
    /\ nth 0 (added_2 start_state s') 0
       = Z.of_nat (List.length (added_2 start_state s'))
    /\ bin_3 s' = bin_3 start_state /\ init_3 s' = init_3 start_state
    /\ bytes_written_3 s' = bytes_written_3 start_state
    /\ descrip_vh s'
       = descrip_vh start_state
         ++ [{| vh_target := USB2; vh_msb := bitwidth_2 start_state - 1;
                vh_name := "DEVICE_QUAL";
                vh_value := as_int (i_2 start_state) |}].
Proof.
  apply (device_qualifier_is_usb2_only 0x300 0xFF 0xFF 0xFF 64 1 start_state).
  split; reflexivity.
Defined.

(** The BOS descriptor goes to the USB3 target alone.  Its 22 bytes are
    the header and the two capabilities; the total length it states, the
    byte count the code takes from [z], the sum of the three length bytes
    and the number of bytes sent before the padding are all 22.  The word
    that ends the descriptor is filled with the two bytes [buf_3] held at
    offsets 22 and 23 before the call. *)
Theorem bos_is_usb3_only s :
  wf s ->
  exists s' bos,
    add_bos s = Done s'
    /\ added_3 s s' = bos ++ [nth 22 (buf_3 s) 0; nth 23 (buf_3 s) 0]
    /\ bos = [0x05; 0x0F; 0x16; 0x00; 0x02;
              0x07; 0x10; 0x02; 0x02; 0x00; 0x00; 0x00;
              0x0A; 0x10; 0x03; 0x00; 0x0E; 0x00; 0x02; 0x08; 0x64; 0x00]
    /\ field16 bos 2 = Z.of_nat (List.length bos)
    /\ z s' = Z.of_nat (List.length bos)
    /\ nth 0 bos 0 + nth 5 bos 0 + nth 12 bos 0 = Z.of_nat (List.length bos)
    /\ bin_2 s' = bin_2 s /\ init_2 s' = init_2 s
    /\ bytes_written_2 s' = bytes_written_2 s
    /\ descrip_vh s'
       = descrip_vh s
         ++ [{| vh_target := USB3; vh_msb := bitwidth_3 s - 1;
                vh_name := "BOS    "; vh_value := as_int (i_3 s) |}].
Proof.
  intros Hwf. unfold add_bos. run.
  eexists.
  exists [0x05; 0x0F; 0x16; 0x00; 0x02;
          0x07; 0x10; 0x02; 0x02; 0x00; 0x00; 0x00;
          0x0A; 0x10; 0x03; 0x00; 0x0E; 0x00; 0x02; 0x08; 0x64; 0x00].
  split; [reflexivity|]. unfold added_3. sim.
  rewrite skipn_length_app, firstn_nths by side.
  cbn [List.length Z.of_nat].
  match goal with
  | |- context [Z.to_nat (round4 ?n)] =>
      change (Z.to_nat (round4 n)) with 24%nat
  end.
  cbn [List.seq map]. rd.
  split; [reflexivity|]. repeat split.
Qed.

Lemma bos_is_usb3_only_witness :
  exists s' bos,
    add_bos start_state = Done s'
    /\ added_3 start_state s'
       = bos ++ [nth 22 (buf_3 start_state) 0; nth 23 (buf_3 start_state) 0]
    /\ bos = [0x05; 0x0F; 0x16; 0x00; 0x02;
              0x07; 0x10; 0x02; 0x02; 0x00; 0x00; 0x00;
              0x0A; 0x10; 0x03; 0x00; 0x0E; 0x00; 0x02; 0x08; 0x64; 0x00]
    /\ field16 bos 2 = Z.of_nat (List.length bos)
    /\ z s' = Z.of_nat (List.length bos)
    /\ nth 0 bos 0 + nth 5 bos 0 + nth 12 bos 0 = Z.of_nat (List.length bos)
    /\ bin_2 s' = bin_2 start_state /\ init_2 s' = init_2 start_state
    /\ bytes_written_2 s' = bytes_written_2 start_state
    /\ descrip_vh s'
       = descrip_vh start_state
         ++ [{| vh_target := USB3; vh_msb := bitwidth_3 start_state - 1;
                vh_name := "BOS    ";
                vh_value := as_int (i_3 start_state) |}].
Proof.
  apply (bos_is_usb3_only start_state). split; reflexivity.
Defined.

(** ** Sixteen-bit fields *)

Lemma le16_stored v :
  0 <= v < 65536 -> u8 (Z.land v 0xff) + 256 * u8 (Z.shiftr v 8) = v.
Proof.
  intros H. unfold u8. change 0xff with (Z.ones 8).
  rewrite Z.land_ones, Z.shiftr_div_pow2 by lia. change (2 ^ 8) with 256.
  Z.div_mod_to_equations. lia.
Qed.

(** The vendor, product and release numbers are stored low byte first:
    read back as 16-bit fields from either stream, at bytes 8, 10 and 12 of
    the device descriptor, they are the caller's values; the three string
    indices and the number of configurations follow as single bytes. *)
Theorem device_numbers_read_back
    usb_spec class_code subclass protocol_code max_size_ep0
    vid pid dev_num idx_mfg idx_prod idx_serial num_possible_config s :
  wf s ->
  0 <= vid < 65536 -> 0 <= pid < 65536 -> 0 <= dev_num < 65536 ->
  byte idx_mfg -> byte idx_prod -> byte idx_serial ->
  byte num_possible_config ->
  exists s',
    add_device_descr usb_spec class_code subclass protocol_code max_size_ep0
      vid pid dev_num idx_mfg idx_prod idx_serial num_possible_config s
    = Done s'
    /\ field16 (added_2 s s') 8 = vid /\ field16 (added_3 s s') 8 = vid
    /\ field16 (added_2 s s') 10 = pid /\ field16 (added_3 s s') 10 = pid
    /\ field16 (added_2 s s') 12 = dev_num
    /\ field16 (added_3 s s') 12 = dev_num
    /\ firstn 4 (skipn 14 (added_2 s s'))
       = [idx_mfg; idx_prod; idx_serial; num_possible_config]
    /\ firstn 4 (skipn 14 (added_3 s s'))
       = [idx_mfg; idx_prod; idx_serial; num_possible_config].
Proof.
  intros Hwf Hv Hp Hd H1 H2 H3 H4.
  destruct (add_device_descr_effect usb_spec class_code subclass
              protocol_code max_size_ep0 vid pid dev_num idx_mfg idx_prod
              idx_serial num_possible_config s Hwf) as (s' & Hrun & E2 & E3).
  exists s'. split; [exact Hrun|].
  unfold added_2, added_3. rewrite E2, E3, !skipn_length_app.
  unfold field16. cbn [nth app skipn firstn].
  rewrite !le16_stored, !u8_small by assumption.
  repeat split.
Qed.

Lemma device_numbers_read_back_witness :
  exists s',
    add_device_descr 0x300 0xFF 0xFF 0xFF 64 0x1D50 0x605A 0x1 1 2 3 1
      start_state = Done s'
    /\ field16 (added_2 start_state s') 8 = 0x1D50
    /\ field16 (added_3 start_state s') 8 = 0x1D50
    /\ field16 (added_2 start_state s') 10 = 0x605A
    /\ field16 (added_3 start_state s') 10 = 0x605A
    /\ field16 (added_2 start_state s') 12 = 0x1
    /\ field16 (added_3 start_state s') 12 = 0x1
    /\ firstn 4 (skipn 14 (added_2 start_state s')) = [1; 2; 3; 1]
    /\ firstn 4 (skipn 14 (added_3 start_state s')) = [1; 2; 3; 1].
Proof.
  apply (device_numbers_read_back 0x300 0xFF 0xFF 0xFF 64 0x1D50 0x605A 0x1
           1 2 3 1 start_state); unfold byte; try lia.
  split; reflexivity.
Defined.

(** ** The byte swap of [write_buf32] *)

Lemma swapped_byte w k :
  0 <= k <= 3 ->
  Z.land (Z.shiftr (bswap32 w) (8 * k)) 255
  = Z.land (Z.shiftr w (8 * (3 - k))) 255.
Proof.
  intros Hk. change 255 with (Z.ones 8).
  apply Z.bits_inj'. intros n Hn.
  rewrite !Z.land_spec, !Z.shiftr_spec, !Z.testbit_ones by lia.
  rewrite testbit_bswap32 by lia.
  destruct (Z.ltb_spec n 8); cbn [andb];
    [|rewrite !andb_false_r; reflexivity].
  destruct (Z.leb_spec 0 n); [|lia]. cbn [andb]. rewrite !andb_true_r.
  assert (C : k = 0 \/ k = 1 \/ k = 2 \/ k = 3) by lia.
  destruct C as [-> | [-> | [-> | ->]]]; split_cmp; try lia; f_equal; lia.
Qed.

(** The expression that [write_buf32] applies to a word before printing
    it stays within 32 bits, reverses the order of the four bytes of the
    word, and undoes itself. *)
Theorem byte_swap_reverses_bytes w :
  0 <= w < 4294967296 ->
  0 <= bswap32 w < 4294967296
  /\ le_bytes32 (bswap32 w) = rev (le_bytes32 w)
  /\ bswap32 (bswap32 w) = w.
Proof.
  intros Hw. split; [apply bswap32_range|]. split.
  - unfold le_bytes32. cbn [rev app].
    pose proof (swapped_byte w 0 ltac:(lia)) as A0.
    pose proof (swapped_byte w 1 ltac:(lia)) as A1.
    pose proof (swapped_byte w 2 ltac:(lia)) as A2.
    pose proof (swapped_byte w 3 ltac:(lia)) as A3.
    change (8 * 0) with 0 in *. change (8 * 1) with 8 in *.
    change (8 * 2) with 16 in *. change (8 * 3) with 24 in *.
    change (8 * (3 - 0)) with 24 in *. change (8 * (3 - 1)) with 16 in *.
    change (8 * (3 - 2)) with 8 in *. change (8 * (3 - 3)) with 0 in *.
    rewrite Z.shiftr_0_r in A0, A3. congruence.
  - apply bswap32_involutive. exact Hw.
Qed.

Lemma byte_swap_reverses_bytes_witness :
  0 <= bswap32 0x03000112 < 4294967296
  /\ le_bytes32 (bswap32 0x03000112) = rev (le_bytes32 0x03000112)
  /\ bswap32 (bswap32 0x03000112) = 0x03000112.
Proof. apply (byte_swap_reverses_bytes 0x03000112). lia. Defined.

(** ** Padding that cannot end *)

Lemma pow2_from k n : 0 <= k <= n -> 2 ^ k <= 2 ^ n.
Proof. intros H. apply Z.pow_le_mono_r; lia. Qed.

(** The counters are [u32]: where the target of a padding loop is [2 ^ 32]
    or more, i.e. for [bitwidth_2] from 32 and [bitwidth_3] from 30, the
    loop is still running after any number of iterations. *)
Theorem padding_never_ends_beyond_u32 fuel s :
  0 <= bytes_written_2 s < 4294967296 ->
  0 <= bytes_written_3 s < 4294967296 ->
  (32 <= bitwidth_2 s -> pad_2 fuel s = OutOfFuel)
  /\ (30 <= bitwidth_3 s -> pad_3 fuel s = OutOfFuel).
Proof.
  intros H2 H3. split; intros Hb.
  - clear H3. revert s H2 Hb. induction fuel as [|fuel IH]; intros s H2 Hb;
      pose proof (pow2_from 32 (bitwidth_2 s)) as Hp;
      change (2 ^ 32) with 4294967296 in Hp; cbn [pad_2];
      destruct (Z.ltb_spec (bytes_written_2 s) (2 ^ bitwidth_2 s)); try lia;
      [reflexivity|].
    change ((write_buf8 (literal [0]) 1;; pad_2 fuel) s)
      with (pad_2 fuel (emit8 0 s)).
    apply IH; unfold emit8; sim; [|exact Hb].
    unfold u32. apply Z.mod_pos_bound. lia.
  - clear H2. revert s H3 Hb. induction fuel as [|fuel IH]; intros s H3 Hb;
      pose proof (pow2_from 30 (bitwidth_3 s)) as Hp;
      change (2 ^ 30) with 1073741824 in Hp; cbn [pad_3];
      destruct (Z.ltb_spec (bytes_written_3 s) (2 ^ bitwidth_3 s * 4));
      try lia; [reflexivity|].
    change ((write_buf32 (literal [0; 0; 0; 0]) 1;; pad_3 fuel) s)
      with (pad_3 fuel (emit32 0 0 0 0 s)).
    apply IH; unfold emit32; sim; [|exact Hb].
    unfold u32. apply Z.mod_pos_bound. lia.
Qed.

Lemma padding_never_ends_beyond_u32_witness :
  pad_2 1000 (set_bitwidth_3 30 (set_bitwidth_2 32 initial_state))
  = OutOfFuel
  /\ pad_3 1000 (set_bitwidth_3 30 (set_bitwidth_2 32 initial_state))
     = OutOfFuel.
Proof.
  split.
  - apply (proj1 (padding_never_ends_beyond_u32 1000
                    (set_bitwidth_3 30 (set_bitwidth_2 32 initial_state))
                    ltac:(vm_compute; split; [discriminate|reflexivity])
                    ltac:(vm_compute; split; [discriminate|reflexivity]))).
    vm_compute. discriminate.
  - apply (proj2 (padding_never_ends_beyond_u32 1000
                    (set_bitwidth_3 30 (set_bitwidth_2 32 initial_state))
                    ltac:(vm_compute; split; [discriminate|reflexivity])
                    ltac:(vm_compute; split; [discriminate|reflexivity]))).
    vm_compute. discriminate.
Defined.

(** ** Strings that cannot be described *)

Lemma strlen_unterminated str :
  Forall (fun c => c <> 0) str -> strlen str = None.
Proof.
  induction 1 as [|c cs Hc _ IH]; [reflexivity|].
  cbn [strlen]. destruct (Z.eqb_spec c 0); [contradiction|].
  now rewrite IH.
Qed.

Lemma length_wide pf (cs : list Z) :
  1 <= wchar_size pf ->
  Z.of_nat (List.length (flat_map (wchar_bytes pf) cs))
  = wchar_size pf * Z.of_nat (List.length cs).
Proof.
  intros Hw. induction cs as [|c cs IH]; [cbn; lia|].
  cbn [flat_map]. rewrite length_app, Nat2Z.inj_add, IH.
  unfold wchar_bytes. cbn [List.length]. rewrite repeat_length. lia.
Qed.

Lemma in_bounds_short buf len :
  Z.of_nat (List.length buf) < len -> in_bounds buf 0 len = false.
Proof.
  intros H. unfold in_bounds.
  destruct (Z.leb_spec (0 + len) (Z.of_nat (List.length buf))); [lia|].
  apply andb_false_r.
Qed.

(** A text of 128 characters or more whose [2 * n] bytes are more than
    the 128 wide characters that [w_str] was given. *)
Lemma add_string_overrun pf idx cs rest s :
  0 < idx -> Forall (fun c => c <> 0) cs ->
  1 <= wchar_size pf ->
  128 <= Z.of_nat (List.length cs) < 2147483647 ->
  wchar_size pf * 128 < 2 * Z.of_nat (List.length cs) ->
  add_string pf idx (cs ++ 0 :: rest) s = Undef.
Proof.
  intros Hidx Hcs Hw Hn Hroom. unfold add_string.
  destruct (Z.eqb_spec idx 0); [lia|].
  rewrite strlen_app by assumption. cbn [option_map].
  rewrite u32_small by lia.
  unfold seq; cbv beta zeta. cbn [bind pure print_offsets]; sim.
  destruct (Z.ltb_spec 0 idx); [|lia].
  rewrite puts_a_spec by side. cbn [bind pure]; sim.
  rewrite in_bounds_short; [reflexivity|].
  rewrite length_wide by assumption. unfold mbstowcs.
  rewrite c_string_app by assumption.
  rewrite length_firstn, length_app. cbn [List.length]. lia.
Qed.

(** Two ways in which [add_string] leaves defined behaviour, whatever the
    state it is called in: a text with no terminator in its object (index
    other than 0), and a language code shorter than the two bytes that are
    copied from it (index 0). *)
Theorem string_outside_defined_behaviour pf s :
  (forall idx str,
     idx <> 0 -> Forall (fun c => c <> 0) str ->
     add_string pf idx str s = Undef)
  /\ (forall str,
        (List.length str < 2)%nat -> add_string pf 0 str s = Undef).
Proof.
  split.
  - intros idx str Hidx Hstr. unfold add_string.
    destruct (Z.eqb_spec idx 0); [contradiction|].
    now rewrite strlen_unterminated.
  - intros str Hlen. unfold add_string.
    change (0 =? 0) with true. change (0 <? 0) with false. cbv iota.
    unfold seq; cbv beta zeta. cbn [bind pure print_offsets]; sim.
    now rewrite in_bounds_short by lia.
Qed.

Lemma string_outside_defined_behaviour_witness :
  add_string win32 1 (chars "Daisho") start_state = Undef
  /\ add_string win32 0 [9] start_state = Undef.
Proof.
  split.
  - apply (proj1 (string_outside_defined_behaviour win32 start_state)).
    + discriminate.
    + vm_compute. repeat constructor; discriminate.
  - apply (proj2 (string_outside_defined_behaviour win32 start_state)).
    vm_compute. lia.
Defined.

(** Where [wchar_t] has two bytes, a string descriptor holds a text of up
    to 128 characters: [add_string] returns for these, and for a longer
    text it reads past the end of [w_str]. *)
Theorem string_holds_128_characters pf idx cs rest s :
  wchar_size pf = 2 -> 0 < idx ->
  Forall (fun c => c <> 0) cs ->
  Z.of_nat (List.length cs) < 2147483647 ->
  if (List.length cs <=? 128)%nat
  then exists s', add_string pf idx (cs ++ 0 :: rest) s = Done s'
  else add_string pf idx (cs ++ 0 :: rest) s = Undef.
Proof.
  intros Hws Hidx Hcs Hbig.
  destruct (Nat.leb_spec (List.length cs) 128) as [Hn|Hn];
    [|apply add_string_overrun; try assumption; lia].
  assert (Hw : wchar_bytes pf = fun c => [c; 0])
    by (unfold wchar_bytes; rewrite Hws; reflexivity).
  unfold add_string. destruct (Z.eqb_spec idx 0); [lia|].
  rewrite strlen_app by assumption. cbn [option_map].
  rewrite u32_small by lia.
  unfold seq; cbv beta zeta. cbn [bind pure print_offsets]; sim.
  destruct (Z.ltb_spec 0 idx); [|lia].
  rewrite puts_a_spec by side. cbn [bind pure]; sim.
  assert (Hlw : 2 * Z.of_nat (List.length cs)
                <= Z.of_nat (List.length
                     (flat_map (wchar_bytes pf) (mbstowcs (cs ++ 0 :: rest) 128)))).
  { rewrite length_wide by lia. unfold mbstowcs.
    rewrite c_string_app by assumption.
    rewrite length_firstn, length_app. cbn [List.length]. lia. }
  rewrite in_bounds_true by lia.
  pose proof (length_load
                (flat_map (wchar_bytes pf) (mbstowcs (cs ++ 0 :: rest) 128))
                0 (Z.of_nat (List.length cs) * 2 + 2 - 2)
                ltac:(lia) ltac:(lia) ltac:(lia)) as Hll.
  rewrite poke_2_spec
    by (sim; cbn [List.length map];
        rewrite ?Hll, ?length_splice, ?repeat_length; lia).
  cbn [bind pure]; sim. unfold write_buf, seq.
  pose proof (round4_bounds (Z.of_nat (List.length cs) * 2 + 2)) as Hrb.
  rewrite write_buf8_spec
    by (sim; rewrite ?length_splice, ?repeat_length; lia).
  cbn [bind].
  rewrite write_buf32_spec
    by (sim; rewrite ?length_splice, ?repeat_length; unfold round4 in *;
        Z.div_mod_to_equations; lia).
  eexists. reflexivity.
Qed.

Lemma string_holds_128_characters_witness :
  if (List.length (repeat 65 129) <=? 128)%nat
  then exists s',
         add_string win32 1 (repeat 65 129 ++ 0 :: []) start_state = Done s'
  else add_string win32 1 (repeat 65 129 ++ 0 :: []) start_state = Undef.
Proof.
  apply (string_holds_128_characters win32 1 (repeat 65 129) [] start_state).
  - reflexivity.
  - lia.
  - apply Forall_forall. intros c Hc. apply repeat_spec in Hc. lia.
  - rewrite repeat_length. lia.
Defined.

(** ** The two memories after [main] *)

Lemma emit_descriptors_text_lines pf :
  wchar_size pf = 2 \/ wchar_size pf = 4 ->
  exists s,
    emit_descriptors pf start_state = Done s
    /\ List.length (init_2 s) = 173%nat /\ List.length (init_3 s) = 53%nat.
Proof.
  destruct pf as [w [u0 u1] [v0 v1]]. cbn [wchar_size].
  intros [-> | ->];
    (eexists (state_of _); split;
     [apply returned_state_of; vm_compute; reflexivity|]);
    split; vm_compute; reflexivity.
Qed.

(** Given fuel for 83 iterations or more, [main] returns with both
    memories filled to their size: the USB2 files hold [2 ^ 8] bytes and as
    many text lines, the USB3 files [2 ^ 7] words, which are [4 * 2 ^ 7]
    bytes, and as many text lines.  What follows the descriptors is zeros,
    83 bytes for USB2 and 300 for USB3, and padding adds nothing to the
    parameter table. *)
Theorem main_fills_both_memories pf fuel :
  wchar_size pf = 2 \/ wchar_size pf = 4 -> (83 <= fuel)%nat ->
  exists s1 s,
    emit_descriptors pf start_state = Done s1
    /\ main pf fuel = Done s
    /\ bin_2 s = bin_2 s1 ++ repeat 0 83
    /\ bin_3 s = bin_3 s1 ++ repeat 0 300
    /\ Z.of_nat (List.length (bin_2 s)) = 2 ^ 8
    /\ Z.of_nat (List.length (init_2 s)) = 2 ^ 8
    /\ Z.of_nat (List.length (bin_3 s)) = 4 * 2 ^ 7
    /\ Z.of_nat (List.length (init_3 s)) = 2 ^ 7
    /\ descrip_vh s = descrip_vh s1.
Proof.
  intros Hpf Hfuel.
  destruct (main_summary pf fuel Hpf Hfuel) as (s1 & Hrun & Hmain).
  destruct (emit_descriptors_summary pf Hpf)
    as (s1' & Hrun' & _ & _ & _ & _ & Hl2 & Hl3 & _).
  rewrite Hrun in Hrun'. injection Hrun' as <-.
  destruct (emit_descriptors_text_lines pf Hpf) as (s1' & Hrun' & Ht2 & Ht3).
  rewrite Hrun in Hrun'. injection Hrun' as <-.
  exists s1. eexists. split; [exact Hrun|]. split; [exact Hmain|]. sim.
  rewrite !length_app, !length_map, !repeat_length, Hl2, Hl3, Ht2, Ht3.
  repeat split.
Qed.

Lemma main_fills_both_memories_witness :
  exists s1 s,
    emit_descriptors win32 start_state = Done s1
    /\ main win32 100 = Done s
    /\ bin_2 s = bin_2 s1 ++ repeat 0 83
    /\ bin_3 s = bin_3 s1 ++ repeat 0 300
    /\ Z.of_nat (List.length (bin_2 s)) = 2 ^ 8
    /\ Z.of_nat (List.length (init_2 s)) = 2 ^ 8
    /\ Z.of_nat (List.length (bin_3 s)) = 4 * 2 ^ 7
    /\ Z.of_nat (List.length (init_3 s)) = 2 ^ 7
    /\ descrip_vh s = descrip_vh s1.
Proof.
  apply (main_fills_both_memories win32 100).
  - left. reflexivity.
  - lia.
Defined.

(** ** How many endpoints a group can hold *)

Lemma in_bounds_over buf off len :
  Z.of_nat (List.length buf) < off + len -> in_bounds buf off len = false.
Proof.
  intros H. unfold in_bounds.
  destruct (Z.leb_spec (off + len) (Z.of_nat (List.length buf))); [lia|].
  apply andb_false_r.
Qed.

Lemma puts_a_overflow vs : forall s,
  0 <= a s <= Z.of_nat (List.length (buf_2 s)) ->
  Z.of_nat (List.length (buf_2 s)) < a s + Z.of_nat (List.length vs) ->
  puts_a vs s = Undef.
Proof.
  induction vs as [|v vs IH]; intros s H0 H1; cbn [List.length] in H1;
    [lia|].
  rewrite Nat2Z.inj_succ in H1. cbn [puts_a].
  unfold seq at 1, put_a, seq, pure.
  destruct (Z.le_gt_cases (a s + 1) (Z.of_nat (List.length (buf_2 s)))).
  - rewrite poke_2_spec by (cbn [List.length]; lia). cbn [bind].
    apply IH; sim; rewrite length_splice; lia.
  - unfold poke_2. rewrite in_bounds_over by (cbn [List.length]; lia).
    reflexivity.
Qed.

Lemma puts_z_overflow vs : forall s,
  0 <= z s <= Z.of_nat (List.length (buf_3 s)) ->
  Z.of_nat (List.length (buf_3 s)) < z s + Z.of_nat (List.length vs) ->
  puts_z vs s = Undef.
Proof.
  induction vs as [|v vs IH]; intros s H0 H1; cbn [List.length] in H1;
    [lia|].
  rewrite Nat2Z.inj_succ in H1. cbn [puts_z].
  unfold seq at 1, put_z, seq, pure.
  destruct (Z.le_gt_cases (z s + 1) (Z.of_nat (List.length (buf_3 s)))).
  - rewrite poke_3_spec by (cbn [List.length]; lia). cbn [bind].
    apply IH; sim; rewrite length_splice; lia.
  - unfold poke_3. rewrite in_bounds_over by (cbn [List.length]; lia).
    reflexivity.
Qed.

(** An endpoint for which the USB3 buffer has no 13 bytes left. *)
Lemma add_endpoint_overflow
    idx dir attrib max_pkt interval max_burst attrib_3 bytes_per_interval s :
  wf s -> 0 <= a s <= z s -> z s <= 1024 -> 1024 < z s + 13 ->
  add_endpoint idx dir attrib max_pkt interval max_burst attrib_3
    bytes_per_interval s = Undef.
Proof.
  intros [Hl2 Hl3] Ha Hz Hover. unfold add_endpoint.
  unfold seq; cbv beta zeta.
  destruct (Z.le_gt_cases (a s + 7) 1024) as [Hfit|Hfit].
  - rewrite puts_a_spec by side. cbn [bind pure]; sim.
    destruct (Z.le_gt_cases (z s + 7) 1024) as [Hfit3|Hfit3].
    + rewrite memcpy_2_to_3_spec by side. cbn [bind pure]; sim.
      rewrite poke_3_spec by side. cbn [bind pure]; sim.
      rewrite poke_3_spec by side. cbn [bind pure]; sim.
      rewrite puts_z_overflow; [reflexivity| |];
        sim; rewrite !length_splice; cbn [List.length]; lia.
    + unfold memcpy_2_to_3.
      rewrite in_bounds_true by (sim; rewrite ?length_splice; lia).
      unfold poke_3. rewrite in_bounds_over; [reflexivity|].
      sim. rewrite length_load by (rewrite ?length_splice; lia). lia.
  - rewrite puts_a_overflow; [reflexivity| |]; cbn [List.length]; lia.
Qed.

Lemma add_endpoints_overflow es : forall s,
  wf s -> 0 <= a s <= z s -> z s <= 1024 ->
  1024 < z s + 13 * Z.of_nat (List.length es) ->
  add_endpoints es s = Undef.
Proof.
  induction es as [|e es IH]; intros s Hwf Ha Hz Hover;
    cbn [List.length] in Hover; [lia|].
  rewrite Nat2Z.inj_succ in Hover. cbn [add_endpoints].
  unfold seq, add_endpoint_of.
  destruct (Z.le_gt_cases (z s + 13) 1024) as [Hfit|Hfit].
  - pose proof Hwf as [Hl2 Hl3].
    rewrite add_endpoint_spec by lia. cbn [bind].
    apply IH; unfold wf; sim; rewrite ?length_splice; lia.
  - rewrite add_endpoint_overflow by (assumption || lia). reflexivity.
Qed.

(** A configuration group holds up to 76 endpoints: with 76 or fewer the
    three steps of the group return, with more the stores leave the
    1024-byte USB3 buffer, in an [add_endpoint] or, for 77 endpoints, in
    [add_config_end]. *)
Theorem group_holds_76_endpoints
    usb_spec attrib power_ma num_endpoints es s :
  wf s ->
  if (List.length es <=? 76)%nat
  then exists s',
         config_group usb_spec attrib power_ma num_endpoints es s = Done s'
  else config_group usb_spec attrib power_ma num_endpoints es s = Undef.
Proof.
  intros Hwf. destruct (Nat.leb_spec (List.length es) 76) as [Hn|Hn].
  - destruct (config_group_effect usb_spec attrib power_ma num_endpoints es
                s Hwf ltac:(lia)) as (s' & Hrun & _).
    exists s'. exact Hrun.
  - unfold config_group, seq.
    rewrite add_config_start_spec by exact Hwf. cbn [bind].
    match goal with |- context [add_endpoints es ?t] => set (s1 := t) end.
    pose proof Hwf as [Hl2 Hl3].
    assert (Hwf1 : wf s1)
      by (subst s1; unfold wf; sim; rewrite !length_splice; split;
          assumption).
    destruct (Z.le_gt_cases (18 + 13 * Z.of_nat (List.length es)) 1024)
      as [Hfit|Hfit].
    + destruct (add_endpoints_spec es s1)
        as (s2 & Hrun & Ha & Hz & _ & _ & Hb2 & Hb3 & _);
        try (subst s1; sim; rewrite ?length_splice; lia).
      rewrite Hrun. cbn [bind].
      revert Ha Hz Hb2 Hb3. subst s1. sim. rewrite !length_splice.
      intros Ha Hz Hb2 Hb3.
      unfold add_config_end. unfold seq; cbv beta zeta.
      rewrite puts_a_spec by (rewrite ?Ha, ?Hb2; cbn [List.length]; lia).
      cbn [bind pure]; sim.
      unfold memcpy_2_to_3.
      rewrite in_bounds_true
        by (sim; rewrite ?length_splice, ?Hb2; lia).
      unfold poke_3. rewrite in_bounds_over; [reflexivity|].
      sim. rewrite length_load by (rewrite ?length_splice, ?Hb2; lia). lia.
    + rewrite add_endpoints_overflow; [reflexivity|exact Hwf1| | |];
        subst s1; sim; lia.
Qed.

Lemma group_holds_76_endpoints_witness :
  if (List.length (repeat ep1_in 77) <=? 76)%nat
  then exists s',
         config_group 0x300 0x80 500 77 (repeat ep1_in 77) start_state
         = Done s'
  else config_group 0x300 0x80 500 77 (repeat ep1_in 77) start_state = Undef.
Proof.
  apply (group_holds_76_endpoints 0x300 0x80 500 77 (repeat ep1_in 77)
           start_state).
  split; reflexivity.
Defined.

(** ** The bytes of a configuration group *)

Lemma splice_at_app_r (P L vs : list Z) j :
  splice_at (P ++ L) (List.length P + j) vs = P ++ splice_at L j vs.
Proof.
  induction P as [|p P IH]; [reflexivity|].
  cbn [app List.length Nat.add splice_at]. now rewrite IH.
Qed.

Lemma splice_app_r (P L vs : list Z) off k :
  off = Z.of_nat (List.length P) + k -> 0 <= k ->
  splice (P ++ L) off vs = P ++ splice L k vs.
Proof.
  intros -> Hk. unfold splice.
  replace (Z.to_nat (Z.of_nat (List.length P) + k))
    with (List.length P + Z.to_nat k)%nat by lia.
  apply splice_at_app_r.
Qed.

Lemma splice_front (T vs : list Z) :
  (List.length vs <= List.length T)%nat ->
  splice T 0 vs = vs ++ skipn (List.length vs) T.
Proof.
  intros H. unfold splice. change (Z.to_nat 0) with O.
  rewrite splice_at_eq by lia. reflexivity.
Qed.

Lemma splice_app (P T vs : list Z) off :
  Z.of_nat (List.length P) = off -> (List.length vs <= List.length T)%nat ->
  splice (P ++ T) off vs = P ++ vs ++ skipn (List.length vs) T.
Proof.
  intros Hoff H. rewrite (splice_app_r P T vs off 0) by lia.
  now rewrite splice_front.
Qed.

Lemma load_app (P vs R : list Z) off len :
  Z.of_nat (List.length P) = off -> Z.to_nat len = List.length vs ->
  load (P ++ vs ++ R) off len = vs.
Proof.
  intros <- Hlen. unfold load. rewrite Nat2Z.id, Hlen.
  rewrite skipn_app, skipn_all, Nat.sub_diag. cbn [skipn app].
  rewrite firstn_app, firstn_all, Nat.sub_diag. cbn [firstn].
  apply app_nil_r.
Qed.

Lemma length_endpoints_2 es :
  List.length (flat_map endpoint_bytes_2 es) = (7 * List.length es)%nat.
Proof.
  induction es as [|e es IH]; [reflexivity|].
  cbn [flat_map List.length app endpoint_bytes_2]. lia.
Qed.

Lemma length_endpoints_3 es :
  List.length (flat_map endpoint_bytes_3 es) = (13 * List.length es)%nat.
Proof.
  induction es as [|e es IH]; [reflexivity|].
  cbn [flat_map List.length app endpoint_bytes_3]. lia.
Qed.

(** One endpoint, seen from the two write positions: the seven bytes go
    behind what [a] has passed, the thirteen behind what [z] has passed. *)
Lemma add_endpoint_window e s P2 T2 P3 T3 :
  buf_2 s = P2 ++ T2 -> Z.of_nat (List.length P2) = a s ->
  (7 <= List.length T2)%nat ->
  buf_3 s = P3 ++ T3 -> Z.of_nat (List.length P3) = z s ->
  (13 <= List.length T3)%nat ->
  add_endpoint_of e s
  = Done (set_bytes_pending_3 (u32 (u32 (bytes_pending_3 s + 7) + 6))
            (set_z (z s + 7 + 6)
               (set_buf_3 ((P3 ++ endpoint_bytes_3 e) ++ skipn 13 T3)
                  (set_bytes_pending_2 (u32 (bytes_pending_2 s + 7))
                     (set_a (a s + 7)
                        (set_buf_2 ((P2 ++ endpoint_bytes_2 e) ++ skipn 7 T2)
                           s)))))).
Proof.
  intros E2 Ha H2 E3 Hz H3. unfold add_endpoint_of.
  rewrite add_endpoint_spec
    by (rewrite ?E2, ?E3, ?length_app; lia).
  cbv zeta. rewrite E2, E3.
  rewrite (splice_app P2 T2) by (cbn [List.length map]; lia || assumption).
  rewrite load_app by (cbn [List.length map]; lia || reflexivity).
  rewrite (splice_app P3 T3) by (cbn [List.length map]; lia || assumption).
  cbn [map List.length app].
  rewrite (splice_app_r P3 _ _ _ 5) by lia.
  match goal with |- context [splice ?L 5 [4]] =>
    change (splice L 5 [4]) with (splice_at L 5 [4]) end.
  cbn [splice_at].
  rewrite (splice_app_r P3 _ _ _ 4) by lia.
  match goal with |- context [splice ?L 4 [0]] =>
    change (splice L 4 [0]) with (splice_at L 4 [0]) end.
  cbn [splice_at].
  rewrite (splice_app_r P3 _ _ _ 7) by lia.
  match goal with |- context [splice ?L 7 ?vs] =>
    change (splice L 7 vs) with (splice_at L 7 vs) end.
  cbn [splice_at].
  rewrite splice_at_eq by (rewrite length_skipn; cbn [List.length]; lia).
  cbn [firstn app Nat.add List.length]. rewrite skipn_skipn.
  change (6 + 7)%nat with 13%nat.
  unfold endpoint_bytes_2, endpoint_bytes_3.
  rewrite <- !app_assoc. reflexivity.
Qed.

(** The endpoints of a group, seen from the two write positions. *)
Lemma add_endpoints_window es : forall s P2 T2 P3 T3,
  buf_2 s = P2 ++ T2 -> Z.of_nat (List.length P2) = a s ->
  (7 * List.length es <= List.length T2)%nat ->
  buf_3 s = P3 ++ T3 -> Z.of_nat (List.length P3) = z s ->
  (13 * List.length es <= List.length T3)%nat ->
  exists s',
    add_endpoints es s = Done s'
    /\ buf_2 s'
       = (P2 ++ flat_map endpoint_bytes_2 es)
         ++ skipn (7 * List.length es) T2
    /\ buf_3 s'
       = (P3 ++ flat_map endpoint_bytes_3 es)
         ++ skipn (13 * List.length es) T3.
Proof.
  induction es as [|e es IH]; intros s P2 T2 P3 T3 E2 Ha H2 E3 Hz H3.
  - exists s. cbn [add_endpoints flat_map List.length Nat.mul skipn].
    rewrite !app_nil_r. repeat split; assumption.
  - cbn [List.length] in H2, H3. cbn [add_endpoints]. unfold seq.
    rewrite (add_endpoint_window e s P2 T2 P3 T3) by (assumption || lia).
    cbn [bind].
    match goal with |- context [add_endpoints es ?t] => set (s1 := t) end.
    destruct (IH s1 (P2 ++ endpoint_bytes_2 e) (skipn 7 T2)
                (P3 ++ endpoint_bytes_3 e) (skipn 13 T3))
      as (s' & Hrun & B2 & B3);
      try (subst s1; sim; rewrite ?length_app, ?length_skipn;
           cbn [List.length endpoint_bytes_2 endpoint_bytes_3];
           reflexivity || lia).
    exists s'. split; [exact Hrun|].
    rewrite B2, B3, !skipn_skipn. cbn [flat_map List.length].
    rewrite <- !app_assoc.
    replace (7 * List.length es + 7)%nat with (7 * S (List.length es))%nat
      by lia.
    replace (13 * List.length es + 13)%nat with (13 * S (List.length es))%nat
      by lia.
    split; reflexivity.
Qed.

Lemma firstn_exact (X R : list Z) k :
  k = List.length X -> firstn k (X ++ R) = X.
Proof.
  intros ->. rewrite firstn_app, firstn_all, Nat.sub_diag. cbn [firstn].
  apply app_nil_r.
Qed.

Lemma firstn_over (X R : list Z) k :
  (List.length X <= k)%nat ->
  firstn k (X ++ R) = X ++ firstn (k - List.length X) R.
Proof. intros H. rewrite firstn_app, firstn_all2 by exact H. reflexivity. Qed.

Lemma load_front (vs R : list Z) len :
  Z.to_nat len = List.length vs -> load (vs ++ R) 0 len = vs.
Proof. intros H. apply (load_app [] vs R 0 len); [reflexivity|exact H]. Qed.

(** The buffers when [add_config_start] returns: the two descriptors at
    the front of both, the rest of both as it was. *)
Lemma add_config_start_window usb_spec attrib power_ma num_endpoints s :
  wf s ->
  let front :=
    config_bytes 0xffff attrib
      (if usb_spec =? 0x300 then power_ma / 8 else power_ma / 2)
    ++ interface_bytes 0 num_endpoints in
  exists s',
    add_config_start usb_spec attrib power_ma num_endpoints s = Done s'
    /\ a s' = 18 /\ z s' = 18
    /\ bytes_pending_2 s' = 18 /\ bytes_pending_3 s' = 18
    /\ buf_2 s' = front ++ skipn 18 (buf_2 s)
    /\ buf_3 s' = front ++ skipn 18 (buf_3 s)
    /\ bin_2 s' = bin_2 s /\ bin_3 s' = bin_3 s.
Proof.
  intros Hwf front. pose proof Hwf as [Hl2 Hl3].
  rewrite add_config_start_spec by exact Hwf. cbv zeta.
  eexists. split; [reflexivity|]. sim.
  rewrite (splice_front (buf_2 s)) by (cbn [List.length map]; lia).
  rewrite (splice_app _ _ _ 9)
    by (rewrite ?length_skipn; cbn [List.length map]; lia).
  rewrite skipn_skipn. cbn [List.length map Nat.add].
  rewrite !app_assoc. rewrite load_front by reflexivity.
  rewrite (splice_front (buf_3 s)) by (cbn [List.length app]; lia).
  cbn [List.length app]. subst front.
  unfold config_bytes, interface_bytes. cbn [app].
  repeat split; reflexivity.
Qed.

(** What a configuration group of up to 76 endpoints sends to the streams.
    USB2 gets the configuration descriptor, the interface descriptor, the
    seven bytes of every endpoint and the alternate interface descriptor;
    USB3 gets the same with thirteen bytes an endpoint, and then, up to the
    next whole word, the bytes that [buf_3] held there before the call.
    The total length of either copy is the number of its bytes, 27 and 7
    or 13 an endpoint; the endpoint count in the interface descriptor is
    the argument [num_endpoints], whatever the number of endpoints added;
    the power byte is the same in both copies and follows [usb_spec]. *)
Theorem config_group_layout
    usb_spec attrib power_ma num_endpoints es s :
  wf s -> (List.length es <= 76)%nat ->
  let n := Z.of_nat (List.length es) in
  let power := if usb_spec =? 0x300 then power_ma / 8 else power_ma / 2 in
  exists s',
    config_group usb_spec attrib power_ma num_endpoints es s = Done s'
    /\ added_2 s s'
       = config_bytes (27 + 7 * n) attrib power
         ++ interface_bytes 0 num_endpoints
         ++ flat_map endpoint_bytes_2 es
         ++ interface_bytes 1 0
    /\ added_3 s s'
       = config_bytes (27 + 13 * n) attrib power
         ++ interface_bytes 0 num_endpoints
         ++ flat_map endpoint_bytes_3 es
         ++ interface_bytes 1 0
         ++ load (buf_3 s) (27 + 13 * n)
              (round4 (27 + 13 * n) - (27 + 13 * n)).
Proof.
  intros Hwf Hn n power. pose proof Hwf as [Hl2 Hl3].
  assert (Hn0 : 0 <= n <= 76) by (subst n; lia).
  unfold config_group, seq.
  destruct (add_config_start_window usb_spec attrib power_ma num_endpoints
              s Hwf)
    as (s1 & Hstart & Ha1 & Hz1 & Hp1 & Hq1 & B2 & B3 & F2 & F3).
  fold power in B2, B3. rewrite Hstart. cbn [bind].
  destruct (add_endpoints_window es s1 _ _ _ _ B2 ltac:(rewrite Ha1; reflexivity)
              ltac:(rewrite length_skipn; lia) B3
              ltac:(rewrite Hz1; reflexivity)
              ltac:(rewrite length_skipn; lia))
    as (s2 & Hrun & C2 & C3).
  destruct (add_endpoints_spec es s1)
    as (s2' & Hrun' & Ha & Hz & Hp2 & Hp3 & Hb2 & Hb3 & Hf2 & Hf3);
    try (rewrite ?Ha1, ?Hz1, ?B2, ?B3, ?length_app, ?length_skipn;
         cbn [List.length config_bytes interface_bytes app]; lia).
  rewrite Hrun in Hrun'. injection Hrun' as <-.
  rewrite Hrun. cbn [bind]. fold n in Ha, Hz, Hp2, Hp3.
  rewrite Ha1 in Ha. rewrite Hz1 in Hz. rewrite Hp1 in Hp2.
  rewrite Hq1 in Hp3. rewrite bump_small in Hp2, Hp3 by lia.
  assert (L2 : List.length (buf_2 s2) = 1024%nat).
  { rewrite Hb2, B2, length_app, length_skipn.
    cbn [List.length config_bytes interface_bytes app]. lia. }
  assert (L3 : List.length (buf_3 s2) = 1024%nat).
  { rewrite Hb3, B3, length_app, length_skipn.
    cbn [List.length config_bytes interface_bytes app]. lia. }
  assert (Hq2 : u32 (bytes_pending_2 s2 + 9) = 27 + 7 * n)
    by (rewrite Hp2, u32_small; lia).
  assert (Hq3 : u32 (bytes_pending_3 s2 + 9) = 27 + 13 * n)
    by (rewrite Hp3, u32_small; lia).
  pose proof (round4_bounds (27 + 13 * n)) as Hrb.
  unfold add_config_end. run.
  eexists. split; [reflexivity|]. unfold added_2, added_3. sim.
  rewrite Hf2, Hf3, F2, F3, !skipn_length_app.
  rewrite Hq2, Hq3, Ha, Hz, C2, C3. rewrite !skipn_skipn.
  assert (N2 : Z.of_nat (List.length
                 ((config_bytes 65535 attrib power
                   ++ interface_bytes 0 num_endpoints)
                  ++ flat_map endpoint_bytes_2 es)) = 18 + 7 * n)
    by (rewrite !length_app, length_endpoints_2;
        cbn [List.length config_bytes interface_bytes]; lia).
  assert (N3 : Z.of_nat (List.length
                 ((config_bytes 65535 attrib power
                   ++ interface_bytes 0 num_endpoints)
                  ++ flat_map endpoint_bytes_3 es)) = 18 + 13 * n)
    by (rewrite !length_app, length_endpoints_3;
        cbn [List.length config_bytes interface_bytes]; lia).
  rewrite (splice_app _ _ _ (18 + 7 * n))
    by (rewrite ?length_skipn; cbn [List.length map]; lia).
  rewrite load_app by (cbn [List.length map]; lia || reflexivity).
  rewrite (splice_app _ _ _ (18 + 13 * n))
    by (rewrite ?length_skipn; cbn [List.length map]; lia).
  rewrite !skipn_skipn. cbn [List.length map].
  rewrite <- !app_assoc. unfold config_bytes at 1 3. cbn [app].
  repeat match goal with |- context [splice ?L 2 ?vs] =>
    change (splice L 2 vs) with (splice_at L 2 vs) end.
  cbn [splice_at firstn le_bytes32].
  split.
  - change (firstn (Z.to_nat (27 + 7 * n))
              (config_bytes (27 + 7 * n) attrib power
               ++ interface_bytes 0 num_endpoints
               ++ flat_map endpoint_bytes_2 es
               ++ interface_bytes 1 0
               ++ skipn (9 + (7 * List.length es + 18)) (buf_2 s))
            = config_bytes (27 + 7 * n) attrib power
              ++ interface_bytes 0 num_endpoints
              ++ flat_map endpoint_bytes_2 es
              ++ interface_bytes 1 0).
    rewrite !app_assoc. apply firstn_exact.
    rewrite !length_app, length_endpoints_2.
    cbn [List.length config_bytes interface_bytes]. lia.
  - change (firstn (Z.to_nat (round4 (27 + 13 * n)))
              (config_bytes (27 + 13 * n) attrib power
               ++ interface_bytes 0 num_endpoints
               ++ flat_map endpoint_bytes_3 es
               ++ interface_bytes 1 0
               ++ skipn (9 + (13 * List.length es + 18)) (buf_3 s))
            = config_bytes (27 + 13 * n) attrib power
              ++ interface_bytes 0 num_endpoints
              ++ flat_map endpoint_bytes_3 es
              ++ interface_bytes 1 0
              ++ load (buf_3 s) (27 + 13 * n)
                   (round4 (27 + 13 * n) - (27 + 13 * n))).
    rewrite !app_assoc.
    assert (N : List.length
                  (((config_bytes (27 + 13 * n) attrib power
                     ++ interface_bytes 0 num_endpoints)
                    ++ flat_map endpoint_bytes_3 es)
                   ++ interface_bytes 1 0)
                = Z.to_nat (27 + 13 * n))
      by (rewrite !length_app, length_endpoints_3;
          cbn [List.length config_bytes interface_bytes]; lia).
    rewrite firstn_over by lia. f_equal. unfold load. rewrite N.
    f_equal; [lia|f_equal; lia].
Qed.

Lemma config_group_layout_witness :
  let n := Z.of_nat (List.length [ep1_in; ep2_out]) in
  let power := if 0x300 =? 0x300 then 500 / 8 else 500 / 2 in
  exists s',
    config_group 0x300 0x80 500 2 [ep1_in; ep2_out] group_start_state
    = Done s'
    /\ added_2 group_start_state s'
       = config_bytes (27 + 7 * n) 0x80 power
         ++ interface_bytes 0 2
         ++ flat_map endpoint_bytes_2 [ep1_in; ep2_out]
         ++ interface_bytes 1 0
    /\ added_3 group_start_state s'
       = config_bytes (27 + 13 * n) 0x80 power
         ++ interface_bytes 0 2
         ++ flat_map endpoint_bytes_3 [ep1_in; ep2_out]
         ++ interface_bytes 1 0
         ++ load (buf_3 group_start_state) (27 + 13 * n)
              (round4 (27 + 13 * n) - (27 + 13 * n)).
Proof.
  apply (config_group_layout 0x300 0x80 500 2 [ep1_in; ep2_out]
           group_start_state).
  - split; vm_compute; reflexivity.
  - cbn [List.length]. lia.
Defined.

(** One [add_endpoint] writes in place: seven bytes at [a] and thirteen at
    [z], and no other byte of either buffer.  The USB2 copy holds the
    maximum packet size it was given, low byte first; the USB3 copy holds
    1024 whatever it was given, and its companion descriptor behind it. *)
Theorem endpoint_written_in_place e s :
  0 <= a s -> a s + 7 <= Z.of_nat (List.length (buf_2 s)) ->
  0 <= z s -> z s + 13 <= Z.of_nat (List.length (buf_3 s)) ->
  0 <= ep_max_pkt e < 65536 ->
  exists s',
    add_endpoint_of e s = Done s'
    /\ a s' = a s + 7 /\ z s' = z s + 13
    /\ buf_2 s'
       = firstn (Z.to_nat (a s)) (buf_2 s)
         ++ endpoint_bytes_2 e
         ++ skipn (Z.to_nat (a s + 7)) (buf_2 s)
    /\ buf_3 s'
       = firstn (Z.to_nat (z s)) (buf_3 s)
         ++ endpoint_bytes_3 e
         ++ skipn (Z.to_nat (z s + 13)) (buf_3 s)
    /\ field16 (load (buf_2 s') (a s) 7) 4 = ep_max_pkt e
    /\ field16 (load (buf_3 s') (z s) 13) 4 = 1024.
Proof.
  intros Ha0 Ha1 Hz0 Hz1 Hm.
  assert (L2 : Z.of_nat (List.length (firstn (Z.to_nat (a s)) (buf_2 s)))
               = a s) by (rewrite length_firstn; lia).
  assert (L3 : Z.of_nat (List.length (firstn (Z.to_nat (z s)) (buf_3 s)))
               = z s) by (rewrite length_firstn; lia).
  rewrite (add_endpoint_window e s
             (firstn (Z.to_nat (a s)) (buf_2 s))
             (skipn (Z.to_nat (a s)) (buf_2 s))
             (firstn (Z.to_nat (z s)) (buf_3 s))
             (skipn (Z.to_nat (z s)) (buf_3 s)));
    rewrite ?firstn_skipn, ?length_skipn; try reflexivity; try lia.
  eexists. split; [reflexivity|]. sim.
  rewrite !skipn_skipn, <- !app_assoc.
  replace (7 + Z.to_nat (a s))%nat with (Z.to_nat (a s + 7)) by lia.
  replace (13 + Z.to_nat (z s))%nat with (Z.to_nat (z s + 13)) by lia.
  rewrite !load_app
    by (cbn [List.length endpoint_bytes_2 endpoint_bytes_3];
        lia || reflexivity).
  split; [reflexivity|]. split; [lia|].
  split; [reflexivity|]. split; [reflexivity|].
  unfold field16. cbn [endpoint_bytes_2 endpoint_bytes_3 nth].
  split; [|reflexivity].
  apply le16_stored. exact Hm.
Qed.

Lemma endpoint_written_in_place_witness :
  exists s',
    add_endpoint_of ep1_in (set_z 18 (set_a 18 start_state)) = Done s'
    /\ a s' = a (set_z 18 (set_a 18 start_state)) + 7
    /\ z s' = z (set_z 18 (set_a 18 start_state)) + 13
    /\ buf_2 s'
       = firstn (Z.to_nat (a (set_z 18 (set_a 18 start_state))))
           (buf_2 (set_z 18 (set_a 18 start_state)))
         ++ endpoint_bytes_2 ep1_in
         ++ skipn (Z.to_nat (a (set_z 18 (set_a 18 start_state)) + 7))
              (buf_2 (set_z 18 (set_a 18 start_state)))
    /\ buf_3 s'
       = firstn (Z.to_nat (z (set_z 18 (set_a 18 start_state))))
           (buf_3 (set_z 18 (set_a 18 start_state)))
         ++ endpoint_bytes_3 ep1_in
         ++ skipn (Z.to_nat (z (set_z 18 (set_a 18 start_state)) + 13))
              (buf_3 (set_z 18 (set_a 18 start_state)))
    /\ field16 (load (buf_2 s') (a (set_z 18 (set_a 18 start_state))) 7) 4
       = ep_max_pkt ep1_in
    /\ field16 (load (buf_3 s') (z (set_z 18 (set_a 18 start_state))) 13) 4
       = 1024.
Proof.
  apply (endpoint_written_in_place ep1_in (set_z 18 (set_a 18 start_state)));
    vm_compute; try split; discriminate || reflexivity.
Defined.

(** ** Other memory sizes *)

Lemma emit_descriptors_any_width pf b2 b3 :
  wchar_size pf = 2 \/ wchar_size pf = 4 ->
  exists s,
    emit_descriptors pf (set_bitwidth_3 b3 (set_bitwidth_2 b2 initial_state))
    = Done s
    /\ bitwidth_2 s = b2 /\ bitwidth_3 s = b3
    /\ bytes_written_2 s = 173 /\ bytes_written_3 s = 212
    /\ List.length (bin_2 s) = 173%nat /\ List.length (bin_3 s) = 212%nat.
Proof.
  destruct pf as [w [u0 u1] [v0 v1]]. cbn [wchar_size].
  intros [-> | ->];
    (eexists (state_of _); split;
     [apply returned_state_of; vm_compute; reflexivity|]);
    repeat split; vm_compute; reflexivity.
Qed.

(** [main] with other values for its two bit widths, up to 31 and 29.
    Given the fuel, it returns, and the binary files are as long as the
    memory or as long as the descriptors, whichever is more: the
    descriptors take 173 bytes in USB2 and 212 in USB3, and nothing stops
    the program when the memory it was told is smaller than that. *)
Theorem generate_for_any_width pf bw_2 bw_3 fuel :
  wchar_size pf = 2 \/ wchar_size pf = 4 ->
  0 <= bw_2 <= 31 -> 0 <= bw_3 <= 29 ->
  (Z.to_nat (2 ^ bw_2) <= fuel)%nat -> (Z.to_nat (2 ^ bw_3) <= fuel)%nat ->
  exists s,
    generate bw_2 bw_3 pf fuel = Done s
    /\ Z.of_nat (List.length (bin_2 s)) = Z.max 173 (2 ^ bw_2)
    /\ Z.of_nat (List.length (bin_3 s)) = Z.max 212 (2 ^ bw_3 * 4)
    /\ bytes_written_2 s = Z.max 173 (2 ^ bw_2)
    /\ bytes_written_3 s = Z.max 212 (2 ^ bw_3 * 4).
Proof.
  intros Hpf Hb2 Hb3 Hf2 Hf3.
  assert (Hp2 : 2 ^ bw_2 <= 2147483648).
  { change 2147483648 with (2 ^ 31). apply Z.pow_le_mono_r; lia. }
  assert (Hp3 : 2 ^ bw_3 * 4 <= 2147483648).
  { change 2147483648 with (2 ^ 29 * 4).
    apply Z.mul_le_mono_nonneg_r; [lia|]. apply Z.pow_le_mono_r; lia. }
  rewrite generate_eq. rewrite !u8_small by (unfold byte; lia).
  destruct (emit_descriptors_any_width pf bw_2 bw_3 Hpf)
    as (s1 & Hrun & B2 & B3 & W2 & W3 & L2 & L3).
  rewrite Hrun. cbn [bind].
  destruct (pad_2_total fuel s1) as (z2 & Hrun2 & Hc2 & Hl2);
    rewrite ?B2, ?W2; try lia.
  rewrite Hrun2. cbn [bind].
  destruct (pad_3_total fuel (push_2 z2 s1)) as (z3 & Hrun3 & Hc3 & Hl3);
    sim; rewrite ?B3, ?W3; try lia; try reflexivity.
  exists (push_3 z3 (push_2 z2 s1)). split; [exact Hrun3|].
  revert Hc2 Hl2 Hc3 Hl3. sim. rewrite !length_app, B2, B3, W2, W3.
  intros Hc2 Hl2 Hc3 Hl3. repeat split; lia.
Qed.

Lemma generate_for_any_width_witness :
  exists s,
    generate 7 5 win32 128 = Done s
    /\ Z.of_nat (List.length (bin_2 s)) = Z.max 173 (2 ^ 7)
    /\ Z.of_nat (List.length (bin_3 s)) = Z.max 212 (2 ^ 5 * 4)
    /\ bytes_written_2 s = Z.max 173 (2 ^ 7)
    /\ bytes_written_3 s = Z.max 212 (2 ^ 5 * 4).
Proof.
  apply (generate_for_any_width win32 7 5 128).
  - left. reflexivity.
  - lia.
  - lia.
  - vm_compute. lia.
  - vm_compute. lia.
Defined.

(** ** Strings where [wchar_t] has four bytes *)



